(** * Live heat-map feed: the browser consumer ([map.js]) and the Node
      producer ([websocket-server-example.js])

    The development embeds the two programs shallowly.  JavaScript numbers
    are IEEE 754 binary64 values, taken from the standard library's
    executable specification of floating-point arithmetic; JavaScript values
    are an inductive type; handlers are state transformers in a small monad
    with exceptions. *)

From Stdlib Require Import ZArith Bool List String Ascii DecimalString Lia.
From Stdlib Require Import Floats.SpecFloat.
From Stdlib Require Import QArith Qpower Qabs Lqa.
From stdpp Require Import base option list gmap strings.

Close Scope Q_scope.

Set Warnings "-register-all".
Local Open Scope string_scope.
Local Open Scope list_scope.

(* ===================================================================== *)
(** * Part I. Definitions                                                  *)
(* ===================================================================== *)

(** ** JavaScript numbers *)

Module JSNumber.

(** A Number is a binary64 float: sign, 53-bit mantissa, exponent, plus
    the two zeros, the two infinities and NaN. *)
Definition number : Type := spec_float.

Definition prec : Z := 53.
Definition emax : Z := 1024.

Definition nan : number := S754_nan.
Definition pos_infinity : number := S754_infinity false.
Definition neg_infinity : number := S754_infinity true.
Definition pos_zero : number := S754_zero false.
Definition neg_zero : number := S754_zero true.

(** [x + y], [x - y], [x * y], [x / y]: correctly rounded (to nearest,
    ties to even). *)
Definition add : number -> number -> number := SFadd prec emax.
Definition sub : number -> number -> number := SFsub prec emax.
Definition mul : number -> number -> number := SFmul prec emax.
Definition div : number -> number -> number := SFdiv prec emax.

(** [x < y], [x <= y]: false as soon as one side is NaN. *)
Definition lt : number -> number -> bool := SFltb.
Definition le : number -> number -> bool := SFleb.

(** The Number of an integer (exact below [2^53]). *)
Definition of_Z (z : Z) : number := binary_normalize prec emax z 0 false.

(** The Number denoted by a decimal literal with [k] digits after the
    point, [n / 10^k]: both operands are exact, and the division rounds
    their quotient the way the literal is rounded. *)
Definition decimal (n : Z) (k : Z) : number := div (of_Z n) (of_Z (10 ^ k)).

Definition isNaN (x : number) : bool :=
  match x with S754_nan => true | _ => false end.

Definition is_pos_zero (x : number) : bool :=
  match x with S754_zero false => true | _ => false end.

Definition is_neg_zero (x : number) : bool :=
  match x with S754_zero true => true | _ => false end.

(** [Math.abs]. *)
Definition Math_abs : number -> number := SFabs.

(** [Math.floor]: the largest integer not above [x]; zeros, infinities
    and NaN are returned unchanged. *)
Definition Math_floor (x : number) : number :=
  match x with
  | S754_finite s m e =>
      if (0 <=? e)%Z then x
      else binary_normalize prec emax
             (Z.shiftr (cond_Zopp s (Zpos m)) (- e)) 0 s
  | _ => x
  end.

(** One round of the loop of [Math.max]: NaN is absorbing, [+0] beats
    [-0], otherwise the larger value is kept. *)
Definition max_step (highest x : number) : number :=
  if isNaN highest then nan
  else if isNaN x then nan
  else if is_pos_zero x && is_neg_zero highest then x
  else if lt highest x then x
  else highest.

(** [Math.max(...args)] over already coerced arguments. *)
Definition Math_max (args : list number) : number :=
  fold_left max_step args neg_infinity.

Definition min_step (lowest x : number) : number :=
  if isNaN lowest then nan
  else if isNaN x then nan
  else if is_neg_zero x && is_pos_zero lowest then x
  else if lt x lowest then x
  else lowest.

(** [Math.min(...args)] over already coerced arguments. *)
Definition Math_min (args : list number) : number :=
  fold_left min_step args pos_infinity.

(** Membership in the closed unit interval, as a test on floats. *)
Definition in_unit (x : number) : bool := le pos_zero x && le x (of_Z 1).

(** [Math.random()] returns a Number in [[0, 1)]. *)
Definition in_random_range (x : number) : bool :=
  le pos_zero x && lt x (of_Z 1).

(** A zero, a finite value or an infinity that is not negative. *)
Definition non_negative (x : number) : bool :=
  match x with
  | S754_zero false | S754_finite false _ _ | S754_infinity false => true
  | _ => false
  end.

Definition is_finite (x : number) : bool :=
  match x with
  | S754_zero _ | S754_finite _ _ _ => true
  | _ => false
  end.

(** A finite value above zero. *)
Definition positive_finite (x : number) : bool :=
  match x with
  | S754_finite false _ _ => true
  | _ => false
  end.

(** The mantissa takes at most 53 bits, as it does in every binary64
    value. *)
Definition fits (x : number) : bool :=
  match x with
  | S754_finite _ m _ => (Zpos m <? 2 ^ 53)%Z
  | _ => true
  end.

(** The result of a rounding: never NaN, of the sign asked for, with a
    mantissa of at most 53 bits and an exponent the inputs bound; an
    infinity only when that exponent is beyond the largest one. *)
Definition exponent_bound (mx ex e : Z) : Prop :=
  forall b, (ex <= b -> Zdigits2 mx + ex - 53 <= b -> -1074 <= b -> e <= b + 1)%Z.

Inductive rounded (sx : bool) (mx ex : Z) : number -> Prop :=
| rounded_zero : rounded sx mx ex (S754_zero sx)
| rounded_infinity e :
    exponent_bound mx ex e -> (emax - prec < e)%Z ->
    rounded sx mx ex (S754_infinity sx)
| rounded_finite m e :
    (Zpos m < 2 ^ 53)%Z -> exponent_bound mx ex e ->
    rounded sx mx ex (S754_finite sx m e).

(** A number that is not NaN, has sign [sx] and a mantissa of at most 53
    bits. *)
Definition clean (sx : bool) (x : number) : Prop :=
  isNaN x = false /\ fits x = true /\
  match x with
  | S754_zero s | S754_infinity s | S754_finite s _ _ => s = sx
  | S754_nan => False
  end.

(** Structural equality. *)
Definition number_eqb (x y : number) : bool :=
  match x, y with
  | S754_zero s, S754_zero s' => Bool.eqb s s'
  | S754_infinity s, S754_infinity s' => Bool.eqb s s'
  | S754_nan, S754_nan => true
  | S754_finite s m e, S754_finite s' m' e' =>
      Bool.eqb s s' && Pos.eqb m m' && Z.eqb e e'
  | _, _ => false
  end.

End JSNumber.
Export JSNumber.


(** ** JavaScript values *)

Module JSValue.

(** The values the two programs handle: what [JSON.parse] returns, plus
    [undefined], which reading an absent property gives.  An object is its
    list of own properties in insertion order, read by the first match. *)
Inductive value : Type :=
| VUndefined
| VNull
| VBool (b : bool)
| VNum (n : number)
| VStr (s : string)
| VArr (items : list value)
| VObj (props : list (string * value)).

(** [ToBoolean]: what an [if], [!], [&&] or [||] sees. *)
Definition ToBoolean (v : value) : bool :=
  match v with
  | VUndefined | VNull => false
  | VBool b => b
  | VNum n =>
      match n with
      | S754_zero _ | S754_nan => false
      | _ => true
      end
  | VStr s => negb (String.eqb s "")
  | VArr _ | VObj _ => true
  end.

(** [Array.isArray]. *)
Definition Array_isArray (v : value) : bool :=
  match v with VArr _ => true | _ => false end.

(** [v === "s"] for a string literal [s]: no coercion. *)
Definition strict_eq_string (v : value) (s : string) : bool :=
  match v with VStr s' => String.eqb s' s | _ => false end.

Fixpoint lookup_prop (k : string) (props : list (string * value)) : value :=
  match props with
  | [] => VUndefined
  | (k', v) :: rest => if String.eqb k' k then v else lookup_prop k rest
  end.

(** [v.k] for one of the property names the handlers read ([type],
    [data], [region], [intensity], [active]): a [TypeError] ([None]) on
    [null] and [undefined]; the own property of an object; [undefined] on
    primitives and arrays, which carry no property of these names. *)
Definition Get (v : value) (k : string) : option value :=
  match v with
  | VUndefined | VNull => None
  | VObj props => Some (lookup_prop k props)
  | _ => Some VUndefined
  end.

(** [a.join(",")] given the strings of the elements. *)
Fixpoint join_comma (l : list string) : string :=
  match l with
  | [] => ""
  | [s] => s
  | s :: rest => String.append s (String.append "," (join_comma rest))
  end.

Section Coercions.

(** The two conversions between Numbers and their text are taken from
    the language: [Number::toString] and [StringToNumber]. *)
Variable NumberToString : number -> string.
Variable StringToNumber : string -> number.

(** [ToString]; inside [Array.prototype.join], [null] and [undefined]
    elements give the empty string. *)
Fixpoint ToString (v : value) : string :=
  match v with
  | VUndefined => "undefined"
  | VNull => "null"
  | VBool true => "true"
  | VBool false => "false"
  | VNum n => NumberToString n
  | VStr s => s
  | VArr items =>
      join_comma
        (List.map (fun x => match x with
                            | VUndefined | VNull => ""
                            | _ => ToString x
                            end) items)
  | VObj _ => "[object Object]"
  end.

(** [ToNumber], which [Math.min] and [Math.max] apply to each argument. *)
Definition ToNumber (v : value) : number :=
  match v with
  | VUndefined => nan
  | VNull => pos_zero
  | VBool true => of_Z 1
  | VBool false => pos_zero
  | VNum n => n
  | VStr s => StringToNumber s
  | VArr _ | VObj _ => StringToNumber (ToString v)
  end.

End Coercions.

(** [v.k] when it does not throw. *)
Definition field (v : value) (k : string) : value :=
  match Get v k with
  | Some x => x
  | None => VUndefined
  end.


(** Every Number inside the value has a mantissa of at most 53 bits. *)
Fixpoint value_fits (v : value) : bool :=
  match v with
  | VNum n => fits n
  | VArr items => forallb value_fits items
  | VObj props => forallb (fun kv => value_fits (snd kv)) props
  | _ => true
  end.

End JSValue.
Export JSValue.

(** ** Handlers as state transformers *)

Module Eff.

(** The outcome of running a piece of code on a state: it returns, it
    throws (the state keeps what was written before the throw), or the
    fuel given to a loop ran out. *)
Inductive outcome (S A : Type) : Type :=
| Return (a : A) (s : S)
| Throw (s : S)
| OutOfFuel.
Arguments Return {S A} a s.
Arguments Throw {S A} s.
Arguments OutOfFuel {S A}.

Definition M (S A : Type) : Type := S -> outcome S A.

Definition ret {S A} (a : A) : M S A := fun s => Return a s.

Definition bind {S A B} (m : M S A) (k : A -> M S B) : M S B :=
  fun s =>
    match m s with
    | Return a s' => k a s'
    | Throw s' => Throw s'
    | OutOfFuel => OutOfFuel
    end.

Definition throw {S A} : M S A := fun s => Throw s.

(** [try { body } catch (error) { handler }]. *)
Definition try_catch {S A} (body handler : M S A) : M S A :=
  fun s =>
    match body s with
    | Return a s' => Return a s'
    | Throw s' => handler s'
    | OutOfFuel => OutOfFuel
    end.

Definition get_state {S} : M S S := fun s => Return s s.
Definition modify {S} (f : S -> S) : M S unit := fun s => Return tt (f s).

(** A throwing primitive: [None] is the exception. *)
Definition lift_option {S A} (o : option A) : M S A :=
  match o with Some a => ret a | None => throw end.

Definition when {S} (c : bool) (m : M S unit) : M S unit :=
  if c then m else ret tt.

(** The state a run leaves behind, when it ends. *)
Definition final_state {S A} (o : outcome S A) : option S :=
  match o with
  | Return _ s => Some s
  | Throw s => Some s
  | OutOfFuel => None
  end.

(** [keeps P m]: run from a state in [P], [m] ends in a state in [P],
    whether it returns or throws. *)
Definition keeps {S A} (P : S -> Prop) (m : M S A) : Prop :=
  forall s, P s ->
    match m s with
    | Return _ s' => P s'
    | Throw s' => P s'
    | OutOfFuel => True
    end.

End Eff.
Export Eff.

Notation "'let*' x ':=' m 'in' k" := (bind m (fun x => k))
  (at level 10, x name, m at level 100, k at level 200).
Notation "m ';;' k" := (bind m (fun _ => k))
  (at level 100, k at level 200, right associativity).


(** ** The host: what the language and its runtime provide *)

(** The built-ins of the runtime that the programs call and that are not
    part of them.  [Math_random k] is the [k]-th number drawn;
    [WebSocket_accepts url] tells whether [new WebSocket(url)] returns
    rather than throws; [JSON_parse] gives [None] for a [SyntaxError]. *)
Class Host : Type := {
  JSON_parse : string -> option value;
  JSON_stringify : value -> string;
  NumberToString : number -> string;
  StringToNumber : string -> number;
  toFixed : number -> nat -> string;
  Math_random : nat -> number;
  WebSocket_accepts : value -> bool
}.

(** What the language guarantees of these built-ins: a random draw is a
    Number of [[0, 1)]; the Numbers they return are binary64 values. *)
Record sane (H : Host) : Prop := {
  random_in_range : forall k, in_random_range (Math_random k) = true;
  random_fits : forall k, fits (Math_random k) = true;
  parsed_fits : forall text v, JSON_parse text = Some v -> value_fits v = true;
  converted_fits : forall text, fits (StringToNumber text) = true
}.

(** The four values of [readyState]. *)
Inductive ready_state : Type := CONNECTING | OPEN | CLOSING | CLOSED.

Definition ready_state_eqb (a b : ready_state) : bool :=
  match a, b with
  | CONNECTING, CONNECTING | OPEN, OPEN | CLOSING, CLOSING
  | CLOSED, CLOSED => true
  | _, _ => false
  end.

(** One line of console output. *)
Inductive level : Type := Log | Warn | Error.

Record entry : Type := mkEntry {
  lvl : level;
  text : string;
  args : list value
}.

(** ** The consumer: [map.js] *)

Module MapJs.

(** A [WebSocket] object of the browser. *)
Record web_socket : Type := mkWebSocket {
  url : value;
  readyState : ready_state;
  outbox : list string
}.

(** The function [onclose] passes to [setTimeout]. *)
Inductive callback : Type := retry_connection.

Record timer : Type := mkTimer {
  delay : nat;
  action : callback
}.

(** The globals the script keeps on [window], the sockets it has created,
    the pending timeouts and the console.  [heatmapLayer] holds the point
    set of the overlay once the layer exists. *)
Record window : Type := mkWindow {
  heatmapLayer : option (list value);
  wsReconnectDisabled : value;
  WEBSOCKET_URL : value;
  heatmapWebSocket : option nat;
  sockets : gmap nat web_socket;
  timers : list timer;
  console : list entry
}.

Definition set_heatmapLayer (l : option (list value)) (w : window) : window :=
  mkWindow l (wsReconnectDisabled w) (WEBSOCKET_URL w) (heatmapWebSocket w)
           (sockets w) (timers w) (console w).

Definition set_wsReconnectDisabled (v : value) (w : window) : window :=
  mkWindow (heatmapLayer w) v (WEBSOCKET_URL w) (heatmapWebSocket w)
           (sockets w) (timers w) (console w).

Definition set_heatmapWebSocket (h : option nat) (w : window) : window :=
  mkWindow (heatmapLayer w) (wsReconnectDisabled w) (WEBSOCKET_URL w) h
           (sockets w) (timers w) (console w).

Definition set_sockets (s : gmap nat web_socket) (w : window) : window :=
  mkWindow (heatmapLayer w) (wsReconnectDisabled w) (WEBSOCKET_URL w)
           (heatmapWebSocket w) s (timers w) (console w).

Definition set_timers (t : list timer) (w : window) : window :=
  mkWindow (heatmapLayer w) (wsReconnectDisabled w) (WEBSOCKET_URL w)
           (heatmapWebSocket w) (sockets w) t (console w).

Definition set_console (c : list entry) (w : window) : window :=
  mkWindow (heatmapLayer w) (wsReconnectDisabled w) (WEBSOCKET_URL w)
           (heatmapWebSocket w) (sockets w) (timers w) c.

(** The window with more lines on its console. *)
Definition logged (w : window) (es : list entry) : window :=
  set_console (console w ++ es) w.

Definition print (l : level) (t : string) (a : list value) : M window unit :=
  modify (fun w => set_console (console w ++ [mkEntry l t a]) w).

(** The heat layer has been created. *)
Definition has_layer (w : window) : Prop := is_Some (heatmapLayer w).

Definition latlng (lat lng intensity : Z) : value :=
  VArr [VNum (decimal lat 4); VNum (decimal lng 4); VNum (decimal intensity 1)].

(** Fallback static data (used if WebSocket fails or for initial load). *)
Definition fallbackStaticData : list value := [
  latlng 230225 725714 10 (* Ahmedabad - maximum intensity *);
  latlng 223072 708022 8 (* Jamnagar *);
  latlng 211702 728311 9 (* Surat *);
  latlng 231815 696692 7 (* Kutch *);
  latlng 224707 700583 8 (* Rajkot *);
  latlng 232156 726369 9 (* Gandhinagar *);
  latlng 223039 708022 7 (* Porbandar *);
  latlng 217645 721519 8 (* Vadodara *);
  latlng 238481 721293 7 (* Patan *);
  latlng 245854 727023 6 (* Palanpur *);
  latlng 223094 731812 7 (* Anand *);
  latlng 226015 729697 8 (* Bharuch *);
  latlng 231667 701333 6 (* Bhuj *);
  latlng 223000 732000 7 (* Nadiad *);
  latlng 230333 726167 9 (* Kalol *);
  latlng 227000 728667 7 (* Mehsana *);
  latlng 215167 704500 6 (* Junagadh *);
  latlng 225667 729167 7 (* Modasa *);
  latlng 230833 726333 8 (* Sanand *);
  latlng 224500 728000 7 (* Kheda *);
  latlng 230225 725714 10 (* Ahmedabad center (maximum intensity) *);
  latlng 230325 725814 9 (* Ahmedabad area *);
  latlng 230125 725614 9 (* Ahmedabad area *);
  latlng 230425 725914 8 (* Ahmedabad area *);
  latlng 230025 725514 8 (* Ahmedabad area *);
  latlng 223072 708022 8 (* Jamnagar *);
  latlng 211702 728311 9 (* Surat *);
  latlng 211802 728411 8 (* Surat area *);
  latlng 211602 728211 8 (* Surat area *);
  latlng 211902 728511 7 (* Surat area *);
  latlng 211502 728111 7 (* Surat area *);
  latlng 208883 704011 9 (* Somnath Mandir - high intensity *);
  latlng 208983 704111 8 (* Somnath area *);
  latlng 208783 703911 8 (* Somnath area *)
].

(** [window.heatmapLayer.setLatLngs(points)]: one assignment of the whole
    point set. *)
Definition setLatLngs (points : list value) : M window unit :=
  modify (set_heatmapLayer (Some points)).

(** Function to update heatmap with new data. *)
Definition updateHeatmapData (data : value) : M window unit :=
  let* w := get_state in
  match heatmapLayer w, data with
  | Some _, VArr points =>
      setLatLngs points ;;
      print Log "Heatmap updated via WebSocket with"
            [VNum (of_Z (Z.of_nat (length points))); VStr "data points at"]
  | _, _ => ret tt
  end.

(** Function to use fallback static data. *)
Definition useFallbackData : M window unit :=
  let* w := get_state in
  match heatmapLayer w with
  | Some _ =>
      setLatLngs fallbackStaticData ;;
      print Log "Using fallback static data with"
            [VNum (of_Z (Z.of_nat (length fallbackStaticData)));
             VStr "data points"]
  | None => ret tt
  end.

Section WithHost.
Context `{Host}.

(** [new WebSocket(wsUrl)]: throws when the URL is refused, otherwise a
    fresh socket in the connecting state. *)
Definition new_WebSocket (wsUrl : value) : M window nat :=
  if WebSocket_accepts wsUrl then
    let* w := get_state in
    let ws := fresh (dom (sockets w)) in
    modify (set_sockets (<[ws := mkWebSocket wsUrl CONNECTING []]> (sockets w))) ;;
    ret ws
  else throw.

(** [ws.send(text)]: an [InvalidStateError] while connecting; queued when
    open; dropped once closing or closed. *)
Definition send (ws : nat) (payload : string) : M window unit :=
  let* w := get_state in
  match sockets w !! ws with
  | Some sock =>
      match readyState sock with
      | CONNECTING => throw
      | OPEN =>
          modify (set_sockets
                    (<[ws := mkWebSocket (url sock) OPEN (outbox sock ++ [payload])]>
                       (sockets w)))
      | _ => ret tt
      end
  | None => ret tt
  end.

Definition read (v : value) (k : string) : M window value :=
  lift_option (Get v k).

(** [window.WEBSOCKET_URL || "ws://localhost:8080/heatmap-updates"]. *)
Definition wsUrl (w : window) : value :=
  if ToBoolean (WEBSOCKET_URL w) then WEBSOCKET_URL w
  else VStr "ws://localhost:8080/heatmap-updates".

(** WebSocket connection for real-time updates: everything in
    [connectWebSocket] up to the assignment of the handlers, which are
    the four functions below. *)
Definition connectWebSocket : M window unit :=
  let* w := get_state in
  try_catch
    (print Log "Connecting to WebSocket:" [wsUrl w] ;;
     let* ws := new_WebSocket (wsUrl w) in
     modify (set_heatmapWebSocket (Some ws)))
    (print Error "Failed to create WebSocket connection:" [] ;;
     useFallbackData).

Definition onopen (ws : nat) : M window unit :=
  print Log "WebSocket connection opened successfully" [] ;;
  send ws (JSON_stringify
             (VObj [("type", VStr "request_data"); ("region", VStr "gujarat")])).

(** [message.type === tag && message.data], as a condition. *)
Definition tagged (message : value) (tag : string) : M window bool :=
  let* t := read message "type" in
  if strict_eq_string t tag then
    let* d := read message "data" in ret (ToBoolean d)
  else ret false.

(** [message.data && Array.isArray(message.data)], as a condition. *)
Definition nested (message : value) : M window bool :=
  let* d := read message "data" in
  if ToBoolean d then
    let* d' := read message "data" in ret (Array_isArray d')
  else ret false.

(** The [if]/[else if] chain of [ws.onmessage]. *)
Definition handle_message (message : value) : M window unit :=
  let* c1 := tagged message "heatmap_update" in
  if c1 then
    let* d := read message "data" in updateHeatmapData d
  else
    let* c2 := tagged message "full_update" in
    if c2 then
      let* d := read message "data" in updateHeatmapData d
    else if Array_isArray message then
      updateHeatmapData message
    else
      let* c4 := nested message in
      if c4 then
        let* d := read message "data" in updateHeatmapData d
      else
        print Warn "Unknown message format:" [message].

(** The handler as the specification words it.  A message has the
    shape [full_update] or [heatmap_update] when it carries that [type]
    and its [data] is an array of points, it is a bare array when it is
    an array itself, and it has nested data when its [data] is an
    array. *)
Inductive shape : Type :=
| full_update_shape
| heatmap_update_shape
| bare_array_shape
| nested_data_shape.

Definition has_shape (sh : shape) (message : value) : bool :=
  match sh with
  | full_update_shape =>
      strict_eq_string (field message "type") "full_update"
      && Array_isArray (field message "data")
  | heatmap_update_shape =>
      strict_eq_string (field message "type") "heatmap_update"
      && Array_isArray (field message "data")
  | bare_array_shape => Array_isArray message
  | nested_data_shape => Array_isArray (field message "data")
  end.

(** The first shape the message has, in the order of the
    specification; [None] when it has none of them. *)
Definition classify (message : value) : option shape :=
  List.find (fun sh => has_shape sh message)
    [full_update_shape; heatmap_update_shape; bare_array_shape;
     nested_data_shape].

(** The point set each shape holds. *)
Definition extraction (sh : shape) (message : value) : value :=
  match sh with
  | bare_array_shape => message
  | _ => field message "data"
  end.

(** On a match the overlay is replaced by the extracted points; a
    message of no shape is dropped with a warning. *)
Definition handle_by_shape (message : value) : M window unit :=
  match classify message with
  | Some sh => updateHeatmapData (extraction sh message)
  | None => print Warn "Unknown message format:" [message]
  end.

Definition onmessage (ws : nat) (data : string) : M window unit :=
  try_catch
    (let* message := lift_option (JSON_parse data) in
     handle_message message)
    (print Error "Error parsing WebSocket message:" [] ;;
     print Error "Raw message:" [VStr data]).

Definition onerror (ws : nat) : M window unit :=
  print Error "WebSocket error:" [] ;;
  useFallbackData.

(** [setTimeout(f, ms)]. *)
Definition setTimeout (f : callback) (ms : nat) : M window unit :=
  modify (fun w => set_timers (timers w ++ [mkTimer ms f]) w).

Definition onclose (ws : nat) (code reason : value) : M window unit :=
  print Log "WebSocket connection closed" [code; reason] ;;
  useFallbackData ;;
  print Log "Attempting to reconnect in 5 seconds..." [] ;;
  setTimeout retry_connection 5000.

(** The body of the function given to [setTimeout]. *)
Definition run_callback (f : callback) : M window unit :=
  match f with
  | retry_connection =>
      let* w := get_state in
      if negb (ToBoolean (wsReconnectDisabled w)) then connectWebSocket
      else ret tt
  end.

(** [addGujaratHeatmap], given whether the heat-layer library has
    loaded: create the layer if there is none, show the fallback data,
    connect. *)
Definition addGujaratHeatmap (heatLayer_defined : bool) : M window bool :=
  if heatLayer_defined then
    let* w := get_state in
    match heatmapLayer w with
    | None =>
        modify (set_heatmapLayer (Some [])) ;;
        print Log "Gujarat heatmap layer created (awaiting data)" []
    | Some _ => ret tt
    end ;;
    useFallbackData ;;
    connectWebSocket ;;
    print Log "Gujarat heatmap initialized with WebSocket support" [] ;;
    ret true
  else ret false.

(** What the browser and the page's other scripts do to the consumer. *)
Inductive event : Type :=
| Opened (ws : nat)
| Message (ws : nat) (data : string)
| Failed (ws : nat)
| Closed (ws : nat) (code reason : value)
| Timeout (n : nat)
| Assign_wsReconnectDisabled (v : value).

Definition set_readyState (ws : nat) (r : ready_state) : M window unit :=
  modify (fun w =>
    match sockets w !! ws with
    | Some sock =>
        set_sockets (<[ws := mkWebSocket (url sock) r (outbox sock)]> (sockets w)) w
    | None => w
    end).

(** The browser updates [readyState], then calls the handler; a timeout
    is removed from the pending ones, then its function runs. *)
Definition dispatch (e : event) : M window unit :=
  match e with
  | Opened ws => set_readyState ws OPEN ;; onopen ws
  | Message ws data => onmessage ws data
  | Failed ws => onerror ws
  | Closed ws code reason => set_readyState ws CLOSED ;; onclose ws code reason
  | Timeout n =>
      let* w := get_state in
      match timers w !! n with
      | Some t =>
          modify (set_timers (take n (timers w) ++ drop (S n) (timers w))) ;;
          run_callback (action t)
      | None => ret tt
      end
  | Assign_wsReconnectDisabled v => modify (set_wsReconnectDisabled v)
  end.

(** The event loop: an exception that escapes a handler is reported by
    the browser and the page goes on with the state as the handler left
    it. *)
Definition step (e : event) (w : window) : window :=
  match dispatch e w with
  | Return _ w' => w'
  | Throw w' => w'
  | OutOfFuel => w
  end.

End WithHost.

(** The page before the script has run. *)
Definition page (configured_url : value) : window :=
  mkWindow None VUndefined configured_url None ∅ [] [].

End MapJs.

(** ** The producer: [websocket-server-example.js] *)

Module Server.

(** A heat point [[lat, lng, intensity]]. *)
Definition point : Type := (number * number * number)%type.

Definition point_value (p : point) : value :=
  let '(lat, lng, intensity) := p in VArr [VNum lat; VNum lng; VNum intensity].

(** Somnath Temple coordinates. *)
Definition SOMNATH_TEMPLE_lat : number := decimal 208883 4.
Definition SOMNATH_TEMPLE_lng : number := decimal 704011 4.

Definition pt (lat lng intensity : Z) : point :=
  (decimal lat 4, decimal lng 4, decimal intensity 1).

(** Base heatmap data for Gujarat. *)
Definition baseHeatmapData : list point := [
  pt 230225 725714 7 (* Ahmedabad *);
  pt 223072 708022 6 (* Jamnagar *);
  pt 211702 728311 7 (* Surat *);
  pt 231815 696692 5 (* Kutch *);
  pt 224707 700583 6 (* Rajkot *);
  pt 232156 726369 7 (* Gandhinagar *);
  pt 217645 721519 6 (* Vadodara *);
  pt 230333 726167 7 (* Kalol *);
  pt 227000 728667 5 (* Mehsana *)
].

(** A connection as the [ws] library holds it. *)
Record socket : Type := mkSocket {
  readyState : ready_state;
  sent : list string
}.

(** The module-level variables, the connections, the count of
    [Math.random()] calls made so far and the console. *)
Record server : Type := mkServer {
  somnathCrowdIntensity : number;
  crowdGatheringActive : value;
  updateCount : number;
  clients : list nat;
  sockets : gmap nat socket;
  draws : nat;
  console : list entry
}.

Definition set_somnathCrowdIntensity (x : number) (s : server) : server :=
  mkServer x (crowdGatheringActive s) (updateCount s) (clients s)
           (sockets s) (draws s) (console s).

Definition set_crowdGatheringActive (v : value) (s : server) : server :=
  mkServer (somnathCrowdIntensity s) v (updateCount s) (clients s)
           (sockets s) (draws s) (console s).

Definition set_updateCount (x : number) (s : server) : server :=
  mkServer (somnathCrowdIntensity s) (crowdGatheringActive s) x (clients s)
           (sockets s) (draws s) (console s).

Definition set_clients (c : list nat) (s : server) : server :=
  mkServer (somnathCrowdIntensity s) (crowdGatheringActive s) (updateCount s)
           c (sockets s) (draws s) (console s).

Definition set_sockets (m : gmap nat socket) (s : server) : server :=
  mkServer (somnathCrowdIntensity s) (crowdGatheringActive s) (updateCount s)
           (clients s) m (draws s) (console s).

Definition set_draws (n : nat) (s : server) : server :=
  mkServer (somnathCrowdIntensity s) (crowdGatheringActive s) (updateCount s)
           (clients s) (sockets s) n (console s).

Definition set_console (c : list entry) (s : server) : server :=
  mkServer (somnathCrowdIntensity s) (crowdGatheringActive s) (updateCount s)
           (clients s) (sockets s) (draws s) c.

(** The loop counter runs through [0 .. n] exactly and the loop
    condition [i < numPoints - 1] holds below [n] and fails at [n]. *)
Definition counts_to (numPoints : number) (n : nat) : bool :=
  forallb (fun j => lt (of_Z j) (sub numPoints (of_Z 1))
                    && number_eqb (add (of_Z j) (of_Z 1)) (of_Z (j + 1)))
          (List.map Z.of_nat (seq 0 n))
  && negb (lt (of_Z (Z.of_nat n)) (sub numPoints (of_Z 1))).

(** The stored intensity is NaN or a binary64 value of the unit
    interval. *)
Definition intensity_ok (x : number) : bool :=
  isNaN x || (in_unit x && fits x).

(** What every state the server reaches satisfies. *)
Definition steady (s : server) : Prop :=
  intensity_ok (somnathCrowdIntensity s) = true /\
  non_negative (updateCount s) = true /\
  fits (updateCount s) = true /\
  NoDup (clients s).

(** The three variables and the set of clients are the same in both
    states. *)
Definition same_variables (s s' : server) : Prop :=
  somnathCrowdIntensity s' = somnathCrowdIntensity s /\
  crowdGatheringActive s' = crowdGatheringActive s /\
  updateCount s' = updateCount s /\
  clients s' = clients s.

(** The variables as the script initialises them. *)
Definition boot : server :=
  mkServer (decimal 5 1) (VBool true) pos_zero [] ∅ 0 [].

(** The server with more lines on its console. *)
Definition logged (s : server) (es : list entry) : server :=
  set_console (console s ++ es) s.

(** What [if (client.readyState === WebSocket.OPEN) client.send(message)]
    does to the table of connections, and what the whole [forEach]
    does. *)
Definition deliver (message : string) (socks : gmap nat socket) (client : nat)
  : gmap nat socket :=
  match socks !! client with
  | Some sock =>
      if ready_state_eqb (readyState sock) OPEN
      then <[client := mkSocket OPEN (sent sock ++ [message])]> socks
      else socks
  | None => socks
  end.

Definition broadcast (message : string) (cs : list nat) (socks : gmap nat socket)
  : gmap nat socket :=
  fold_left (deliver message) cs socks.

Definition print (l : level) (t : string) (a : list value) : M server unit :=
  modify (fun s => set_console (console s ++ [mkEntry l t a]) s).

(** [clients.add(ws)] and [clients.delete(ws)] on a [Set] kept in
    insertion order. *)
Definition clients_add (ws : nat) (l : list nat) : list nat :=
  if bool_decide (ws ∈ l) then l else l ++ [ws].

Definition clients_delete (ws : nat) (l : list nat) : list nat :=
  filter (fun c => c ≠ ws) l.

(** [set.forEach(f)]. *)
Fixpoint forEach {S A} (l : list A) (f : A -> M S unit) : M S unit :=
  match l with
  | [] => ret tt
  | x :: rest => f x ;; forEach rest f
  end.

Section WithHost.
Context `{Host}.

(** [Math.random()]. *)
Definition random : M server number :=
  fun s => Return (Math_random (draws s)) (set_draws (S (draws s)) s).

Definition read (v : value) (k : string) : M server value :=
  lift_option (Get v k).

(** [ws.send(text)] of the [ws] library: an error while connecting;
    written when open; dropped without an error once closing or closed. *)
Definition send (ws : nat) (payload : string) : M server unit :=
  let* s := get_state in
  match sockets s !! ws with
  | Some sock =>
      match readyState sock with
      | CONNECTING => throw
      | OPEN =>
          modify (set_sockets
                    (<[ws := mkSocket OPEN (sent sock ++ [payload])]> (sockets s)))
      | _ => ret tt
      end
  | None => ret tt
  end.

(** The [for] loop of [generateSomnathHeatPoints], from counter [i]:
    each round draws the two offsets and the intensity factor, in that
    order, and pushes one point. *)
Fixpoint surrounding (fuel : nat) (intensity numPoints i : number)
    (points : list point) : M server (list point) :=
  if lt i (sub numPoints (of_Z 1)) then
    match fuel with
    | O => fun _ => OutOfFuel
    | S fuel' =>
        let* r1 := random in
        let latOffset := mul (sub r1 (decimal 5 1)) (decimal 1 2) in
        let* r2 := random in
        let lngOffset := mul (sub r2 (decimal 5 1)) (decimal 1 2) in
        let* r3 := random in
        let pointIntensity :=
          mul intensity (add (decimal 7 1) (mul r3 (decimal 3 1))) in
        surrounding fuel' intensity numPoints (add i (of_Z 1))
          (points ++ [(add SOMNATH_TEMPLE_lat latOffset,
                       add SOMNATH_TEMPLE_lng lngOffset,
                       Math_min [of_Z 1; pointIntensity])])
    end
  else ret points.

(** The point one round pushes, given its three draws. *)
Definition satellite (intensity r1 r2 r3 : number) : point :=
  (add SOMNATH_TEMPLE_lat (mul (sub r1 (decimal 5 1)) (decimal 1 2)),
   add SOMNATH_TEMPLE_lng (mul (sub r2 (decimal 5 1)) (decimal 1 2)),
   Math_min [of_Z 1; mul intensity (add (decimal 7 1) (mul r3 (decimal 3 1)))]).

(** The points of [n] rounds that start at draw [d]. *)
Fixpoint satellites (intensity : number) (d n : nat) : list point :=
  match n with
  | O => []
  | S n' =>
      satellite intensity (Math_random d) (Math_random (d + 1))
                (Math_random (d + 2))
      :: satellites intensity (d + 3) n'
  end.

(** Function to generate heatmap data points around Somnath Temple. *)
Definition generateSomnathHeatPoints (fuel : nat) (intensity : number)
  : M server (list point) :=
  let numPoints := add (Math_floor (mul intensity (of_Z 15))) (of_Z 5) in
  surrounding fuel intensity numPoints pos_zero
    [(SOMNATH_TEMPLE_lat, SOMNATH_TEMPLE_lng, intensity)].

(** Function to get current heatmap data. *)
Definition getCurrentHeatmapData (fuel : nat) : M server (list point) :=
  let* s := get_state in
  let* somnathPoints := generateSomnathHeatPoints fuel (somnathCrowdIntensity s) in
  ret (baseHeatmapData ++ somnathPoints).

(** The object a [full_update] carries, before [JSON.stringify]. *)
Definition full_update (data : list point) (label : string) (intensity : number)
  : value :=
  VObj [("type", VStr "full_update");
        ("data", VArr (List.map point_value data));
        ("message", VStr (String.append label (toFixed intensity 2)))].

(** [wss.on("connection", ...)]: the body up to the registration of the
    three handlers, for the new connection [ws]. *)
Definition connection (fuel : nat) (ws : nat) : M server unit :=
  print Log "New client connected:" [] ;;
  modify (fun s => set_clients (clients_add ws (clients s)) s) ;;
  let* data := getCurrentHeatmapData fuel in
  let* s := get_state in
  send ws (JSON_stringify
             (full_update data
                "Initial heatmap data - Somnath Temple crowd intensity: "
                (somnathCrowdIntensity s))).

(** [data.type === "request_data" && data.region === "gujarat"]. *)
Definition is_request (data : value) : M server bool :=
  let* t := read data "type" in
  if strict_eq_string t "request_data" then
    let* r := read data "region" in ret (strict_eq_string r "gujarat")
  else ret false.

(** [data.type === tag]. *)
Definition has_type (data : value) (tag : string) : M server bool :=
  let* t := read data "type" in ret (strict_eq_string t tag).

(** Handle request for data. *)
Definition handle_request (fuel : nat) (ws : nat) (data : value) : M server unit :=
  let* c := is_request data in
  when c
    (let* points := getCurrentHeatmapData fuel in
     let* s := get_state in
     send ws (JSON_stringify
                (full_update points "Somnath Temple crowd intensity: "
                   (somnathCrowdIntensity s)))).

(** [Math.max(0, Math.min(1.0, v))], with the coercion [Math.min]
    applies to [v]. *)
Definition clamped (v : value) : number :=
  Math_max [pos_zero;
            Math_min [of_Z 1; ToNumber NumberToString StringToNumber v]].

(** Handle manual crowd control (optional). *)
Definition handle_set_crowd_intensity (data : value) : M server unit :=
  let* c := has_type data "set_crowd_intensity" in
  when c
    (let* v := read data "intensity" in
     modify (set_somnathCrowdIntensity (clamped v)) ;;
     let* s := get_state in
     print Log "Crowd intensity manually set to:"
           [VNum (somnathCrowdIntensity s)]).

Definition handle_toggle_gathering (data : value) : M server unit :=
  let* c := has_type data "toggle_gathering" in
  when c
    (let* v := read data "active" in
     modify (set_crowdGatheringActive v) ;;
     print Log "Crowd gathering:"
           [VStr (if ToBoolean v then "ACTIVE" else "PAUSED")]).

(** The three conditions on a message that is not [null], and the state
    the second and third branches leave. *)
Definition requests_gujarat (data : value) : bool :=
  strict_eq_string (field data "type") "request_data"
  && strict_eq_string (field data "region") "gujarat".

Definition sets_intensity (data : value) : bool :=
  strict_eq_string (field data "type") "set_crowd_intensity".

Definition toggles_gathering (data : value) : bool :=
  strict_eq_string (field data "type") "toggle_gathering".

Definition with_intensity_set (data : value) (s : server) : server :=
  if sets_intensity data then
    logged (set_somnathCrowdIntensity (clamped (field data "intensity")) s)
      [mkEntry Log "Crowd intensity manually set to:"
         [VNum (clamped (field data "intensity"))]]
  else s.

Definition with_gathering_toggled (data : value) (s : server) : server :=
  if toggles_gathering data then
    logged (set_crowdGatheringActive (field data "active") s)
      [mkEntry Log "Crowd gathering:"
         [VStr (if ToBoolean (field data "active") then "ACTIVE" else "PAUSED")]]
  else s.

(** [ws.on("message", ...)]: the three [if]s in turn, inside the [try]. *)
Definition incoming (fuel : nat) (ws : nat) (message : string) : M server unit :=
  try_catch
    (let* data := lift_option (JSON_parse message) in
     print Log "Received:" [data] ;;
     handle_request fuel ws data ;;
     handle_set_crowd_intensity data ;;
     handle_toggle_gathering data)
    (print Error "Error parsing message:" []).

(** [ws.on("close", ...)] and [ws.on("error", ...)]. *)
Definition close (ws : nat) : M server unit :=
  print Log "Client disconnected" [] ;;
  modify (fun s => set_clients (clients_delete ws (clients s)) s).

Definition error (ws : nat) : M server unit :=
  print Error "WebSocket error:" [] ;;
  modify (fun s => set_clients (clients_delete ws (clients s)) s).

(** The body of [if (crowdGatheringActive)] in the interval handler:
    count the update, move the intensity towards its target with a small
    variation, and one time in ten add the peak. *)
Definition gather : M server unit :=
  modify (fun s => set_updateCount (add (updateCount s) (of_Z 1)) s) ;;
  let* s := get_state in
  let targetIntensity :=
    Math_min [of_Z 1;
              add (decimal 5 1)
                  (mul (div (updateCount s) (of_Z 100)) (decimal 5 1))] in
  let* r := random in
  let variation := mul (sub r (decimal 5 1)) (decimal 5 2) in
  modify (set_somnathCrowdIntensity
            (Math_max [decimal 3 1;
                       Math_min [of_Z 1; add targetIntensity variation]])) ;;
  let* r' := random in
  when (lt r' (decimal 1 1))
    (modify (fun s => set_somnathCrowdIntensity
                        (Math_min [of_Z 1;
                                   add (somnathCrowdIntensity s) (decimal 2 1)]) s) ;;
     print Log "🌟 Peak crowd detected at Somnath Temple!" []).

(** [targetIntensity], the intensity after the variation, and the peak. *)
Definition target (count : number) : number :=
  Math_min [of_Z 1;
            add (decimal 5 1) (mul (div count (of_Z 100)) (decimal 5 1))].

Definition varied (count r : number) : number :=
  Math_max [decimal 3 1;
            Math_min [of_Z 1;
                      add (target count) (mul (sub r (decimal 5 1)) (decimal 5 2))]].

Definition peaked (x : number) : number :=
  Math_min [of_Z 1; add x (decimal 2 1)].

(** The state [gather] leaves. *)
Definition gathered (s : server) : server :=
  let count := add (updateCount s) (of_Z 1) in
  let x := varied count (Math_random (draws s)) in
  let peak := lt (Math_random (S (draws s))) (decimal 1 1) in
  mkServer (if peak then peaked x else x)
           (crowdGatheringActive s) count (clients s) (sockets s)
           (S (S (draws s)))
           (if peak
            then console s ++ [mkEntry Log "🌟 Peak crowd detected at Somnath Temple!" []]
            else console s).

(** The state at the moment the update is built: after the gathering
    step when the simulation is active, unchanged otherwise. *)
Definition advanced (s : server) : server :=
  if ToBoolean (crowdGatheringActive s) then gathered s else s.

(** The callback of [currentData.map]: points near the temple are kept,
    the others get a small random variation. *)
Definition vary (p : point) : M server point :=
  let '(lat, lng, intensity) := p in
  let isSomnathArea :=
    lt (Math_abs (sub lat SOMNATH_TEMPLE_lat)) (decimal 2 2)
    && lt (Math_abs (sub lng SOMNATH_TEMPLE_lng)) (decimal 2 2) in
  if isSomnathArea then ret p
  else
    let* r := random in
    let variation := mul (sub r (decimal 5 1)) (decimal 1 1) in
    let newIntensity :=
      Math_max [decimal 1 1; Math_min [of_Z 1; add intensity variation]] in
    ret (lat, lng, newIntensity).

(** [array.map(f)], left to right. *)
Fixpoint map_M {A B} (f : A -> M server B) (l : list A) : M server (list B) :=
  match l with
  | [] => ret []
  | x :: rest =>
      let* y := f x in
      let* ys := map_M f rest in
      ret (y :: ys)
  end.

(** The object a [heatmap_update] carries, before [JSON.stringify]. *)
Definition heatmap_update (updatedData : list point) (timestamp : string)
    (intensity : number) : value :=
  VObj [("type", VStr "heatmap_update");
        ("data", VArr (List.map point_value updatedData));
        ("timestamp", VStr timestamp);
        ("somnathIntensity", VStr (toFixed intensity 3));
        ("crowdCount", VNum (Math_floor (mul intensity (of_Z 1000))))].

(** [if (client.readyState === WebSocket.OPEN) client.send(message)]. *)
Definition send_if_open (message : string) (client : nat) : M server unit :=
  let* s := get_state in
  match sockets s !! client with
  | Some sock =>
      when (ready_state_eqb (readyState sock) OPEN) (send client message)
  | None => ret tt
  end.

(** The object the interval handler builds: the gathering step when the
    simulation is active, the current data, the variation of the other
    locations, then the object literal.  [now] is what
    [new Date().toISOString()] returns during this run. *)
Definition update_message (fuel : nat) (now : string) : M server value :=
  let* s := get_state in
  when (ToBoolean (crowdGatheringActive s)) gather ;;
  let* currentData := getCurrentHeatmapData fuel in
  let* updatedData := map_M vary currentData in
  let* s := get_state in
  ret (heatmap_update updatedData now (somnathCrowdIntensity s)).

(** The function given to [setInterval]. *)
Definition tick (fuel : nat) (now : string) : M server unit :=
  let* s := get_state in
  when (Nat.ltb 0 (length (clients s)))
    (let* update := update_message fuel now in
     let message := JSON_stringify update in
     let* s := get_state in
     forEach (clients s) (send_if_open message) ;;
     print Log "Update"
           [VNum (updateCount s);
            VStr (toFixed (somnathCrowdIntensity s) 3);
            VNum (Math_floor (mul (somnathCrowdIntensity s) (of_Z 1000)));
            VNum (of_Z (Z.of_nat (length (clients s))))]).

(** Consecutive runs of the interval handler. *)
Fixpoint ticks (fuel : nat) (nows : list string) : M server unit :=
  match nows with
  | [] => ret tt
  | now :: rest => tick fuel now ;; ticks fuel rest
  end.

(** What reaches the server. *)
Inductive event : Type :=
| Connection
| Incoming (ws : nat) (message : string)
| Close (ws : nat)
| Failure (ws : nat)
| Interval (now : string).

Definition set_readyState (ws : nat) (r : ready_state) : M server unit :=
  modify (fun s =>
    match sockets s !! ws with
    | Some sock => set_sockets (<[ws := mkSocket r (sent sock)]> (sockets s)) s
    | None => s
    end).

(** The library creates the connection, open, then emits [connection];
    it marks a connection closed, then emits [close]. *)
Definition dispatch (fuel : nat) (e : event) : M server unit :=
  match e with
  | Connection =>
      let* s := get_state in
      let ws := fresh (dom (sockets s)) in
      modify (set_sockets (<[ws := mkSocket OPEN []]> (sockets s))) ;;
      connection fuel ws
  | Incoming ws message => incoming fuel ws message
  | Close ws => set_readyState ws CLOSED ;; close ws
  | Failure ws => error ws
  | Interval now => tick fuel now
  end.

(** The event loop: the events in turn, each from the state the one
    before left. *)
Fixpoint run (fuel : nat) (events : list event) (s : server) : option server :=
  match events with
  | [] => Some s
  | e :: rest =>
      match final_state (dispatch fuel e s) with
      | Some s' => run fuel rest s'
      | None => None
      end
  end.

End WithHost.

End Server.

(** ** A concrete host, for the examples *)

Module Demo.

Definition quote : string := String (ascii_of_nat 34) EmptyString.

(** [q s] is [s] between double quotes. *)
Definition q (s : string) : string :=
  String.append quote (String.append s quote).

Fixpoint concat_all (l : list string) : string :=
  match l with
  | [] => ""
  | s :: rest => String.append s (concat_all rest)
  end.

Definition digits (z : Z) : string :=
  NilZero.string_of_uint (N.to_uint (Z.to_N z)).

Fixpoint zeros (n : nat) : string :=
  match n with
  | O => ""
  | S k => String "0" (zeros k)
  end.

(** The integer [n] written with [d] digits after the point. *)
Definition fixed (n : Z) (d : nat) : string :=
  let s := String.append (zeros (S d - String.length (digits n))) (digits n) in
  let k := (String.length s - d)%nat in
  if Nat.eqb d 0 then s
  else concat_all [String.substring 0 k s; "."; String.substring k d s].

(** [x.toFixed(d)] for [x] below [1e21]: the integer [n] nearest to
    [x * 10^d], the larger one on a tie, written with [d] decimals. *)
Definition to_fixed (x : number) (d : nat) : string :=
  match x with
  | S754_nan => "NaN"
  | S754_infinity s => if s then "-Infinity" else "Infinity"
  | S754_zero _ => fixed 0 d
  | S754_finite s m e =>
      let n := if (0 <=? e)%Z then (Zpos m * 2 ^ e * 10 ^ Z.of_nat d)%Z
               else ((2 * Zpos m * 10 ^ Z.of_nat d + 2 ^ (- e)) / 2 ^ (1 - e))%Z in
      String.append (if s && negb (n =? 0)%Z then "-" else "") (fixed n d)
  end.

Fixpoint strip_zeros (rev_digits : string) : string :=
  match rev_digits with
  | String "0" rest => strip_zeros rest
  | String "." rest => rest
  | _ => rev_digits
  end.

Fixpoint reverse (s acc : string) : string :=
  match s with
  | EmptyString => acc
  | String c rest => reverse rest (String c acc)
  end.

(** A decimal numeral that denotes [x] exactly (the runtime prints the
    shortest one that reads back as [x]; both read back as [x]). *)
Definition number_text (x : number) : string :=
  match x with
  | S754_nan => "NaN"
  | S754_infinity s => if s then "-Infinity" else "Infinity"
  | S754_zero _ => "0"
  | S754_finite s m e =>
      String.append (if s then "-" else "")
        (if (0 <=? e)%Z then digits (Zpos m * 2 ^ e)
         else reverse (strip_zeros
                         (reverse (fixed (Zpos m * 5 ^ (- e)) (Z.to_nat (- e))) ""))
                      "")
  end.

(** [StringToNumber] on the empty string and on unsigned decimal
    integers; NaN on the other strings the examples use. *)
Definition text_number (s : string) : number :=
  if String.eqb s "" then pos_zero
  else match NilZero.uint_of_string s with
       | Some u => of_Z (Z.of_N (N.of_uint u))
       | None => nan
       end.

(** [JSON.stringify] without escapes in strings. *)
Fixpoint stringify (v : value) : string :=
  match v with
  | VUndefined | VNull => "null"
  | VBool true => "true"
  | VBool false => "false"
  | VNum n => if is_finite n then number_text n else "null"
  | VStr s => q s
  | VArr items =>
      concat_all ["["; join_comma (List.map stringify items); "]"]
  | VObj props =>
      concat_all
        ["{";
         join_comma
           (List.map (fun kv => concat_all [q (fst kv); ":"; stringify (snd kv)])
                     props);
         "}"]
  end.

(** The messages the examples send. *)
Definition set_intensity_25 : value :=
  VObj [("type", VStr "set_crowd_intensity"); ("intensity", VNum (decimal 25 1))].
Definition set_intensity_minus_3 : value :=
  VObj [("type", VStr "set_crowd_intensity"); ("intensity", VNum (of_Z (-3)))].
Definition set_intensity_missing : value :=
  VObj [("type", VStr "set_crowd_intensity")].
Definition set_intensity_null : value :=
  VObj [("type", VStr "set_crowd_intensity"); ("intensity", VNull)].
Definition request_gujarat : value :=
  VObj [("type", VStr "request_data"); ("region", VStr "gujarat")].
Definition request_kutch : value :=
  VObj [("type", VStr "request_data"); ("region", VStr "kutch")].
Definition toggle_off : value :=
  VObj [("type", VStr "toggle_gathering"); ("active", VBool false)].
Definition two_points : list value :=
  [MapJs.latlng 230225 725714 7; MapJs.latlng 208883 704011 10].
Definition a_full_update : value :=
  VObj [("type", VStr "full_update"); ("data", VArr two_points)].
Definition a_heatmap_update : value :=
  VObj [("type", VStr "heatmap_update"); ("data", VArr two_points)].
Definition a_tagged_string : value :=
  VObj [("type", VStr "full_update"); ("data", VStr "soon")].
Definition a_status : value :=
  VObj [("status", VStr "ok")].

Definition known_messages : list value :=
  [set_intensity_25; set_intensity_minus_3; set_intensity_missing;
   set_intensity_null; request_gujarat; request_kutch; toggle_off;
   a_full_update; a_heatmap_update; a_tagged_string; a_status;
   VArr two_points; VNull].

(** [JSON.parse] on the texts of the messages above; a [SyntaxError] on
    the other texts the examples use. *)
Definition parse (text : string) : option value :=
  List.find (fun v => String.eqb (stringify v) text) known_messages.

(** The draws repeat 0.05, 0.5, 0.95. *)
Definition random_draw (k : nat) : number :=
  match Nat.modulo k 3 with
  | 0 => decimal 5 2
  | 1 => decimal 5 1
  | _ => decimal 95 2
  end.

#[export] Instance host : Host := {|
  JSON_parse := parse;
  JSON_stringify := stringify;
  NumberToString := number_text;
  StringToNumber := text_number;
  toFixed := to_fixed;
  Math_random := random_draw;
  WebSocket_accepts := fun v => match v with VStr _ => true | _ => false end
|}.

(** The page once the layer exists and the connection is open. *)
Definition window_open : MapJs.window :=
  MapJs.mkWindow (Some MapJs.fallbackStaticData) VUndefined VUndefined (Some 0%nat)
    {[0%nat := MapJs.mkWebSocket (VStr "ws://localhost:8080/heatmap-updates")
                 OPEN [stringify request_gujarat]]}
    [] [].

(** A server with one open connection and one that is closing. *)
Definition two_viewers : Server.server :=
  Server.mkServer (decimal 5 1) (VBool true) pos_zero [0%nat; 1%nat]
    (<[1%nat := Server.mkSocket CLOSING []]>
       {[0%nat := Server.mkSocket OPEN []]})
    0 [].

(** The same with the simulation paused. *)
Definition two_viewers_paused : Server.server :=
  Server.set_crowdGatheringActive (VBool false) two_viewers.

Definition an_instant : string := "2025-01-01T00:00:00.000Z".

End Demo.

(** ** The value of a Number *)

Module Binary64.

(** The rational a finite Number denotes; zero for the zeros, and for
    the infinities and NaN, which denote none. *)
Definition to_Q (x : number) : Q :=
  match x with
  | S754_finite s m e => (inject_Z (cond_Zopp s (Zpos m)) * 2 ^ e)%Q
  | _ => 0%Q
  end.

(** A Number in the form the format stores it: the mantissa has 53 bits,
    or fewer at the smallest exponent, and the exponent is in range. *)
Definition binary64 (x : number) : bool := valid_binary prec emax x.

(** A zero or a finite binary64 value. *)
Definition finite64 (x : number) : bool := is_finite x && binary64 x.

(** No bit has been shifted out. *)
Definition exact_record (r : shr_record) : Prop :=
  shr_r r = false /\ shr_s r = false.

End Binary64.
Export Binary64.

(** ** The producer's data, point by point *)

Module ServerData.
Import Server.

(** Every draw of [Math.random()] is a binary64 value. *)
Definition binary64_draws (H : Host) : Prop :=
  forall k, binary64 (Math_random k) = true.

(** The test [isSomnathArea] of the interval handler. *)
Definition isSomnathArea (p : point) : bool :=
  let '(lat, lng, _) := p in
  lt (Math_abs (sub lat SOMNATH_TEMPLE_lat)) (decimal 2 2)
  && lt (Math_abs (sub lng SOMNATH_TEMPLE_lng)) (decimal 2 2).

(** What the callback of [currentData.map] returns for a point outside
    the temple area, given its draw. *)
Definition varied_point (p : point) (r : number) : point :=
  let '(lat, lng, intensity) := p in
  (lat, lng,
   Math_max [decimal 1 1;
             Math_min [of_Z 1;
                       add intensity (mul (sub r (decimal 5 1)) (decimal 1 1))]]).

(** The same for a list of such points, the first with draw [d]. *)
Fixpoint varied_points `{Host} (pts : list point) (d : nat) : list point :=
  match pts with
  | [] => []
  | p :: rest => varied_point p (Math_random d) :: varied_points rest (S d)
  end.

(** Binary64 values around the temple: 1407374883554 units in the last
    place below and above its latitude, 351843720889 below and above its
    longitude, and these two distances themselves (a little over 0.005). *)
Definition lat_lo : number := S754_finite false 5878126381141642 (-48).
Definition lat_hi : number := S754_finite false 5880941130908750 (-48).
Definition lng_lo : number := S754_finite false 4953685152005252 (-46).
Definition lng_hi : number := S754_finite false 4954388839447030 (-46).
Definition lat_span : number := S754_finite false 5764607523037184 (-60).
Definition lng_span : number := S754_finite false 5764607523045376 (-60).

(** A point of the cluster: within 0.005000001 degrees of the temple on
    both axes, with an intensity from zero to that of the centre. *)
Definition near_temple (intensity : number) (p : point) : Prop :=
  let '(lat, lng, i) := p in
  (Qabs (to_Q lat - to_Q SOMNATH_TEMPLE_lat) <= 5000001 # 1000000000)%Q /\
  (Qabs (to_Q lng - to_Q SOMNATH_TEMPLE_lng) <= 5000001 # 1000000000)%Q /\
  finite64 i = true /\ (0 <= to_Q i <= to_Q intensity)%Q.

End ServerData.

(** ** The consumer: how [map.js] starts *)

Module Startup.
Import MapJs.

(** *** [waitForLeaflet] *)

(** The variables of one call of [waitForLeaflet], the delays of the
    timeouts it has pending, each of which runs [check], and the
    console. *)
Record loader : Type := mkLoader {
  attempts : number;
  maxAttempts : value;
  pending : list nat;
  lines : list entry
}.

Definition set_attempts (x : number) (s : loader) : loader :=
  mkLoader x (maxAttempts s) (pending s) (lines s).

Definition set_maxAttempts (v : value) (s : loader) : loader :=
  mkLoader (attempts s) v (pending s) (lines s).

Definition set_pending (p : list nat) (s : loader) : loader :=
  mkLoader (attempts s) (maxAttempts s) p (lines s).

Definition set_lines (c : list entry) (s : loader) : loader :=
  mkLoader (attempts s) (maxAttempts s) (pending s) c.

Definition say (l : level) (t : string) (a : list value) : M loader unit :=
  modify (fun s => set_lines (lines s ++ [mkEntry l t a]) s).

Section WithHost.
Context `{Host}.

(** [check], given whether [L] is defined when it runs: count the
    attempt; call back, or try again in 100 ms, or give up. *)
Definition check (L_defined : bool) (callback : M loader unit) : M loader unit :=
  modify (fun s => set_attempts (add (attempts s) (of_Z 1)) s) ;;
  if L_defined then
    say Log "Leaflet loaded!" [] ;;
    callback
  else
    let* s := get_state in
    if lt (attempts s) (ToNumber NumberToString StringToNumber (maxAttempts s)) then
      modify (fun s => set_pending (pending s ++ [100%nat]) s)
    else
      say Error
          (String.append "Leaflet failed to load after "
             (String.append (ToString NumberToString (maxAttempts s)) " attempts"))
          [].

(** Wait for Leaflet to be available. *)
Definition waitForLeaflet (callback : M loader unit) (maxAttempts : value)
    (L_defined : bool) : M loader unit :=
  modify (set_maxAttempts
            (if ToBoolean maxAttempts then maxAttempts else VNum (of_Z 50))) ;;
  modify (set_attempts pos_zero) ;;
  check L_defined callback.

(** The oldest pending timeout fires. *)
Definition timeout_fires (L_defined : bool) (callback : M loader unit)
  : M loader unit :=
  let* s := get_state in
  match pending s with
  | [] => ret tt
  | _ :: rest => modify (set_pending rest) ;; check L_defined callback
  end.

(** The timeouts fire one after the other; [L_defined] tells for each
    whether [L] is defined by then. *)
Fixpoint polling (L_defined : list bool) (callback : M loader unit)
  : M loader unit :=
  match L_defined with
  | [] => ret tt
  | l :: rest => timeout_fires l callback ;; polling rest callback
  end.

(** The call of [waitForLeaflet] and the timeouts that follow it;
    [L_defined] tells for the call and for each timeout whether [L] is
    defined by then. *)
Definition waiting (callback : M loader unit) (maxAttempts : value)
    (L_defined : list bool) : M loader unit :=
  match L_defined with
  | [] => ret tt
  | first :: later =>
      waitForLeaflet callback maxAttempts first ;; polling later callback
  end.

End WithHost.

(** *** The heat layer's library *)

(** The page, the counter of the retries and whether the interval that
    retries is set. *)
Record startup : Type := mkStartup {
  win : window;
  retries : number;
  retryInterval : bool
}.

Definition set_win (w : window) (s : startup) : startup :=
  mkStartup w (retries s) (retryInterval s).

Definition set_retries (x : number) (s : startup) : startup :=
  mkStartup (win s) x (retryInterval s).

Definition set_retryInterval (b : bool) (s : startup) : startup :=
  mkStartup (win s) (retries s) b.

(** Code of the page run on the page inside the start-up state. *)
Definition in_window {A} (m : M window A) : M startup A :=
  fun s =>
    match m (win s) with
    | Return a w => Return a (set_win w s)
    | Throw w => Throw (set_win w s)
    | OutOfFuel => OutOfFuel
    end.

Section WithHost.
Context `{Host}.

(** The function given to [setTimeout(..., 500)]: try to add the heat
    map, retry every 100 ms if the library is not loaded yet. *)
Definition add_heatmap_soon (heatLayer_defined : bool) : M startup unit :=
  let* added := in_window (addGujaratHeatmap heatLayer_defined) in
  if negb added then
    modify (set_retries pos_zero) ;;
    modify (set_retryInterval true)
  else ret tt.

(** The function given to [setInterval(..., 100)]; [attempts] and
    [maxAttempts = 20] are its variables [retries] and the constant. *)
Definition retry (heatLayer_defined : bool) : M startup unit :=
  modify (fun s => set_retries (add (retries s) (of_Z 1)) s) ;;
  let* added := in_window (addGujaratHeatmap heatLayer_defined) in
  let* s := get_state in
  if added || le (of_Z 20) (retries s) then
    modify (set_retryInterval false) ;;
    if le (of_Z 20) (retries s) then
      in_window (print Error "Failed to load heatmap library after"
                       [VNum (of_Z 20); VStr "attempts"])
    else ret tt
  else ret tt.

(** The interval fires: its function runs unless it has been cleared. *)
Definition interval_fires (heatLayer_defined : bool) : M startup unit :=
  let* s := get_state in
  if retryInterval s then retry heatLayer_defined else ret tt.

(** The interval fires again and again; [heatLayer_defined] tells for
    each time whether the library is loaded by then. *)
Fixpoint retrying (heatLayer_defined : list bool) : M startup unit :=
  match heatLayer_defined with
  | [] => ret tt
  | l :: rest => interval_fires l ;; retrying rest
  end.

(** The timeout and the firings of the interval that follow it. *)
Definition starting (heatLayer_defined : list bool) : M startup unit :=
  match heatLayer_defined with
  | [] => ret tt
  | first :: later => add_heatmap_soon first ;; retrying later
  end.

(** The object [onopen] sends, before [JSON.stringify]. *)
Definition request_data : value :=
  VObj [("type", VStr "request_data"); ("region", VStr "gujarat")].

(** The events of the page in turn, each from the window the one
    before left. *)
Definition steps (events : list event) (w : window) : window :=
  fold_left (fun w e => step e w) events w.

End WithHost.

End Startup.

(** ** More hosts and states for the examples *)

Module Echo.

(** The host of the examples with a [JSON.parse] that reads back the
    texts of the values of a list, a [SyntaxError] on the others. *)
Definition host (known : list value) : Host := {|
  JSON_parse := fun text =>
    List.find (fun v => String.eqb (Demo.stringify v) text) known;
  JSON_stringify := Demo.stringify;
  NumberToString := Demo.number_text;
  StringToNumber := Demo.text_number;
  toFixed := Demo.to_fixed;
  Math_random := Demo.random_draw;
  WebSocket_accepts := fun v => match v with VStr _ => true | _ => false end
|}.

(** An update of the producer: one city and the temple. *)
Definition two_points : list Server.point :=
  [Server.pt 230225 725714 7;
   (Server.SOMNATH_TEMPLE_lat, Server.SOMNATH_TEMPLE_lng, decimal 5 1)].

Definition an_update : value :=
  Server.heatmap_update (H := Demo.host) two_points Demo.an_instant (decimal 5 1).

(** The page with a retry pending and a URL the browser refuses. *)
Definition window_refused : MapJs.window :=
  MapJs.mkWindow (Some []) VUndefined (VBool true) None ∅
    [MapJs.mkTimer 5000 MapJs.retry_connection] [].

(** The paused server once a message without a usable intensity has
    been handled. *)
Definition two_viewers_nan : Server.server :=
  Server.set_somnathCrowdIntensity nan Demo.two_viewers_paused.

(** The variables of [waitForLeaflet] and of the retries before the
    page has run them. *)
Definition loader_idle : Startup.loader :=
  Startup.mkLoader pos_zero VUndefined [] [].

Definition startup_idle : Startup.startup :=
  Startup.mkStartup (MapJs.page VUndefined) pos_zero false.

End Echo.


(* ===================================================================== *)
(** * Part II. Properties                                                  *)
(* ===================================================================== *)

(** ** Numbers *)

Module NumberFacts.


(** *** Order *)

Lemma lt_le x y : lt x y = true -> le x y = true.
Proof.
  unfold lt, le, SFltb, SFleb. destruct (SFcompare x y) as [[]|]; congruence.
Qed.

Lemma lt_not_nan_l x y : lt x y = true -> isNaN x = false.
Proof. destruct x; simpl; try reflexivity. discriminate. Qed.

Lemma lt_not_nan_r x y : lt x y = true -> isNaN y = false.
Proof. destruct x, y; simpl; try reflexivity; discriminate. Qed.

Lemma non_negative_le_zero x : non_negative x = true -> le pos_zero x = true.
Proof. destruct x as [[]|[]| |[] m e]; simpl; try discriminate; reflexivity. Qed.

Lemma lt_non_negative c x :
  non_negative c = true -> lt c x = true -> non_negative x = true.
Proof.
  destruct c as [[]|[]| |[] mc ec]; simpl; try discriminate; intros _;
    destruct x as [[]|[]| |[] m e]; simpl; try discriminate; reflexivity.
Qed.

Lemma lt_finite_r x c : is_finite c = true -> lt x c = true ->
  non_negative x = true -> is_finite x = true.
Proof.
  destruct x as [[]|[]| |[] m e]; simpl; try discriminate; try reflexivity.
  destruct c as [[]|[]| |[] mc ec]; simpl; discriminate.
Qed.

(** *** [Math.min] and [Math.max] of a constant and a value *)

Lemma Math_min_cases c x :
  is_finite c = true -> is_neg_zero c = false -> is_pos_zero c = false ->
  isNaN x = false ->
  (Math_min [c; x] = x /\ lt x c = true) \/ Math_min [c; x] = c.
Proof.
  intros Hc Hn Hp Hx. unfold Math_min. simpl.
  assert (min_step pos_infinity c = c) as ->.
  { destruct c as [[]|[]| |[] mc ec]; try discriminate; reflexivity. }
  unfold min_step. rewrite Hx.
  assert (isNaN c = false) as -> by (destruct c; try reflexivity; discriminate).
  rewrite Hp, andb_false_r.
  destruct (lt x c); auto.
Qed.

Lemma Math_max_cases c x :
  is_finite c = true -> is_neg_zero c = false ->
  isNaN x = false ->
  (Math_max [c; x] = x /\ lt c x = true) \/ Math_max [c; x] = c.
Proof.
  intros Hc Hn Hx. unfold Math_max. simpl.
  assert (max_step neg_infinity c = c) as ->.
  { destruct c as [[]|[]| |[] mc ec]; try discriminate; reflexivity. }
  unfold max_step. rewrite Hx.
  assert (isNaN c = false) as -> by (destruct c; try reflexivity; discriminate).
  rewrite Hn, andb_false_r.
  destruct (lt c x); auto.
Qed.

Lemma Math_min_nan c x : isNaN x = true -> Math_min [c; x] = nan.
Proof.
  destruct x; try discriminate. intros _. unfold Math_min. simpl.
  unfold min_step at 1. simpl. destruct (isNaN (min_step pos_infinity c)); reflexivity.
Qed.

Lemma Math_max_nan c x : isNaN x = true -> Math_max [c; x] = nan.
Proof.
  destruct x; try discriminate. intros _. unfold Math_max. simpl.
  unfold max_step at 1. simpl. destruct (isNaN (max_step neg_infinity c)); reflexivity.
Qed.

(** The clamp [Math.max(lo, Math.min(1.0, x))] for a constant [lo] of
    the unit interval. *)
Lemma clamp_in_unit lo x :
  is_finite lo = true -> is_neg_zero lo = false -> non_negative lo = true ->
  in_unit lo = true ->
  isNaN x = false ->
  in_unit (Math_max [lo; Math_min [of_Z 1; x]]) = true /\
  non_negative (Math_max [lo; Math_min [of_Z 1; x]]) = true /\
  is_finite (Math_max [lo; Math_min [of_Z 1; x]]) = true.
Proof.
  intros Hf Hz Hn Hu Hx.
  destruct (Math_min_cases (of_Z 1) x) as [[-> Hlt]| ->]; try reflexivity; auto.
  - destruct (Math_max_cases lo x) as [[-> Hlt']| ->]; auto.
    assert (non_negative x = true) as Hnn by (eapply lt_non_negative; eauto).
    repeat split; auto.
    + unfold in_unit. rewrite (non_negative_le_zero _ Hnn), (lt_le _ _ Hlt). reflexivity.
    + apply (lt_finite_r x (of_Z 1)); auto.
  - destruct (Math_max_cases lo (of_Z 1)) as [[-> Hlt']| ->]; auto.
Qed.


(** *** Rounding *)

Section Rounding.
Local Open Scope Z_scope.

Lemma digits2_pos_size p : digits2_pos p = Pos.size p.
Proof. induction p; simpl; congruence. Qed.

Lemma Zdigits2_gt m : 0 <= m -> m < 2 ^ Zdigits2 m.
Proof.
  destruct m as [|p|p]; simpl; [lia| |lia]. intros _.
  rewrite digits2_pos_size. pose proof (Pos.size_gt p) as H.
  apply Pos2Z.pos_lt_pos in H. rewrite Pos2Z.inj_pow in H. exact H.
Qed.

Lemma Zdigits2_le m k : 0 <= m -> 0 <= k -> m < 2 ^ k -> Zdigits2 m <= k.
Proof.
  destruct m as [|p|p]; simpl; [lia| |lia]. intros _ Hk Hm.
  rewrite digits2_pos_size. pose proof (Pos.size_le p) as H.
  apply Pos2Z.pos_le_pos in H. rewrite Pos2Z.inj_pow in H.
  destruct (Z_lt_le_dec k (Zpos (Pos.size p))) as [Hlt|]; [|lia].
  exfalso.
  assert (2 ^ (k + 1) <= 2 ^ Zpos (Pos.size p)) by (apply Z.pow_le_mono_r; lia).
  rewrite Z.pow_add_r in * by lia. lia.
Qed.

Lemma shr_1_spec r :
  0 <= shr_m r -> 0 <= shr_m (shr_1 r) /\ shr_m (shr_1 r) = shr_m r / 2.
Proof.
  destruct r as [m rb sb]. cbn [shr_m]. intros Hm.
  rewrite <- Z.div2_div.
  destruct m as [|[p|p|]|p]; cbn [shr_1 shr_m]; try lia; split;
    try reflexivity; lia.
Qed.

Lemma iter_shr_1_spec p r :
  0 <= shr_m r ->
  0 <= shr_m (SpecFloat.iter_pos shr_1 p r) /\
  shr_m (SpecFloat.iter_pos shr_1 p r) = shr_m r / 2 ^ Zpos p.
Proof.
  revert r. induction p as [p IH|p IH|]; intros r Hr; simpl SpecFloat.iter_pos.
  - destruct (shr_1_spec r Hr) as [H1 E1].
    destruct (IH _ H1) as [H2 E2]. destruct (IH _ H2) as [H3 E3].
    split; [exact H3|]. rewrite E3, E2, E1.
    rewrite !Z.div_div by lia. f_equal.
    rewrite Pos2Z.inj_xI. rewrite <- Z.pow_add_r, <- (Z.pow_1_r 2) at 1 by lia.
    rewrite <- Z.pow_add_r by lia. f_equal. lia.
  - destruct (IH _ Hr) as [H2 E2]. destruct (IH _ H2) as [H3 E3].
    split; [exact H3|]. rewrite E3, E2.
    rewrite !Z.div_div by lia. f_equal.
    rewrite Pos2Z.inj_xO. rewrite <- Z.pow_add_r by lia. f_equal. lia.
  - destruct (shr_1_spec r Hr) as [H1 E1]. split; [exact H1|].
    rewrite E1. reflexivity.
Qed.

Lemma shr_record_of_loc_m m l : shr_m (shr_record_of_loc m l) = m.
Proof. destruct l as [|[]]; reflexivity. Qed.

(** What the shift to the right exponent computes. *)
Lemma shr_fexp_spec m e l :
  0 <= m ->
  let k := Z.max 0 (fexp prec emax (Zdigits2 m + e) - e) in
  0 <= shr_m (fst (shr_fexp prec emax m e l)) /\
  shr_m (fst (shr_fexp prec emax m e l)) = m / 2 ^ k /\
  snd (shr_fexp prec emax m e l) = e + k.
Proof.
  intros Hm k. unfold shr_fexp, shr. subst k.
  destruct (fexp prec emax (Zdigits2 m + e) - e) as [|p|p] eqn:E; simpl fst; simpl snd.
  - rewrite shr_record_of_loc_m. rewrite Z.div_1_r. repeat split; lia.
  - pose proof (iter_shr_1_spec p (shr_record_of_loc m l)) as H.
    rewrite shr_record_of_loc_m in H. destruct (H Hm) as [H1 H2].
    rewrite Z.max_r by lia. repeat split; auto.
  - rewrite shr_record_of_loc_m. rewrite Z.max_l by lia.
    rewrite Z.div_1_r. repeat split; lia.
Qed.

Lemma fexp_ge e : e - 53 <= fexp prec emax e /\ -1074 <= fexp prec emax e.
Proof. unfold fexp, emin, prec, emax. lia. Qed.

Lemma fexp_le e b : e - 53 <= b -> -1074 <= b -> fexp prec emax e <= b.
Proof. unfold fexp, emin, prec, emax. lia. Qed.

Lemma shr_fexp_fits m e l :
  0 <= m -> shr_m (fst (shr_fexp prec emax m e l)) < 2 ^ 53.
Proof.
  intros Hm. destruct (shr_fexp_spec m e l Hm) as (_ & -> & _).
  set (k := Z.max 0 _).
  assert (0 <= k) by (subst k; lia).
  assert (Zdigits2 m - 53 <= k).
  { subst k. pose proof (fexp_ge (Zdigits2 m + e)). lia. }
  apply Z.div_lt_upper_bound; [apply Z.pow_pos_nonneg; lia|].
  rewrite <- Z.pow_add_r by lia.
  pose proof (Zdigits2_gt m Hm).
  assert (0 <= Zdigits2 m) by (destruct m; simpl; lia).
  assert (2 ^ Zdigits2 m <= 2 ^ (k + 53)) by (apply Z.pow_le_mono_r; lia).
  lia.
Qed.

Lemma round_nearest_even_bounds m l :
  0 <= m -> m <= round_nearest_even m l <= m + 1.
Proof.
  intros Hm. unfold round_nearest_even.
  destruct l as [|[]]; try destruct (Z.even m); lia.
Qed.

Lemma binary_round_aux_rounded sx mx ex lx :
  0 <= mx -> rounded sx mx ex (binary_round_aux prec emax sx mx ex lx).
Proof.
  intros Hm. unfold binary_round_aux.
  destruct (shr_fexp_spec mx ex lx Hm) as (H1 & E1 & X1).
  pose proof (shr_fexp_fits mx ex lx Hm) as F1.
  destruct (shr_fexp prec emax mx ex lx) as [r1 e1]. simpl in *.
  set (m2 := round_nearest_even (shr_m r1) (loc_of_shr_record r1)).
  pose proof (round_nearest_even_bounds (shr_m r1) (loc_of_shr_record r1) H1) as B2.
  fold m2 in B2.
  assert (0 <= m2) as Hm2 by lia.
  destruct (shr_fexp_spec m2 e1 loc_Exact Hm2) as (H3 & E3 & X3).
  pose proof (shr_fexp_fits m2 e1 loc_Exact Hm2) as F3.
  destruct (shr_fexp prec emax m2 e1 loc_Exact) as [r3 e3]. simpl in *.
  assert (exponent_bound mx ex e3) as Hb.
  { intros b Hb1 Hb2 Hb3. subst e3 e1.
    assert (fexp prec emax (Zdigits2 mx + ex) <= b) by (apply fexp_le; lia).
    assert (Zdigits2 m2 <= 54) by (apply Zdigits2_le; lia).
    assert (fexp prec emax
              (Zdigits2 m2 + (ex + Z.max 0 (fexp prec emax (Zdigits2 mx + ex) - ex)))
            <= b + 1) by (apply fexp_le; lia).
    lia. }
  destruct (shr_m r3) as [|m|m] eqn:Er; [constructor| |lia].
  destruct (e3 <=? emax - prec) eqn:El.
  - constructor; assumption.
  - apply (rounded_infinity _ _ _ e3); [assumption|]. apply Z.leb_gt, El.
Qed.

Lemma rounded_clean sx mx ex x : rounded sx mx ex x -> clean sx x.
Proof.
  intros [|e He Hi|m e Hm He]; repeat split. simpl. apply Z.ltb_lt, Hm.
Qed.

Lemma binary_round_clean sx mx ex : clean sx (binary_round prec emax sx mx ex).
Proof.
  unfold binary_round. destruct (shl_align _ _ _) as [mz ez].
  eapply rounded_clean, binary_round_aux_rounded. lia.
Qed.

Lemma binary_normalize_clean m e :
  clean (m <? 0) (binary_normalize prec emax m e false).
Proof.
  destruct m as [|p|p]; simpl; [repeat split| |]; apply binary_round_clean.
Qed.

Lemma clean_non_negative x : clean false x -> non_negative x = true.
Proof. destruct x as [s|s| |s m e]; intros (_ & _ & H); simpl in *; subst; tauto. Qed.

Lemma non_negative_not_nan x : non_negative x = true -> isNaN x = false.
Proof. destruct x as [[]|[]| |[] m e]; simpl; congruence. Qed.

(** *** Addition and subtraction *)

Lemma add_finite_clean sx mx ex sy my ey :
  exists s, clean s (add (S754_finite sx mx ex) (S754_finite sy my ey)) /\
            (sx = false -> sy = false -> s = false).
Proof.
  unfold add, SFadd. eexists. split; [apply binary_normalize_clean|].
  intros -> ->. simpl. reflexivity.
Qed.

Lemma add_fits x y : fits x = true -> fits y = true -> fits (add x y) = true.
Proof.
  intros Hx Hy.
  destruct x as [sx|sx| |sx mx ex], y as [sy|sy| |sy my ey];
    try (destruct (add_finite_clean sx mx ex sy my ey) as (s & (_ & H & _) & _);
         exact H);
    cbn [fits] in *; try destruct sx; try destruct sy; simpl; auto.
Qed.

Lemma add_finite_l x y :
  is_finite x = true -> isNaN y = false -> isNaN (add x y) = false.
Proof.
  intros Hx Hy.
  destruct x as [sx|sx| |sx mx ex], y as [sy|sy| |sy my ey];
    try discriminate;
    try (destruct (add_finite_clean sx mx ex sy my ey) as (s & (H & _) & _);
         exact H);
    try destruct sx; try destruct sy; reflexivity.
Qed.

Lemma add_non_negative x y :
  non_negative x = true -> non_negative y = true ->
  non_negative (add x y) = true.
Proof.
  intros Hx Hy.
  destruct x as [[]|[]| |[] mx ex], y as [[]|[]| |[] my ey];
    try discriminate;
    try (destruct (add_finite_clean false mx ex false my ey) as (s & Hc & Hs);
         rewrite (Hs eq_refl eq_refl) in Hc; apply clean_non_negative, Hc);
    reflexivity.
Qed.

Lemma sub_finite_clean sx mx ex sy my ey :
  exists s, clean s (sub (S754_finite sx mx ex) (S754_finite sy my ey)).
Proof. unfold sub, SFsub. eexists. apply binary_normalize_clean. Qed.

Lemma sub_fits x y : fits x = true -> fits y = true -> fits (sub x y) = true.
Proof.
  intros Hx Hy.
  destruct x as [sx|sx| |sx mx ex], y as [sy|sy| |sy my ey];
    try (destruct (sub_finite_clean sx mx ex sy my ey) as (s & (_ & H & _));
         exact H);
    cbn [fits] in *; try destruct sx; try destruct sy; simpl; auto.
Qed.

Lemma sub_finite_r x y :
  isNaN x = false -> is_finite y = true -> isNaN (sub x y) = false.
Proof.
  intros Hx Hy.
  destruct x as [sx|sx| |sx mx ex], y as [sy|sy| |sy my ey];
    try discriminate;
    try (destruct (sub_finite_clean sx mx ex sy my ey) as (s & (H & _));
         exact H);
    try destruct sx; try destruct sy; reflexivity.
Qed.

(** *** Multiplication and division *)

Lemma mul_finite_rounded sx mx ex sy my ey :
  rounded (xorb sx sy) (Zpos (mx * my)) (ex + ey)
    (mul (S754_finite sx mx ex) (S754_finite sy my ey)).
Proof. unfold mul, SFmul. apply binary_round_aux_rounded. lia. Qed.

Lemma mul_fits x y : fits (mul x y) = true.
Proof.
  destruct x as [sx|sx| |sx mx ex], y as [sy|sy| |sy my ey];
    try apply (rounded_clean _ _ _ _ (mul_finite_rounded sx mx ex sy my ey));
    reflexivity.
Qed.

Lemma mul_finite_r x sy my ey :
  isNaN x = false -> isNaN (mul x (S754_finite sy my ey)) = false.
Proof.
  intros Hx. destruct x as [sx|sx| |sx mx ex]; try discriminate;
    try apply (rounded_clean _ _ _ _ (mul_finite_rounded sx mx ex sy my ey));
    reflexivity.
Qed.

Lemma mul_non_negative x my ey :
  non_negative x = true ->
  non_negative (mul x (S754_finite false my ey)) = true.
Proof.
  intros Hx. destruct x as [[]|[]| |[] mx ex]; try discriminate;
    try (apply clean_non_negative;
         apply (rounded_clean _ _ _ _ (mul_finite_rounded false mx ex false my ey)));
    reflexivity.
Qed.

Lemma SFdiv_core_binary_nonneg mx ex my ey :
  0 <= fst (fst (SFdiv_core_binary prec emax (Zpos mx) ex (Zpos my) ey)).
Proof.
  unfold SFdiv_core_binary.
  set (s := _ - _ - _). set (m' := match s with Z0 => _ | Zpos _ => _ | Zneg _ => _ end).
  assert (0 <= m') as Hm'.
  { subst m'. destruct s; [lia| |lia]. apply Z.shiftl_nonneg. lia. }
  pose proof (Z_div_mod m' (Zpos my) eq_refl) as Hd.
  destruct (Z.div_eucl m' (Zpos my)) as [q r]. simpl. nia.
Qed.

Lemma div_finite_clean sx mx ex sy my ey :
  clean (xorb sx sy) (div (S754_finite sx mx ex) (S754_finite sy my ey)).
Proof.
  unfold div, SFdiv. pose proof (SFdiv_core_binary_nonneg mx ex my ey) as H.
  destruct (SFdiv_core_binary prec emax (Zpos mx) ex (Zpos my) ey) as [[mz ez] lz].
  eapply rounded_clean, binary_round_aux_rounded. exact H.
Qed.

Lemma div_fits x y : fits (div x y) = true.
Proof.
  destruct x as [sx|sx| |sx mx ex], y as [sy|sy| |sy my ey];
    try apply (div_finite_clean sx mx ex sy my ey); reflexivity.
Qed.

Lemma div_non_negative x my ey :
  non_negative x = true ->
  non_negative (div x (S754_finite false my ey)) = true.
Proof.
  intros Hx. destruct x as [[]|[]| |[] mx ex]; try discriminate;
    try (apply clean_non_negative; apply (div_finite_clean false mx ex false my ey));
    reflexivity.
Qed.

Lemma of_Z_fits z : fits (of_Z z) = true.
Proof. apply (binary_normalize_clean z 0). Qed.

Lemma decimal_fits n k : fits (decimal n k) = true.
Proof. apply div_fits. Qed.


(** *** The number of points *)

Lemma of_Z_15 : of_Z 15 = S754_finite false 8444249301319680 (-49).
Proof. vm_compute. reflexivity. Qed.

Lemma in_unit_finite s m e :
  in_unit (S754_finite s m e) = true -> s = false /\ e <= -52.
Proof.
  unfold in_unit. intros H. apply andb_true_iff in H as [H0 H1].
  destruct s; [discriminate|]. split; [reflexivity|].
  unfold le, SFleb, SFcompare in H1.
  change (of_Z 1) with (S754_finite false 4503599627370496 (-52)) in H1.
  cbv iota in H1.
  destruct (Z.compare_spec e (-52)); try discriminate; lia.
Qed.

Lemma floor_small m e :
  Zpos m < 2 ^ 53 -> e <= -47 ->
  exists z, 0 <= z < 64 /\ Math_floor (S754_finite false m e) = of_Z z.
Proof.
  intros Hm He. exists (Z.shiftr (Zpos m) (- e)). split.
  - rewrite Z.shiftr_div_pow2 by lia. split; [apply Z.div_pos; lia|].
    apply Z.div_lt_upper_bound; [lia|].
    assert (2 ^ 47 <= 2 ^ (- e)) by (apply Z.pow_le_mono_r; lia). lia.
  - unfold Math_floor. destruct (0 <=? e) eqn:E; [apply Z.leb_le in E; lia|].
    reflexivity.
Qed.

(** For an intensity of the unit interval the number of points is
    [z + 5] for some integer [z] below 64. *)
Lemma numPoints_small x :
  in_unit x = true -> fits x = true ->
  exists z, 0 <= z < 64 /\
    add (Math_floor (mul x (of_Z 15))) (of_Z 5) = add (of_Z z) (of_Z 5).
Proof.
  intros Hu Hf. destruct x as [s|s| |s m e].
  - exists 0. split; [lia|]. destruct s; vm_compute; reflexivity.
  - destruct s; discriminate.
  - discriminate.
  - destruct (in_unit_finite s m e Hu) as [-> He].
    cbn [fits] in Hf. apply Z.ltb_lt in Hf.
    rewrite of_Z_15.
    pose proof (mul_finite_rounded false m e false 8444249301319680 (-49)) as Hr.
    assert (Zdigits2 (Zpos (m * 8444249301319680)) <= 106) as Hd.
    { apply Zdigits2_le; lia. }
    remember (mul (S754_finite false m e)
                  (S754_finite false 8444249301319680 (-49))) as y eqn:Ey.
    clear Ey. destruct Hr as [|e' Hb Hi|m' e' Hm' Hb]; cbn [xorb].
    + exists 0. split; [lia|]. reflexivity.
    + specialize (Hb (-48)). unfold emax, prec in Hi. lia.
    + specialize (Hb (-48)).
      destruct (floor_small m' e') as (z & Hz & ->); [exact Hm'|lia|].
      exists z. split; [exact Hz|reflexivity].
Qed.

End Rounding.

End NumberFacts.

(** ** Handlers *)

Module EffFacts.

Ltac run :=
  cbv [bind ret throw modify get_state lift_option when try_catch] in *.

Section Keeps.
Context {S : Type} (P : S -> Prop).

Lemma keeps_ret {A} (a : A) : keeps P (ret a).
Proof. intros s Hs. exact Hs. Qed.

Lemma keeps_throw {A} : keeps P (@throw S A).
Proof. intros s Hs. exact Hs. Qed.

Lemma keeps_bind {A B} (m : M S A) (k : A -> M S B) :
  keeps P m -> (forall a, keeps P (k a)) -> keeps P (bind m k).
Proof.
  intros Hm Hk s Hs. unfold bind. specialize (Hm s Hs).
  destruct (m s) as [a s'|s'|]; [apply Hk, Hm | exact Hm | exact I].
Qed.

Lemma keeps_try_catch {A} (body handler : M S A) :
  keeps P body -> keeps P handler -> keeps P (try_catch body handler).
Proof.
  intros Hb Hh s Hs. unfold try_catch. specialize (Hb s Hs).
  destruct (body s) as [a s'|s'|]; [exact Hb | apply Hh, Hb | exact I].
Qed.

Lemma keeps_modify (f : S -> S) :
  (forall s, P s -> P (f s)) -> keeps P (modify f).
Proof. intros Hf s Hs. apply Hf, Hs. Qed.

Lemma keeps_get_state : keeps P get_state.
Proof. intros s Hs. exact Hs. Qed.

Lemma keeps_lift_option {A} (o : option A) : keeps P (lift_option o).
Proof. destruct o; [apply keeps_ret | apply keeps_throw]. Qed.

Lemma keeps_when (c : bool) (m : M S unit) : keeps P m -> keeps P (when c m).
Proof. intros Hm. destruct c; [exact Hm | apply keeps_ret]. Qed.

End Keeps.

(** One step of a proof that a handler keeps a property, by the shape of
    the handler. *)
Ltac keeps_step :=
  lazymatch goal with
  | |- keeps _ (ret _) => apply keeps_ret
  | |- keeps _ throw => apply keeps_throw
  | |- keeps _ get_state => apply keeps_get_state
  | |- keeps _ (lift_option _) => apply keeps_lift_option
  | |- keeps _ (bind _ _) => apply keeps_bind; [|intros ?]
  | |- keeps _ (try_catch _ _) => apply keeps_try_catch
  | |- keeps _ (when _ _) => apply keeps_when
  end.

End EffFacts.
Import EffFacts.

(** ** The consumer *)

Module ConsumerFacts.
Import MapJs.

Section Consumer.
Context `{Host}.

Lemma tags_exclusive t :
  strict_eq_string t "full_update" = true ->
  strict_eq_string t "heatmap_update" = false.
Proof.
  destruct t; simpl; try discriminate.
  intros E. apply String.eqb_eq in E. subst. reflexivity.
Qed.

Lemma tags_exclusive_r t :
  strict_eq_string t "heatmap_update" = true ->
  strict_eq_string t "full_update" = false.
Proof.
  destruct t; simpl; try discriminate.
  intros E. apply String.eqb_eq in E. subst. reflexivity.
Qed.

(** A value whose [type] can be read lets every property be read. *)
Lemma readable_fields message t :
  Get message "type" = Some t ->
  forall k, Get message k = Some (field message k).
Proof. intros E k. destruct message; try discriminate; reflexivity. Qed.

Lemma print_twice l1 t1 a1 l2 t2 a2 w :
  (print l1 t1 a1 ;; print l2 t2 a2) w =
  Return tt (logged w [mkEntry l1 t1 a1; mkEntry l2 t2 a2]).
Proof.
  unfold print. run. unfold logged, set_console. simpl.
  rewrite <- app_assoc. reflexivity.
Qed.

Lemma updateHeatmapData_array points old w :
  heatmapLayer w = Some old ->
  updateHeatmapData (VArr points) w =
  Return tt
    (logged (set_heatmapLayer (Some points) w)
       [mkEntry Log "Heatmap updated via WebSocket with"
          [VNum (of_Z (Z.of_nat (length points))); VStr "data points at"]]).
Proof. intros E. unfold updateHeatmapData. run. rewrite E. reflexivity. Qed.

Lemma updateHeatmapData_returns d w :
  exists w', updateHeatmapData d w = Return tt w'.
Proof.
  unfold updateHeatmapData. run.
  destruct (heatmapLayer w); [destruct d|]; eexists; reflexivity.
Qed.

Lemma useFallbackData_shown old w :
  heatmapLayer w = Some old ->
  useFallbackData w =
  Return tt
    (logged (set_heatmapLayer (Some fallbackStaticData) w)
       [mkEntry Log "Using fallback static data with"
          [VNum (of_Z (Z.of_nat (length fallbackStaticData)));
           VStr "data points"]]).
Proof. intros E. unfold useFallbackData. run. rewrite E. reflexivity. Qed.

(** The handler on a message that parses, branch by branch. *)
Lemma onmessage_parsed (ws : nat) (data : string) (message : value)
    (w : window) :
  JSON_parse data = Some message ->
  onmessage ws data w =
    match Get message "type" with
    | None =>
        Return tt
          (logged w [mkEntry Error "Error parsing WebSocket message:" [];
                     mkEntry Error "Raw message:" [VStr data]])
    | Some t =>
        if (strict_eq_string t "heatmap_update" || strict_eq_string t "full_update")
           && ToBoolean (field message "data")
        then updateHeatmapData (field message "data") w
        else if Array_isArray message then updateHeatmapData message w
        else if Array_isArray (field message "data")
        then updateHeatmapData (field message "data") w
        else Return tt (logged w [mkEntry Warn "Unknown message format:" [message]])
    end.
Proof.
  intros Hp.
  unfold onmessage. unfold try_catch, bind at 1, lift_option. rewrite Hp.
  unfold ret.
  destruct (Get message "type") as [t|] eqn:Et.
  - pose proof (readable_fields message t Et "data") as Ed.
    assert (forall d, match updateHeatmapData d w with
                      | Return a s' => Return a s'
                      | Throw s' =>
                          (print Error "Error parsing WebSocket message:" [] ;;
                           print Error "Raw message:" [VStr data]) s'
                      | OutOfFuel => OutOfFuel
                      end = updateHeatmapData d w) as Hu.
    { intros d. destruct (updateHeatmapData_returns d w) as [w' ->]. reflexivity. }
    unfold handle_message, tagged, nested, read. run. rewrite Et, Ed.
    destruct (strict_eq_string t "heatmap_update") eqn:Eh; cbn [orb andb].
    + destruct (ToBoolean (field message "data")) eqn:Eb; [apply Hu|].
      rewrite (tags_exclusive_r _ Eh).
      destruct (Array_isArray message); [apply Hu|].
      destruct (field message "data"); try discriminate Eb; reflexivity.
    + destruct (strict_eq_string t "full_update") eqn:Ef; cbn [orb andb].
      * destruct (ToBoolean (field message "data")) eqn:Eb; [apply Hu|].
        destruct (Array_isArray message); [apply Hu|].
        destruct (field message "data"); try discriminate Eb; reflexivity.
      * destruct (Array_isArray message); [apply Hu|].
        destruct (ToBoolean (field message "data")) eqn:Eb.
        -- destruct (Array_isArray (field message "data")); [apply Hu|reflexivity].
        -- destruct (field message "data"); try discriminate Eb; reflexivity.
  - unfold handle_message, tagged, read. run. rewrite Et. apply print_twice.
Qed.

(** A message without readable [type], or tagged with a [data] that is
    no array, has none of the four shapes. *)
Lemma classify_unreadable message :
  Get message "type" = None -> classify message = None.
Proof. destruct message; try discriminate; reflexivity. Qed.

(** The handler against the classification, message by message. *)
Lemma onmessage_by_shape (ws : nat) (data : string) (message : value)
    (w : window) :
  JSON_parse data = Some message ->
  match Get message "type" with
  | None =>
      classify message = None /\
      onmessage ws data w =
        Return tt
          (logged w [mkEntry Error "Error parsing WebSocket message:" [];
                     mkEntry Error "Raw message:" [VStr data]])
  | Some t =>
      if (strict_eq_string t "full_update" || strict_eq_string t "heatmap_update")
         && ToBoolean (field message "data")
         && negb (Array_isArray (field message "data"))
      then classify message = None /\ onmessage ws data w = Return tt w
      else onmessage ws data w = handle_by_shape message w
  end.
Proof.
  intros Hp. rewrite (onmessage_parsed ws data message w Hp).
  destruct (Get message "type") as [t|] eqn:Et;
    [|split; [apply classify_unreadable, Et|reflexivity]].
  assert (field message "type" = t) as Eft by (unfold field; rewrite Et; reflexivity).
  assert (Array_isArray message = true -> t = VUndefined) as Harr.
  { destruct message; try discriminate. intros _. cbn in Et. congruence. }
  assert (forall d, Array_isArray d = false -> updateHeatmapData d w = Return tt w)
    as Hdrop.
  { intros d Hd. unfold updateHeatmapData. run.
    destruct (heatmapLayer w); [destruct d; try discriminate|]; reflexivity. }
  unfold handle_by_shape, classify, has_shape. cbn [find]. rewrite Eft.
  destruct (strict_eq_string t "full_update") eqn:Ef.
  - rewrite (tags_exclusive _ Ef). cbn [orb andb].
    assert (Array_isArray message = false) as ->.
    { destruct (Array_isArray message); [|reflexivity].
      rewrite Harr in Ef by reflexivity. discriminate. }
    destruct (Array_isArray (field message "data")) eqn:Ea; cbn [andb negb].
    + assert (ToBoolean (field message "data") = true) as ->
        by (destruct (field message "data"); try discriminate; reflexivity).
      reflexivity.
    + destruct (ToBoolean (field message "data")); [|reflexivity].
      split; [reflexivity|]. apply Hdrop, Ea.
  - destruct (strict_eq_string t "heatmap_update") eqn:Eh; cbn [orb andb].
    + assert (Array_isArray message = false) as ->.
      { destruct (Array_isArray message); [|reflexivity].
        rewrite Harr in Eh by reflexivity. discriminate. }
      destruct (Array_isArray (field message "data")) eqn:Ea; cbn [andb negb].
      * assert (ToBoolean (field message "data") = true) as ->
          by (destruct (field message "data"); try discriminate; reflexivity).
        reflexivity.
      * destruct (ToBoolean (field message "data")); [|reflexivity].
        split; [reflexivity|]. apply Hdrop, Ea.
    + destruct (Array_isArray message); [reflexivity|].
      destruct (Array_isArray (field message "data")) eqn:Ea; reflexivity.
Qed.

(** What a shape holds is an array. *)
Lemma extraction_array message sh :
  classify message = Some sh -> exists points, extraction sh message = VArr points.
Proof.
  intros Ec. unfold classify in Ec. apply find_some in Ec as [_ Hs].
  assert (forall v, Array_isArray v = true -> exists points, v = VArr points) as Harr
    by (intros v Hv; destruct v; try discriminate; eauto).
  destruct sh; cbn [has_shape extraction] in *;
    try apply andb_true_iff in Hs as [_ Hs]; apply Harr, Hs.
Qed.

(** C4, as amended: every message that parses is classified into the
    four shapes full update, heat-map update, bare array, nested data,
    tried in that order, and the handler, which tests the heat-map tag
    before the other, does what the classification asks: on the first
    shape that matches, the array that shape holds becomes the point set
    of the overlay, and a message of no shape is dropped with a warning.
    There are two exceptions, both of messages that have none of the
    shapes: a message tagged [full_update] or [heatmap_update] whose
    [data] is truthy but no array is dropped without any line logged,
    and a message whose properties cannot be read ([null]) is dropped
    with the two error lines of the [catch]. *)
Theorem C4_classification_chain (ws : nat) (data : string) (message : value)
    (w : window) :
  JSON_parse data = Some message ->
  match Get message "type" with
  | None =>
      classify message = None /\
      onmessage ws data w =
        Return tt
          (logged w [mkEntry Error "Error parsing WebSocket message:" [];
                     mkEntry Error "Raw message:" [VStr data]])
  | Some t =>
      if (strict_eq_string t "full_update" || strict_eq_string t "heatmap_update")
         && ToBoolean (field message "data")
         && negb (Array_isArray (field message "data"))
      then classify message = None /\ onmessage ws data w = Return tt w
      else onmessage ws data w = handle_by_shape message w
  end /\
  forall sh, classify message = Some sh ->
    exists points,
      extraction sh message = VArr points /\
      forall old, heatmapLayer w = Some old ->
        exists w', onmessage ws data w = Return tt w' /\
                   heatmapLayer w' = Some points /\
                   sockets w' = sockets w /\ timers w' = timers w.
Proof.
  intros Hp. pose proof (onmessage_by_shape ws data message w Hp) as Hc.
  split; [exact Hc|]. intros sh Ec.
  destruct (extraction_array message sh Ec) as [points Ex].
  exists points. split; [exact Ex|]. intros old Hl.
  assert (onmessage ws data w = handle_by_shape message w) as ->.
  { destruct (Get message "type") as [t|]; [|destruct Hc; congruence].
    destruct (_ && _); [destruct Hc; congruence|exact Hc]. }
  unfold handle_by_shape. rewrite Ec, Ex.
  rewrite (updateHeatmapData_array points old w Hl).
  eexists. split; [reflexivity|]. repeat split.
Qed.

(** C1: for a message that parses, carries the tag [full_update] or
    [heatmap_update] and whose [data] is an array, the point set of the
    overlay after the handler is exactly that array, whatever it was
    before; sockets, timers and the reconnection flag are untouched. *)
Theorem C1_update_replaces_overlay (ws : nat) (data : string)
    (message : value) (tag : string) (points old : list value) (w : window) :
  heatmapLayer w = Some old ->
  JSON_parse data = Some message ->
  tag = "full_update" \/ tag = "heatmap_update" ->
  Get message "type" = Some (VStr tag) ->
  Get message "data" = Some (VArr points) ->
  exists w',
    onmessage ws data w = Return tt w' /\
    heatmapLayer w' = Some points /\
    sockets w' = sockets w /\ timers w' = timers w /\
    wsReconnectDisabled w' = wsReconnectDisabled w.
Proof.
  intros Hl Hp Ht Hty Hd.
  rewrite (onmessage_parsed ws data message w Hp). rewrite Hty.
  assert (field message "data" = VArr points) as ->
    by (unfold field; rewrite Hd; reflexivity).
  assert (((strict_eq_string (VStr tag) "heatmap_update"
            || strict_eq_string (VStr tag) "full_update")
           && ToBoolean (VArr points)) = true) as ->
    by (destruct Ht as [-> | ->]; reflexivity).
  rewrite (updateHeatmapData_array points old w Hl).
  eexists. split; [reflexivity|]. repeat split.
Qed.

(** C6: a payload that fails to parse is logged as an error, with
    the raw text, and dropped: the overlay, the sockets with their
    [readyState], the timers and the current socket are what they were,
    so nothing is closed and no fallback is shown. *)
Theorem C6_malformed_payload_ignored (ws : nat) (data : string) (w : window) :
  JSON_parse data = None ->
  onmessage ws data w =
    Return tt
      (logged w [mkEntry Error "Error parsing WebSocket message:" [];
                 mkEntry Error "Raw message:" [VStr data]]) /\
  step (Message ws data) w =
    logged w [mkEntry Error "Error parsing WebSocket message:" [];
              mkEntry Error "Raw message:" [VStr data]] /\
  heatmapLayer (step (Message ws data) w) = heatmapLayer w /\
  sockets (step (Message ws data) w) = sockets w /\
  timers (step (Message ws data) w) = timers w /\
  heatmapWebSocket (step (Message ws data) w) = heatmapWebSocket w.
Proof.
  intros Hp.
  assert (onmessage ws data w =
    Return tt
      (logged w [mkEntry Error "Error parsing WebSocket message:" [];
                 mkEntry Error "Raw message:" [VStr data]])) as E.
  { unfold onmessage. unfold try_catch, bind at 1, lift_option. rewrite Hp.
    unfold throw. apply print_twice. }
  unfold step, dispatch. rewrite E. repeat split.
Qed.


Lemma connectWebSocket_accepted w :
  WebSocket_accepts (wsUrl w) = true ->
  exists w',
    connectWebSocket w = Return tt w' /\
    sockets w' =
      <[fresh (dom (sockets w)) := mkWebSocket (wsUrl w) CONNECTING []]> (sockets w) /\
    heatmapWebSocket w' = Some (fresh (dom (sockets w))) /\
    heatmapLayer w' = heatmapLayer w /\ timers w' = timers w.
Proof.
  intros Ha. unfold connectWebSocket, new_WebSocket, print. run.
  rewrite Ha. simpl.
  eexists. split; [reflexivity|]. repeat split.
Qed.

Lemma connectWebSocket_refused old w :
  WebSocket_accepts (wsUrl w) = false ->
  heatmapLayer w = Some old ->
  exists w',
    connectWebSocket w = Return tt w' /\
    sockets w' = sockets w /\ heatmapWebSocket w' = heatmapWebSocket w /\
    heatmapLayer w' = Some fallbackStaticData /\ timers w' = timers w.
Proof.
  intros Ha Hl. unfold connectWebSocket, new_WebSocket, print, useFallbackData. run.
  rewrite Ha. simpl. rewrite Hl. simpl.
  eexists. split; [reflexivity|]. repeat split.
Qed.

(** C3: on a close event, whatever its code and reason, the overlay
    becomes the fallback set and exactly one timer of 5000 ms is added,
    no socket being created by the handler itself; when a timer fires
    its function runs, and that function first tests
    [window.wsReconnectDisabled]: set, nothing happens; not set, it is
    [connectWebSocket], which creates one socket when the URL is
    accepted and schedules nothing more. *)
Theorem C3_close_shows_fallback_and_schedules_retry (ws : nat)
    (code reason : value) (old : list value) (w : window) :
  heatmapLayer w = Some old ->
  (exists w',
      dispatch (Closed ws code reason) w = Return tt w' /\
      heatmapLayer w' = Some fallbackStaticData /\
      timers w' = timers w ++ [mkTimer 5000 retry_connection] /\
      dom (sockets w') = dom (sockets w) /\
      heatmapWebSocket w' = heatmapWebSocket w /\
      wsReconnectDisabled w' = wsReconnectDisabled w) /\
  (forall (u : window) (n : nat) (t : timer),
      timers u !! n = Some t ->
      dispatch (Timeout n) u =
        run_callback (action t)
          (set_timers (take n (timers u) ++ drop (S n) (timers u)) u)) /\
  (forall u : window,
      ToBoolean (wsReconnectDisabled u) = true ->
      run_callback retry_connection u = Return tt u) /\
  (forall u : window,
      ToBoolean (wsReconnectDisabled u) = false ->
      run_callback retry_connection u = connectWebSocket u) /\
  (forall u : window,
      ToBoolean (wsReconnectDisabled u) = false ->
      WebSocket_accepts (wsUrl u) = true ->
      exists u',
        run_callback retry_connection u = Return tt u' /\
        sockets u' =
          <[fresh (dom (sockets u)) := mkWebSocket (wsUrl u) CONNECTING []]>
            (sockets u) /\
        timers u' = timers u).
Proof.
  intros Hl. split; [|split; [|split; [|split]]].
  - unfold dispatch, set_readyState, onclose, print, useFallbackData, setTimeout.
    run. destruct (sockets w !! ws) as [sock|] eqn:Es; simpl; rewrite Hl; simpl;
      (eexists; split; [reflexivity|]); simpl; repeat split.
    apply dom_insert_lookup_L. rewrite Es. eauto.
  - intros u n t Ht. unfold dispatch. run. rewrite Ht. reflexivity.
  - intros u Hd. unfold run_callback. run. rewrite Hd. reflexivity.
  - intros u Hd. unfold run_callback. run. rewrite Hd. reflexivity.
  - intros u Hd Ha.
    destruct (connectWebSocket_accepted u Ha) as (u' & E & Es & _ & _ & Et).
    exists u'. unfold run_callback. run. rewrite Hd. auto.
Qed.

(** The layer, once created, is never removed: every handler keeps it. *)

Ltac keeps_layer_step :=
  lazymatch goal with
  | |- keeps _ (modify _) =>
      apply keeps_modify; intros ? [? ?]; unfold has_layer; simpl; eauto
  | _ => keeps_step
  end.

Lemma print_keeps_layer l t a : keeps has_layer (print l t a).
Proof. unfold print. keeps_layer_step. Qed.

Lemma updateHeatmapData_keeps_layer d : keeps has_layer (updateHeatmapData d).
Proof.
  unfold updateHeatmapData, setLatLngs. keeps_layer_step; [keeps_layer_step|].
  destruct (heatmapLayer a); [destruct d|]; repeat keeps_layer_step;
    apply print_keeps_layer.
Qed.

Lemma useFallbackData_keeps_layer : keeps has_layer useFallbackData.
Proof.
  unfold useFallbackData, setLatLngs. keeps_layer_step; [keeps_layer_step|].
  destruct (heatmapLayer a); repeat keeps_layer_step; apply print_keeps_layer.
Qed.

Lemma send_keeps_layer ws payload : keeps has_layer (send ws payload).
Proof.
  unfold send. keeps_layer_step; [keeps_layer_step|].
  destruct (sockets a !! ws) as [sock|]; [destruct (readyState sock)|];
    repeat keeps_layer_step.
Qed.

Lemma connectWebSocket_keeps_layer : keeps has_layer connectWebSocket.
Proof.
  unfold connectWebSocket, new_WebSocket. keeps_layer_step; [keeps_layer_step|].
  keeps_layer_step.
  - keeps_layer_step; [apply print_keeps_layer|]. keeps_layer_step; [|keeps_layer_step].
    destruct (WebSocket_accepts _); repeat keeps_layer_step.
  - keeps_layer_step; [apply print_keeps_layer | apply useFallbackData_keeps_layer].
Qed.

Lemma handle_message_keeps_layer message : keeps has_layer (handle_message message).
Proof.
  unfold handle_message, tagged, nested, read.
  repeat first
    [ apply updateHeatmapData_keeps_layer | apply print_keeps_layer
    | keeps_layer_step
    | match goal with |- keeps _ (if ?c then _ else _) => destruct c end ].
Qed.

Lemma dispatch_keeps_layer (e : event) : keeps has_layer (dispatch e).
Proof.
  destruct e as [ws|ws data|ws|ws code reason|n|v]; unfold dispatch.
  - unfold set_readyState, onopen. keeps_layer_step.
    + apply keeps_modify. intros w [old Hl]. unfold has_layer.
      destruct (sockets w !! ws); simpl; rewrite Hl; eauto.
    + keeps_layer_step; [apply print_keeps_layer | apply send_keeps_layer].
  - unfold onmessage. keeps_layer_step.
    + keeps_layer_step; [keeps_layer_step | apply handle_message_keeps_layer].
    + keeps_layer_step; apply print_keeps_layer.
  - unfold onerror. keeps_layer_step; [apply print_keeps_layer|].
    apply useFallbackData_keeps_layer.
  - unfold set_readyState, onclose, setTimeout. keeps_layer_step.
    + apply keeps_modify. intros w [old Hl]. unfold has_layer.
      destruct (sockets w !! ws); simpl; rewrite Hl; eauto.
    + repeat first [apply print_keeps_layer | apply useFallbackData_keeps_layer
                   | keeps_layer_step].
  - keeps_layer_step; [keeps_layer_step|].
    destruct (timers a !! n) as [[d []]|]; [|keeps_layer_step].
    keeps_layer_step; [keeps_layer_step|]. unfold run_callback, action.
    keeps_layer_step; [keeps_layer_step|].
    destruct (negb _); [apply connectWebSocket_keeps_layer | keeps_layer_step].
  - keeps_layer_step.
Qed.

Lemma addGujaratHeatmap_creates_layer (w : window) :
  match addGujaratHeatmap true w with
  | Return _ w' => has_layer w'
  | Throw w' => has_layer w'
  | OutOfFuel => False
  end.
Proof.
  unfold addGujaratHeatmap, connectWebSocket, new_WebSocket, print,
    useFallbackData, setLatLngs. run.
  destruct (heatmapLayer w) as [old|] eqn:El; simpl; rewrite ?El; simpl;
    destruct (WebSocket_accepts _); simpl; rewrite ?El; simpl;
    eexists; reflexivity.
Qed.

Lemma step_keeps_layer (e : event) (w : window) :
  has_layer w -> has_layer (step e w).
Proof.
  intros Hw. unfold step. pose proof (dispatch_keeps_layer e w Hw) as Hk.
  destruct (dispatch e w); auto.
Qed.

End Consumer.

(** *** At concrete inputs *)

#[local] Existing Instance Demo.host.

(** The page of the examples is the page after the script has run and
    the connection has opened. *)
Example window_open_reached :
  exists w,
    final_state (addGujaratHeatmap true (page VUndefined)) = Some w /\
    heatmapLayer (step (Opened 0) w) = heatmapLayer Demo.window_open /\
    sockets (step (Opened 0) w) = sockets Demo.window_open /\
    heatmapWebSocket (step (Opened 0) w) = heatmapWebSocket Demo.window_open /\
    timers (step (Opened 0) w) = timers Demo.window_open.
Proof. eexists. split; [reflexivity|]. vm_compute. repeat split. Qed.

Lemma C1_witness :
  exists w',
    onmessage 0 (Demo.stringify Demo.a_full_update) Demo.window_open = Return tt w' /\
    heatmapLayer w' = Some Demo.two_points /\
    sockets w' = sockets Demo.window_open /\ timers w' = timers Demo.window_open /\
    wsReconnectDisabled w' = wsReconnectDisabled Demo.window_open.
Proof.
  apply (C1_update_replaces_overlay (H := Demo.host) 0
           (Demo.stringify Demo.a_full_update) Demo.a_full_update "full_update"
           Demo.two_points fallbackStaticData Demo.window_open).
  - reflexivity.
  - vm_compute. reflexivity.
  - left. reflexivity.
  - reflexivity.
  - reflexivity.
Defined.

Lemma C3_witness :
  (exists w',
      dispatch (Closed 0 (VNum (of_Z 1006)) (VStr "")) Demo.window_open = Return tt w' /\
      heatmapLayer w' = Some fallbackStaticData /\
      timers w' = timers Demo.window_open ++ [mkTimer 5000 retry_connection] /\
      dom (sockets w') = dom (sockets Demo.window_open) /\
      heatmapWebSocket w' = heatmapWebSocket Demo.window_open /\
      wsReconnectDisabled w' = wsReconnectDisabled Demo.window_open) /\
  (forall (u : window) (n : nat) (t : timer),
      timers u !! n = Some t ->
      dispatch (Timeout n) u =
        run_callback (action t)
          (set_timers (take n (timers u) ++ drop (S n) (timers u)) u)) /\
  (forall u : window,
      ToBoolean (wsReconnectDisabled u) = true ->
      run_callback retry_connection u = Return tt u) /\
  (forall u : window,
      ToBoolean (wsReconnectDisabled u) = false ->
      run_callback retry_connection u = connectWebSocket u) /\
  (forall u : window,
      ToBoolean (wsReconnectDisabled u) = false ->
      WebSocket_accepts (wsUrl u) = true ->
      exists u',
        run_callback retry_connection u = Return tt u' /\
        sockets u' =
          <[fresh (dom (sockets u)) := mkWebSocket (wsUrl u) CONNECTING []]>
            (sockets u) /\
        timers u' = timers u).
Proof.
  apply (C3_close_shows_fallback_and_schedules_retry (H := Demo.host) 0
           (VNum (of_Z 1006)) (VStr "") fallbackStaticData Demo.window_open).
  reflexivity.
Defined.

Lemma C4_witness :
  (onmessage 0 (Demo.stringify Demo.a_full_update) Demo.window_open =
     handle_by_shape Demo.a_full_update Demo.window_open) /\
  (exists points,
     extraction full_update_shape Demo.a_full_update = VArr points /\
     forall old, heatmapLayer Demo.window_open = Some old ->
       exists w',
         onmessage 0 (Demo.stringify Demo.a_full_update) Demo.window_open =
           Return tt w' /\
         heatmapLayer w' = Some points /\
         sockets w' = sockets Demo.window_open /\
         timers w' = timers Demo.window_open) /\
  (onmessage 0 (Demo.stringify Demo.a_heatmap_update) Demo.window_open =
     handle_by_shape Demo.a_heatmap_update Demo.window_open) /\
  (onmessage 0 (Demo.stringify (VArr Demo.two_points)) Demo.window_open =
     handle_by_shape (VArr Demo.two_points) Demo.window_open) /\
  (onmessage 0 (Demo.stringify Demo.a_status) Demo.window_open =
     handle_by_shape Demo.a_status Demo.window_open) /\
  (classify Demo.a_tagged_string = None /\
   onmessage 0 (Demo.stringify Demo.a_tagged_string) Demo.window_open =
     Return tt Demo.window_open) /\
  (classify VNull = None /\
   onmessage 0 (Demo.stringify VNull) Demo.window_open =
     Return tt
       (logged Demo.window_open
          [mkEntry Error "Error parsing WebSocket message:" [];
           mkEntry Error "Raw message:" [VStr (Demo.stringify VNull)]])).
Proof.
  split; [|split; [|split; [|split; [|split; [|split]]]]].
  - apply (proj1 (C4_classification_chain (H := Demo.host) 0
                    (Demo.stringify Demo.a_full_update) Demo.a_full_update
                    Demo.window_open ltac:(vm_compute; reflexivity))).
  - apply (proj2 (C4_classification_chain (H := Demo.host) 0
                    (Demo.stringify Demo.a_full_update) Demo.a_full_update
                    Demo.window_open ltac:(vm_compute; reflexivity))
             full_update_shape eq_refl).
  - apply (proj1 (C4_classification_chain (H := Demo.host) 0
                    (Demo.stringify Demo.a_heatmap_update) Demo.a_heatmap_update
                    Demo.window_open ltac:(vm_compute; reflexivity))).
  - apply (proj1 (C4_classification_chain (H := Demo.host) 0
                    (Demo.stringify (VArr Demo.two_points)) (VArr Demo.two_points)
                    Demo.window_open ltac:(vm_compute; reflexivity))).
  - apply (proj1 (C4_classification_chain (H := Demo.host) 0
                    (Demo.stringify Demo.a_status) Demo.a_status
                    Demo.window_open ltac:(vm_compute; reflexivity))).
  - apply (proj1 (C4_classification_chain (H := Demo.host) 0
                    (Demo.stringify Demo.a_tagged_string) Demo.a_tagged_string
                    Demo.window_open ltac:(vm_compute; reflexivity))).
  - apply (proj1 (C4_classification_chain (H := Demo.host) 0
                    (Demo.stringify VNull) VNull
                    Demo.window_open ltac:(vm_compute; reflexivity))).
Defined.

(** What the classification chooses on the messages of the examples. *)
Example shapes_of_the_examples :
  classify Demo.a_full_update = Some full_update_shape /\
  classify Demo.a_heatmap_update = Some heatmap_update_shape /\
  classify (VArr Demo.two_points) = Some bare_array_shape /\
  classify (VObj [("data", VArr Demo.two_points)]) = Some nested_data_shape /\
  classify Demo.a_status = None.
Proof. repeat split. Qed.

(** C4, as stated, fails: the message [{type: "full_update", data:
    "soon"}] parses and has none of the four shapes, its [data] being
    no array, yet the handler logs nothing: it takes the branch of the
    tag, and [updateHeatmapData] ignores the string without a word.  The
    window, console included, is left exactly as it was. *)
Lemma C4_tagged_message_dropped_unlogged :
  JSON_parse (Demo.stringify Demo.a_tagged_string) = Some Demo.a_tagged_string /\
  Forall (fun sh => has_shape sh Demo.a_tagged_string = false)
    [full_update_shape; heatmap_update_shape; bare_array_shape;
     nested_data_shape] /\
  classify Demo.a_tagged_string = None /\
  onmessage 0 (Demo.stringify Demo.a_tagged_string) Demo.window_open =
    Return tt Demo.window_open /\
  console (step (Message 0 (Demo.stringify Demo.a_tagged_string)) Demo.window_open) =
    console Demo.window_open /\
  handle_by_shape Demo.a_tagged_string Demo.window_open =
    Return tt
      (logged Demo.window_open
         [mkEntry Warn "Unknown message format:" [Demo.a_tagged_string]]).
Proof.
  split; [vm_compute; reflexivity|].
  split; [repeat constructor|].
  split; [reflexivity|].
  split; [vm_compute; reflexivity|].
  split; vm_compute; reflexivity.
Qed.

Lemma C6_witness :
  onmessage 0 "{oops" Demo.window_open =
    Return tt
      (logged Demo.window_open
         [mkEntry Error "Error parsing WebSocket message:" [];
          mkEntry Error "Raw message:" [VStr "{oops"]]) /\
  step (Message 0 "{oops") Demo.window_open =
    logged Demo.window_open
      [mkEntry Error "Error parsing WebSocket message:" [];
       mkEntry Error "Raw message:" [VStr "{oops"]] /\
  heatmapLayer (step (Message 0 "{oops") Demo.window_open) = heatmapLayer Demo.window_open /\
  sockets (step (Message 0 "{oops") Demo.window_open) = sockets Demo.window_open /\
  timers (step (Message 0 "{oops") Demo.window_open) = timers Demo.window_open /\
  heatmapWebSocket (step (Message 0 "{oops") Demo.window_open)
    = heatmapWebSocket Demo.window_open.
Proof.
  apply (C6_malformed_payload_ignored (H := Demo.host) 0 "{oops" Demo.window_open).
  vm_compute. reflexivity.
Defined.

(** [null] parses, and reading its [type] throws inside the [try]. *)
Remark null_message_logged_as_error :
  classify VNull = None /\
  onmessage 0 "null" Demo.window_open =
    Return tt
      (logged Demo.window_open
         [mkEntry Error "Error parsing WebSocket message:" [];
          mkEntry Error "Raw message:" [VStr "null"]]).
Proof. split; vm_compute; reflexivity. Qed.

End ConsumerFacts.

(** ** The producer *)

Module ServerFacts.
Import Server NumberFacts.

Lemma number_eqb_eq x y : number_eqb x y = true -> x = y.
Proof.
  destruct x as [s|s| |s m e], y as [s'|s'| |s' m' e']; simpl;
    try discriminate; try reflexivity.
  - intros E. apply eqb_prop in E. congruence.
  - intros E. apply eqb_prop in E. congruence.
  - intros E. apply andb_true_iff in E as [E E3].
    apply andb_true_iff in E as [E1 E2].
    apply eqb_prop in E1. apply Pos.eqb_eq in E2. apply Z.eqb_eq in E3.
    congruence.
Qed.

Lemma counts_to_spec numPoints n :
  counts_to numPoints n = true ->
  (forall j, (j < n)%nat ->
     lt (of_Z (Z.of_nat j)) (sub numPoints (of_Z 1)) = true /\
     add (of_Z (Z.of_nat j)) (of_Z 1) = of_Z (Z.of_nat (S j))) /\
  lt (of_Z (Z.of_nat n)) (sub numPoints (of_Z 1)) = false.
Proof.
  unfold counts_to. intros E. apply andb_true_iff in E as [E1 E2].
  split; [|apply negb_true_iff, E2].
  intros j Hj. rewrite forallb_forall in E1.
  specialize (E1 (Z.of_nat j)).
  destruct (andb_prop _ _ (E1 ltac:(apply in_map, in_seq; lia))) as [Ea Eb].
  split; [exact Ea|]. rewrite (number_eqb_eq _ _ Eb). f_equal. lia.
Qed.

(** The table behind termination: for every [z] below 64 the loop with
    [numPoints = z + 5] counts to [z + 4]. *)
Lemma counts_table :
  forallb (fun z => counts_to (add (of_Z (Z.of_nat z)) (of_Z 5)) (z + 4))
          (seq 0 64) = true.
Proof. vm_compute. reflexivity. Qed.

Lemma counts_small z :
  (0 <= z < 64)%Z ->
  counts_to (add (of_Z z) (of_Z 5)) (Z.to_nat z + 4) = true.
Proof.
  intros Hz. pose proof counts_table as T. rewrite forallb_forall in T.
  specialize (T (Z.to_nat z) ltac:(apply in_seq; lia)).
  rewrite Z2Nat.id in T by lia. exact T.
Qed.

Section Producer.
Context `{Host}.

Lemma set_draws_twice a b s : set_draws a (set_draws b s) = set_draws a s.
Proof. reflexivity. Qed.

Lemma set_draws_same s : set_draws (draws s) s = s.
Proof. destruct s; reflexivity. Qed.

Lemma satellites_length x n : forall d, length (satellites x d n) = n.
Proof. induction n as [|n IH]; intros d; [reflexivity|]. cbn. rewrite IH. reflexivity. Qed.

Lemma satellites_nth x n :
  forall d j, (j < n)%nat ->
    nth_error (satellites x d n) j =
    Some (satellite x (Math_random (d + 3 * j)) (Math_random (d + 3 * j + 1))
                    (Math_random (d + 3 * j + 2))).
Proof.
  induction n as [|n IH]; intros d j Hj; [lia|].
  destruct j as [|j]; cbn [satellites nth_error].
  - replace (d + 3 * 0)%nat with d by lia. reflexivity.
  - rewrite IH by lia. do 2 f_equal; f_equal; lia.
Qed.

(** The loop, run from counter [k] for [n] rounds. *)
Lemma surrounding_runs n :
  forall fuel intensity numPoints k points s,
  (forall j, (j < n)%nat ->
     lt (of_Z (Z.of_nat (k + j))) (sub numPoints (of_Z 1)) = true /\
     add (of_Z (Z.of_nat (k + j))) (of_Z 1) = of_Z (Z.of_nat (S (k + j)))) ->
  lt (of_Z (Z.of_nat (k + n))) (sub numPoints (of_Z 1)) = false ->
  (n <= fuel)%nat ->
  surrounding fuel intensity numPoints (of_Z (Z.of_nat k)) points s =
  Return (points ++ satellites intensity (draws s) n)
         (set_draws (draws s + 3 * n) s).
Proof.
  induction n as [|n IH]; intros fuel intensity numPoints k points s Hin Hout Hf.
  - rewrite Nat.add_0_r in Hout.
    destruct fuel; cbn [surrounding]; rewrite Hout; unfold ret;
      rewrite app_nil_r, Nat.add_0_r, set_draws_same; reflexivity.
  - destruct fuel as [|fuel]; [lia|].
    destruct (Hin 0%nat ltac:(lia)) as [Hlt Hadd]. rewrite Nat.add_0_r in Hlt, Hadd.
    cbn [surrounding]. rewrite Hlt. unfold random, bind. cbn [draws set_draws].
    rewrite Hadd.
    rewrite (IH fuel intensity numPoints (S k)).
    + cbn [draws set_draws satellites]. rewrite <- app_assoc. cbn [app].
      replace (draws s + 1)%nat with (S (draws s)) by lia.
      replace (draws s + 2)%nat with (S (S (draws s))) by lia.
      replace (draws s + 3)%nat with (S (S (S (draws s)))) by lia.
      f_equal. destruct s; unfold set_draws; cbn. f_equal. lia.
    + intros j Hj. specialize (Hin (S j) ltac:(lia)).
      replace (S k + j)%nat with (k + S j)%nat by lia. exact Hin.
    + replace (S k + n)%nat with (k + S n)%nat by lia. exact Hout.
    + lia.
Qed.

Lemma generate_runs numPoints n fuel intensity s :
  add (Math_floor (mul intensity (of_Z 15))) (of_Z 5) = numPoints ->
  counts_to numPoints n = true ->
  (n <= fuel)%nat ->
  generateSomnathHeatPoints fuel intensity s =
  Return ((SOMNATH_TEMPLE_lat, SOMNATH_TEMPLE_lng, intensity)
            :: satellites intensity (draws s) n)
         (set_draws (draws s + 3 * n) s).
Proof.
  intros En Hc Hf. unfold generateSomnathHeatPoints. rewrite En.
  destruct (counts_to_spec _ _ Hc) as [Hin Hout].
  change pos_zero with (of_Z (Z.of_nat 0)).
  rewrite (surrounding_runs n fuel intensity numPoints 0); auto.
Qed.

(** [generateSomnathHeatPoints] returns for every intensity the server
    can hold, after at most 67 rounds. *)
Lemma generate_terminates intensity :
  intensity_ok intensity = true ->
  exists n, (n <= 67)%nat /\
    forall fuel s, (n <= fuel)%nat ->
      generateSomnathHeatPoints fuel intensity s =
      Return ((SOMNATH_TEMPLE_lat, SOMNATH_TEMPLE_lng, intensity)
                :: satellites intensity (draws s) n)
             (set_draws (draws s + 3 * n) s).
Proof.
  unfold intensity_ok. intros Hok.
  destruct (isNaN intensity) eqn:En.
  - destruct intensity; try discriminate.
    exists 0%nat. split; [lia|]. intros fuel s Hf.
    apply (generate_runs nan); [reflexivity|reflexivity|exact Hf].
  - simpl in Hok. apply andb_true_iff in Hok as [Hu Hfit].
    destruct (numPoints_small intensity Hu Hfit) as (z & Hz & Ez).
    exists (Z.to_nat z + 4)%nat. split; [lia|]. intros fuel s Hf.
    apply (generate_runs (add (of_Z z) (of_Z 5))); [exact Ez| |exact Hf].
    apply counts_small, Hz.
Qed.

(** *** The gathering step *)

Lemma positive_finite_facts c :
  positive_finite c = true ->
  is_finite c = true /\ non_negative c = true /\ isNaN c = false /\
  is_neg_zero c = false /\ is_pos_zero c = false /\
  exists m e, c = S754_finite false m e.
Proof.
  destruct c as [[]|[]| |[] m e]; try discriminate. intros _.
  repeat split; eauto.
Qed.

(** [Math.min(1.0, y)] of a value that is not negative. *)
Lemma capped_non_negative y :
  non_negative y = true -> fits y = true ->
  in_unit (Math_min [of_Z 1; y]) = true /\
  non_negative (Math_min [of_Z 1; y]) = true /\
  is_finite (Math_min [of_Z 1; y]) = true /\
  fits (Math_min [of_Z 1; y]) = true.
Proof.
  intros Hn Hf. pose proof (non_negative_not_nan y Hn) as Hy.
  destruct (Math_min_cases (of_Z 1) y) as [[-> Hlt]| ->]; try reflexivity; auto.
  repeat split; auto.
  - unfold in_unit. rewrite (non_negative_le_zero y Hn), (lt_le _ _ Hlt). reflexivity.
  - apply (lt_finite_r y (of_Z 1)); auto.
Qed.

Lemma clamp_fits lo x :
  positive_finite lo = true \/ lo = pos_zero ->
  fits lo = true -> fits x = true -> isNaN x = false ->
  fits (Math_max [lo; Math_min [of_Z 1; x]]) = true.
Proof.
  intros Hlo Hfl Hfx Hx.
  assert (is_finite lo = true /\ is_neg_zero lo = false) as [Hf Hz].
  { destruct Hlo as [Hp| ->]; [|split; reflexivity].
    destruct (positive_finite_facts lo Hp) as (? & ? & ? & ? & _). auto. }
  destruct (Math_min_cases (of_Z 1) x) as [[-> Hlt]| ->]; try reflexivity; auto.
  - destruct (Math_max_cases lo x) as [[-> _]| ->]; auto.
  - destruct (Math_max_cases lo (of_Z 1)) as [[-> _]| ->]; auto.
Qed.

Lemma target_finite count :
  non_negative count = true ->
  is_finite (target count) = true /\ fits (target count) = true.
Proof.
  intros Hc. unfold target.
  destruct (capped_non_negative
              (add (decimal 5 1) (mul (div count (of_Z 100)) (decimal 5 1))))
    as (_ & _ & Hf & Hfit); auto.
  - apply add_non_negative; [reflexivity|].
    change (decimal 5 1) with (S754_finite false 4503599627370496 (-53)).
    apply mul_non_negative.
    change (of_Z 100) with (S754_finite false 7036874417766400 (-46)).
    apply div_non_negative, Hc.
  - apply add_fits; [apply decimal_fits | apply mul_fits].
Qed.

Lemma varied_in_unit count r :
  non_negative count = true -> isNaN r = false -> fits r = true ->
  in_unit (varied count r) = true /\ non_negative (varied count r) = true /\
  fits (varied count r) = true.
Proof.
  intros Hc Hr Hfr. destruct (target_finite count Hc) as [Hf Hfit].
  set (w := add (target count) (mul (sub r (decimal 5 1)) (decimal 5 2))).
  assert (isNaN w = false) as Hw.
  { apply add_finite_l; [exact Hf|].
    change (decimal 5 2) with (S754_finite false 7205759403792794 (-57)).
    apply mul_finite_r. apply sub_finite_r; [exact Hr|reflexivity]. }
  assert (fits w = true) as Hfw by (apply add_fits; [exact Hfit | apply mul_fits]).
  unfold varied. fold w.
  destruct (clamp_in_unit (decimal 3 1) w) as (Hu & Hn & _); try reflexivity; auto.
  repeat split; auto. apply clamp_fits; auto; apply decimal_fits.
Qed.

Lemma peaked_in_unit x :
  non_negative x = true -> fits x = true ->
  in_unit (peaked x) = true /\ fits (peaked x) = true.
Proof.
  intros Hn Hf. unfold peaked.
  destruct (capped_non_negative (add x (decimal 2 1))) as (Hu & _ & _ & Hfit); auto.
  - apply add_non_negative; [exact Hn|reflexivity].
  - apply add_fits; [exact Hf|apply decimal_fits].
Qed.

Lemma gather_runs s : gather s = Return tt (gathered s).
Proof.
  unfold gather, gathered, random, print. run. cbn.
  destruct (lt (Math_random (S (draws s))) (decimal 1 1)); reflexivity.
Qed.

Lemma gathered_in_unit s :
  sane H -> non_negative (updateCount s) = true -> fits (updateCount s) = true ->
  in_unit (somnathCrowdIntensity (gathered s)) = true /\
  fits (somnathCrowdIntensity (gathered s)) = true /\
  non_negative (updateCount (gathered s)) = true /\
  fits (updateCount (gathered s)) = true.
Proof.
  intros Hs Hn Hf. unfold gathered. cbn.
  assert (non_negative (add (updateCount s) (of_Z 1)) = true) as Hc
    by (apply add_non_negative; [exact Hn|reflexivity]).
  assert (fits (add (updateCount s) (of_Z 1)) = true) as Hfc
    by (apply add_fits; [exact Hf|apply of_Z_fits]).
  pose proof (random_in_range H Hs (draws s)) as Hr.
  unfold in_random_range in Hr. apply andb_true_iff in Hr as [_ Hr].
  destruct (varied_in_unit (add (updateCount s) (of_Z 1)) (Math_random (draws s)))
    as (Hu & Hnn & Hfit); auto.
  { eapply lt_not_nan_l, Hr. }
  { apply (random_fits H Hs). }
  destruct (lt (Math_random (S (draws s))) (decimal 1 1)); [|auto].
  destruct (peaked_in_unit _ Hnn Hfit). auto.
Qed.

(** *** The data of an update *)

Lemma getCurrentHeatmapData_runs s :
  intensity_ok (somnathCrowdIntensity s) = true ->
  exists n, (n <= 67)%nat /\
    forall fuel, (n <= fuel)%nat ->
      getCurrentHeatmapData fuel s =
      Return (baseHeatmapData ++
                (SOMNATH_TEMPLE_lat, SOMNATH_TEMPLE_lng, somnathCrowdIntensity s)
                :: satellites (somnathCrowdIntensity s) (draws s) n)
             (set_draws (draws s + 3 * n) s).
Proof.
  intros Hok. destruct (generate_terminates _ Hok) as (n & Hn & Hg).
  exists n. split; [exact Hn|]. intros fuel Hf.
  unfold getCurrentHeatmapData. run. rewrite (Hg fuel s Hf). reflexivity.
Qed.

Lemma vary_runs p s :
  exists p' d, vary p s = Return p' (set_draws d s) /\
    (draws s <= d)%nat /\ fst (fst p') = fst (fst p) /\ snd (fst p') = snd (fst p).
Proof.
  destruct p as [[lat lng] intensity]. unfold vary, random. run.
  destruct (_ && _).
  - exists (lat, lng, intensity), (draws s). rewrite set_draws_same. auto.
  - eexists _, (S (draws s)). repeat split. lia.
Qed.

Lemma map_M_vary_runs pts :
  forall s, exists pts' d,
    map_M vary pts s = Return pts' (set_draws d s) /\
    (draws s <= d)%nat /\ length pts' = length pts.
Proof.
  induction pts as [|p pts IH]; intros s.
  - exists [], (draws s). rewrite set_draws_same. split; [reflexivity|]. split; auto.
  - destruct (vary_runs p s) as (p' & d & Ev & Hd & _).
    destruct (IH (set_draws d s)) as (pts' & d' & Em & Hd' & Hl).
    exists (p' :: pts'), d'. cbn [map_M]. unfold bind. rewrite Ev, Em.
    rewrite set_draws_twice. cbn in Hd'. repeat split; [lia|]. simpl. lia.
Qed.

(** *** The broadcast *)

Lemma set_sockets_same s : set_sockets (sockets s) s = s.
Proof. destruct s; reflexivity. Qed.

Lemma send_if_open_runs message client s :
  send_if_open message client s =
  Return tt (set_sockets (deliver message (sockets s) client) s).
Proof.
  unfold send_if_open, send, deliver. run.
  destruct (sockets s !! client) as [sock|] eqn:Es;
    [|rewrite set_sockets_same; reflexivity].
  destruct (readyState sock) eqn:Er; cbn; rewrite ?Es, ?Er;
    rewrite ?set_sockets_same; reflexivity.
Qed.

Lemma forEach_send_if_open_runs message cs :
  forall s,
    forEach cs (send_if_open message) s =
    Return tt (set_sockets (broadcast message cs (sockets s)) s).
Proof.
  induction cs as [|c cs IH]; intros s.
  - cbn. unfold ret. rewrite set_sockets_same. reflexivity.
  - cbn [forEach]. unfold bind. rewrite send_if_open_runs, IH. reflexivity.
Qed.

Lemma deliver_other message socks c c' :
  c <> c' -> deliver message socks c !! c' = socks !! c'.
Proof.
  intros Hne. unfold deliver. destruct (socks !! c) as [sock|]; [|reflexivity].
  destruct (ready_state_eqb _ _); [|reflexivity]. apply lookup_insert_ne, Hne.
Qed.

Lemma broadcast_absent message cs :
  forall (socks : gmap nat socket) c,
    c ∉ cs -> broadcast message cs socks !! c = socks !! c.
Proof.
  induction cs as [|c0 cs IH]; intros socks c Hc; [reflexivity|].
  change (broadcast message (c0 :: cs) socks)
    with (broadcast message cs (deliver message socks c0)).
  rewrite IH by (intros ?; apply Hc; right; assumption).
  apply deliver_other. intros ->. apply Hc. left.
Qed.


(** *** The interval handler *)

Lemma intensity_ok_in_unit x :
  in_unit x = true -> fits x = true -> intensity_ok x = true.
Proof. unfold intensity_ok. intros -> ->. apply orb_true_r. Qed.

(** The state at the moment the update is built: after the gathering
    step when the simulation is active, unchanged otherwise. *)
Lemma advanced_steady s :
  sane H -> steady s -> steady (advanced s).
Proof.
  intros Hs (Hi & Hn & Hf & Hd). unfold advanced.
  destruct (ToBoolean (crowdGatheringActive s)); [|repeat split; assumption].
  destruct (gathered_in_unit s Hs Hn Hf) as (Hu & Hfi & Hn' & Hf').
  repeat split; auto. apply intensity_ok_in_unit; assumption.
Qed.

Lemma update_message_runs fuel now s :
  sane H -> steady s -> (67 <= fuel)%nat ->
  exists updatedData d,
    update_message fuel now s =
    Return (heatmap_update updatedData now (somnathCrowdIntensity (advanced s)))
           (set_draws d (advanced s)) /\
    exists n, (n <= 67)%nat /\
      length updatedData = (length baseHeatmapData + S n)%nat.
Proof.
  intros Hs Hst Hf.
  pose proof (advanced_steady s Hs Hst) as (Hok & _).
  destruct (getCurrentHeatmapData_runs (advanced s) Hok) as (n & Hn & Hg).
  specialize (Hg fuel ltac:(lia)).
  destruct (map_M_vary_runs
              (baseHeatmapData ++
                 (SOMNATH_TEMPLE_lat, SOMNATH_TEMPLE_lng,
                  somnathCrowdIntensity (advanced s))
                 :: satellites (somnathCrowdIntensity (advanced s))
                      (draws (advanced s)) n)
              (set_draws (draws (advanced s) + 3 * n) (advanced s)))
    as (updatedData & d & Em & _ & Hl).
  rewrite set_draws_twice in Em.
  exists updatedData, d. split.
  - unfold update_message. unfold bind at 1. unfold get_state at 1.
    unfold bind at 1.
    assert (when (ToBoolean (crowdGatheringActive s)) gather s = Return tt (advanced s))
      as ->.
    { unfold advanced, when. destruct (ToBoolean _); [apply gather_runs|reflexivity]. }
    unfold bind at 1. rewrite Hg.
    unfold bind at 1. rewrite Em. reflexivity.
  - exists n. split; [exact Hn|]. rewrite Hl, length_app.
    cbn [length]. rewrite satellites_length. reflexivity.
Qed.

Lemma advanced_frame s :
  clients (advanced s) = clients s /\ sockets (advanced s) = sockets s /\
  crowdGatheringActive (advanced s) = crowdGatheringActive s.
Proof. unfold advanced. destruct (ToBoolean _); repeat split. Qed.

Lemma tick_runs fuel now s :
  sane H -> steady s -> (67 <= fuel)%nat -> clients s <> [] ->
  exists updatedData d,
    update_message fuel now s =
    Return (heatmap_update updatedData now (somnathCrowdIntensity (advanced s)))
           (set_draws d (advanced s)) /\
    tick fuel now s =
    Return tt
      (logged
         (set_sockets
            (broadcast
               (JSON_stringify
                  (heatmap_update updatedData now
                     (somnathCrowdIntensity (advanced s))))
               (clients s) (sockets s))
            (set_draws d (advanced s)))
         [mkEntry Log "Update"
            [VNum (updateCount (advanced s));
             VStr (toFixed (somnathCrowdIntensity (advanced s)) 3);
             VNum (Math_floor (mul (somnathCrowdIntensity (advanced s)) (of_Z 1000)));
             VNum (of_Z (Z.of_nat (length (clients s))))]]).
Proof.
  intros Hs Hst Hf Hc.
  destruct (update_message_runs fuel now s Hs Hst Hf) as (updatedData & d & Eu & _).
  destruct (advanced_frame s) as (Ec & Eso & _).
  exists updatedData, d. split; [exact Eu|].
  unfold tick. unfold bind at 1. unfold get_state at 1.
  assert (Nat.ltb 0 (length (clients s)) = true) as ->.
  { destruct (clients s); [congruence|reflexivity]. }
  unfold when at 1. unfold bind at 1. rewrite Eu.
  unfold bind at 1. unfold get_state at 1.
  unfold bind at 1. rewrite forEach_send_if_open_runs.
  cbn [clients sockets set_draws somnathCrowdIntensity updateCount set_sockets].
  rewrite Ec, Eso. reflexivity.
Qed.

Lemma tick_idles fuel now s : clients s = [] -> tick fuel now s = Return tt s.
Proof. intros E. unfold tick. run. rewrite E. reflexivity. Qed.

(** *** The message handler *)

Lemma print_runs l t a s : print l t a s = Return tt (logged s [mkEntry l t a]).
Proof. reflexivity. Qed.

Lemma Get_field data k v : Get data k = Some v -> forall k', Get data k' = Some (field data k').
Proof. unfold field. destruct data; simpl; congruence. Qed.

Lemma has_type_runs data tag t s :
  Get data "type" = Some t ->
  has_type data tag s = Return (strict_eq_string (field data "type") tag) s.
Proof.
  intros E. unfold has_type, read. run.
  rewrite (Get_field _ _ _ E "type"). reflexivity.
Qed.

Lemma is_request_runs data t s :
  Get data "type" = Some t ->
  is_request data s = Return (requests_gujarat data) s.
Proof.
  intros E. unfold is_request, requests_gujarat, read. run.
  rewrite (Get_field _ _ _ E "type").
  destruct (strict_eq_string _ "request_data"); [|reflexivity].
  rewrite (Get_field _ _ _ E "region"). reflexivity.
Qed.

Lemma handle_set_crowd_intensity_runs data t s :
  Get data "type" = Some t ->
  handle_set_crowd_intensity data s = Return tt (with_intensity_set data s).
Proof.
  intros E. unfold handle_set_crowd_intensity, with_intensity_set.
  unfold bind at 1. rewrite (has_type_runs _ _ _ _ E). fold (sets_intensity data).
  destruct (sets_intensity data); [|reflexivity].
  unfold when, read, print. run. rewrite (Get_field _ _ _ E "intensity").
  reflexivity.
Qed.

Lemma handle_toggle_gathering_runs data t s :
  Get data "type" = Some t ->
  handle_toggle_gathering data s = Return tt (with_gathering_toggled data s).
Proof.
  intros E. unfold handle_toggle_gathering, with_gathering_toggled.
  unfold bind at 1. rewrite (has_type_runs _ _ _ _ E). fold (toggles_gathering data).
  destruct (toggles_gathering data); [|reflexivity].
  unfold when, read, print. run. rewrite (Get_field _ _ _ E "active").
  reflexivity.
Qed.

Lemma handle_request_skips fuel ws data t s :
  Get data "type" = Some t -> requests_gujarat data = false ->
  handle_request fuel ws data s = Return tt s.
Proof.
  intros E Hr. unfold handle_request. unfold bind.
  rewrite (is_request_runs _ _ _ E), Hr. reflexivity.
Qed.

(** A message that parses, is not [null] and is no request for Gujarat:
    the second and third branches are applied, nothing is sent. *)
Lemma incoming_runs_without_request fuel ws message data t s :
  JSON_parse message = Some data ->
  Get data "type" = Some t -> requests_gujarat data = false ->
  incoming fuel ws message s =
  Return tt
    (with_gathering_toggled data
       (with_intensity_set data
          (logged s [mkEntry Log "Received:" [data]]))).
Proof.
  intros Hp E Hr. unfold incoming, try_catch.
  unfold bind at 1. unfold lift_option. rewrite Hp. unfold ret.
  unfold bind at 1. unfold print at 1. unfold modify.
  unfold bind at 1. rewrite (handle_request_skips _ _ _ _ _ E Hr).
  unfold bind at 1. rewrite (handle_set_crowd_intensity_runs _ _ _ E).
  rewrite (handle_toggle_gathering_runs _ _ _ E). reflexivity.
Qed.

(** The reply to a request for Gujarat, on an open connection. *)
Lemma incoming_runs_request fuel ws message data t sock s :
  JSON_parse message = Some data ->
  Get data "type" = Some t -> requests_gujarat data = true ->
  intensity_ok (somnathCrowdIntensity s) = true -> (67 <= fuel)%nat ->
  sockets s !! ws = Some sock -> readyState sock = OPEN ->
  exists points d,
    incoming fuel ws message s =
    Return tt
      (set_sockets
         (<[ws := mkSocket OPEN
                    (sent sock ++
                       [JSON_stringify
                          (full_update points "Somnath Temple crowd intensity: "
                             (somnathCrowdIntensity s))])]> (sockets s))
         (set_draws d (logged s [mkEntry Log "Received:" [data]]))).
Proof.
  intros Hp E Hr Hok Hf Hso Hopen.
  set (s1 := logged s [mkEntry Log "Received:" [data]]).
  destruct (getCurrentHeatmapData_runs s1 Hok) as (n & Hn & Hg).
  specialize (Hg fuel ltac:(lia)).
  eexists _, (draws s1 + 3 * n)%nat.
  unfold incoming, try_catch.
  unfold bind at 1. unfold lift_option. rewrite Hp. unfold ret.
  unfold bind at 1. rewrite print_runs. fold s1.
  unfold bind at 1. unfold handle_request.
  unfold bind at 1. rewrite (is_request_runs _ _ _ E), Hr.
  unfold when. unfold bind at 1. rewrite Hg.
  unfold bind at 1. unfold get_state at 1. unfold send.
  unfold bind at 1. unfold get_state at 1.
  cbn [sockets set_draws]. change (sockets s1) with (sockets s).
  rewrite Hso, Hopen. unfold modify.
  assert (sets_intensity data = false /\ toggles_gathering data = false) as [E2 E3].
  { unfold requests_gujarat in Hr. unfold sets_intensity, toggles_gathering.
    destruct (field data "type") as [| | | |ty| |]; try discriminate.
    simpl in *. apply andb_true_iff in Hr as [Hr _].
    apply String.eqb_eq in Hr. subst ty. split; reflexivity. }
  unfold bind at 1. rewrite (handle_set_crowd_intensity_runs _ _ _ E).
  rewrite (handle_toggle_gathering_runs _ _ _ E).
  unfold with_intensity_set, with_gathering_toggled. rewrite E2, E3.
  reflexivity.
Qed.

(** [null] parses, and reading its [type] throws: logged, nothing
    else. *)
Lemma incoming_runs_null fuel ws message data s :
  JSON_parse message = Some data -> Get data "type" = None ->
  incoming fuel ws message s =
  Return tt
    (logged s [mkEntry Log "Received:" [data];
               mkEntry Error "Error parsing message:" []]).
Proof.
  intros Hp E. unfold incoming, try_catch, handle_request, is_request, read, print.
  run. rewrite Hp, E. unfold logged, set_console. cbn.
  rewrite <- app_assoc. reflexivity.
Qed.

Lemma incoming_runs_malformed fuel ws message s :
  JSON_parse message = None ->
  incoming fuel ws message s =
  Return tt (logged s [mkEntry Error "Error parsing message:" []]).
Proof.
  intros Hp. unfold incoming, try_catch, print. run. rewrite Hp. reflexivity.
Qed.

(** *** Every event leaves a steady state *)

Lemma steady_same s s' : same_variables s s' -> steady s -> steady s'.
Proof.
  intros (E1 & _ & E3 & E4) (H1 & H2 & H3 & H4). unfold steady.
  rewrite E1, E3, E4. auto.
Qed.

Lemma send_runs ws payload s :
  exists s', (send ws payload s = Return tt s' \/ send ws payload s = Throw s') /\
             same_variables s s' /\ draws s' = draws s.
Proof.
  unfold send. run.
  destruct (sockets s !! ws) as [sock|]; [destruct (readyState sock)|];
    eexists; (split; [first [left; reflexivity | right; reflexivity]|]);
    repeat split.
Qed.

Lemma incoming_request_runs fuel ws message data t s :
  JSON_parse message = Some data ->
  Get data "type" = Some t -> requests_gujarat data = true ->
  intensity_ok (somnathCrowdIntensity s) = true -> (67 <= fuel)%nat ->
  exists s', incoming fuel ws message s = Return tt s' /\ same_variables s s'.
Proof.
  intros Hp E Hr Hok Hf.
  set (s1 := logged s [mkEntry Log "Received:" [data]]).
  destruct (getCurrentHeatmapData_runs s1 Hok) as (n & Hn & Hg).
  specialize (Hg fuel ltac:(lia)).
  assert (sets_intensity data = false /\ toggles_gathering data = false) as [E2 E3].
  { unfold requests_gujarat in Hr. unfold sets_intensity, toggles_gathering.
    destruct (field data "type") as [| | | |ty| |]; try discriminate.
    simpl in *. apply andb_true_iff in Hr as [Hr _].
    apply String.eqb_eq in Hr. subst ty. split; reflexivity. }
  unfold incoming, try_catch.
  unfold bind at 1. unfold lift_option. rewrite Hp. unfold ret.
  unfold bind at 1. rewrite print_runs. fold s1.
  unfold bind at 1. unfold handle_request.
  unfold bind at 1. rewrite (is_request_runs _ _ _ E), Hr.
  unfold when. unfold bind at 1. rewrite Hg.
  unfold bind at 1. unfold get_state at 1.
  match goal with |- context [send ws ?p ?st] =>
    destruct (send_runs ws p st) as (s' & [Es|Es] & Hv & _); rewrite Es
  end.
  - unfold bind at 1. rewrite (handle_set_crowd_intensity_runs _ _ _ E).
    rewrite (handle_toggle_gathering_runs _ _ _ E).
    unfold with_intensity_set, with_gathering_toggled. rewrite E2, E3.
    eexists. split; [reflexivity|]. exact Hv.
  - rewrite print_runs. eexists. split; [reflexivity|].
    destruct Hv as (? & ? & ? & ?). repeat split; assumption.
Qed.

Lemma lookup_prop_fits k props :
  forallb (fun kv => value_fits (snd kv)) props = true ->
  value_fits (lookup_prop k props) = true.
Proof.
  induction props as [|[k' v] props IH]; [reflexivity|]. simpl.
  intros E. apply andb_true_iff in E as [Ev Ep].
  destruct (String.eqb k' k); auto.
Qed.

Lemma field_fits data k : value_fits data = true -> value_fits (field data k) = true.
Proof.
  unfold field. destruct data; try reflexivity. simpl. apply lookup_prop_fits.
Qed.

Lemma ToNumber_fits v :
  sane H -> value_fits v = true ->
  fits (ToNumber NumberToString StringToNumber v) = true.
Proof.
  intros Hs Hv. destruct v as [| |[]|n|text|items|props]; try reflexivity;
    try exact Hv; apply (converted_fits H Hs).
Qed.

Lemma clamped_ok v :
  sane H -> value_fits v = true -> intensity_ok (clamped v) = true.
Proof.
  intros Hs Hv. unfold clamped, intensity_ok.
  pose proof (ToNumber_fits v Hs Hv) as Hx.
  destruct (isNaN (ToNumber NumberToString StringToNumber v)) eqn:Ex.
  - rewrite (Math_min_nan (of_Z 1) _ Ex).
    rewrite (Math_max_nan pos_zero nan eq_refl). reflexivity.
  - destruct (clamp_in_unit pos_zero (ToNumber NumberToString StringToNumber v))
      as (Hu & _); try reflexivity; [exact Ex|].
    rewrite Hu. rewrite clamp_fits; [apply orb_true_r|right; reflexivity|reflexivity|exact Hx|exact Ex].
Qed.

Lemma with_intensity_set_steady data s :
  sane H -> value_fits data = true -> steady s -> steady (with_intensity_set data s).
Proof.
  intros Hs Hd (H1 & H2 & H3 & H4). unfold with_intensity_set.
  destruct (sets_intensity data); [|repeat split; assumption].
  repeat split; auto. apply clamped_ok; [exact Hs|]. apply field_fits, Hd.
Qed.

Lemma with_gathering_toggled_steady data s :
  steady s -> steady (with_gathering_toggled data s).
Proof.
  intros (H1 & H2 & H3 & H4). unfold with_gathering_toggled.
  destruct (toggles_gathering data); repeat split; assumption.
Qed.

Lemma clients_add_NoDup ws cs : NoDup cs -> NoDup (clients_add ws cs).
Proof.
  intros Hn. unfold clients_add. case_bool_decide as Hin; [exact Hn|].
  apply NoDup_app. repeat split; [exact Hn| |apply NoDup_singleton].
  intros x Hx Hx'. apply list_elem_of_singleton in Hx'. subst. contradiction.
Qed.

Lemma clients_delete_NoDup ws cs : NoDup cs -> NoDup (clients_delete ws cs).
Proof. intros Hn. unfold clients_delete. apply NoDup_filter, Hn. Qed.

Lemma connection_runs fuel s :
  steady s -> (67 <= fuel)%nat ->
  let ws := fresh (dom (sockets s)) in
  exists points d,
    dispatch fuel Connection s =
    Return tt
      (mkServer (somnathCrowdIntensity s) (crowdGatheringActive s) (updateCount s)
         (clients_add ws (clients s))
         (<[ws := mkSocket OPEN
                    [JSON_stringify
                       (full_update points
                          "Initial heatmap data - Somnath Temple crowd intensity: "
                          (somnathCrowdIntensity s))]]> (sockets s))
         d
         (console s ++ [mkEntry Log "New client connected:" []])).
Proof.
  intros (Hok & _) Hf ws.
  pose (s0 := logged (set_sockets (<[ws := mkSocket OPEN []]> (sockets s)) s)
                [mkEntry Log "New client connected:" []]).
  destruct (getCurrentHeatmapData_runs
              (set_clients (clients_add ws (clients s0)) s0) Hok)
    as (n & Hn & Hg).
  specialize (Hg fuel ltac:(lia)).
  eexists _, _.
  unfold dispatch. unfold bind at 1. unfold get_state at 1. fold ws.
  unfold bind at 1. unfold modify at 1. unfold connection.
  unfold bind at 1. rewrite print_runs.
  unfold bind at 1. unfold modify at 1. fold s0.
  unfold bind at 1. rewrite Hg.
  unfold bind at 1. unfold get_state at 1. unfold send. run.
  cbn. rewrite lookup_insert_eq. cbn. rewrite insert_insert_eq. reflexivity.
Qed.

Theorem dispatch_steady fuel e s :
  sane H -> steady s -> (67 <= fuel)%nat ->
  exists s', dispatch fuel e s = Return tt s' /\ steady s'.
Proof.
  intros Hs Hst Hf. destruct e as [|ws message|ws|ws|now].
  - destruct (connection_runs fuel s Hst Hf) as (points & d & ->).
    eexists. split; [reflexivity|]. destruct Hst as (H1 & H2 & H3 & H4).
    repeat split; auto. apply clients_add_NoDup, H4.
  - unfold dispatch. destruct (JSON_parse message) as [data|] eqn:Hp.
    + destruct (Get data "type") as [t|] eqn:E.
      * destruct (requests_gujarat data) eqn:Hr.
        -- destruct (incoming_request_runs fuel ws message data t s Hp E Hr)
             as (s' & -> & Hv); [apply Hst|exact Hf|].
           eexists. split; [reflexivity|]. eapply steady_same; eauto.
        -- rewrite (incoming_runs_without_request _ _ _ _ _ _ Hp E Hr).
           eexists. split; [reflexivity|].
           apply with_gathering_toggled_steady.
           apply with_intensity_set_steady;
             [exact Hs | apply (parsed_fits H Hs _ _ Hp) |].
           destruct Hst as (H1 & H2 & H3 & H4). repeat split; assumption.
      * rewrite (incoming_runs_null _ _ _ _ _ Hp E).
        eexists. split; [reflexivity|].
        destruct Hst as (H1 & H2 & H3 & H4). repeat split; assumption.
    + rewrite (incoming_runs_malformed _ _ _ _ Hp).
      eexists. split; [reflexivity|].
      destruct Hst as (H1 & H2 & H3 & H4). repeat split; assumption.
  - unfold dispatch, set_readyState, close, print. run.
    destruct Hst as (H1 & H2 & H3 & H4).
    destruct (sockets s !! ws); (eexists; split; [reflexivity|]);
      repeat split; auto; apply clients_delete_NoDup, H4.
  - unfold dispatch, error, print. run.
    destruct Hst as (H1 & H2 & H3 & H4).
    eexists; split; [reflexivity|].
    repeat split; auto; apply clients_delete_NoDup, H4.
  - unfold dispatch. destruct (clients s) as [|c cs] eqn:Ec.
    + rewrite (tick_idles fuel now s Ec). eexists. split; [reflexivity|exact Hst].
    + destruct (tick_runs fuel now s Hs Hst Hf) as (u & d & _ & E); [congruence|].
      rewrite E. eexists. split; [reflexivity|].
      destruct (advanced_steady s Hs Hst) as (H1 & H2 & H3 & H4).
      repeat split; auto.
Qed.

(** Every run of the server from a steady state ends, in a steady
    state. *)
Theorem run_steady fuel events :
  forall s,
    sane H -> steady s -> (67 <= fuel)%nat ->
    exists s', run fuel events s = Some s' /\ steady s'.
Proof.
  induction events as [|e events IH]; intros s Hs Hst Hf.
  - exists s. split; [reflexivity|exact Hst].
  - destruct (dispatch_steady fuel e s Hs Hst Hf) as (s1 & E1 & Hst1).
    destruct (IH s1 Hs Hst1 Hf) as (s' & E' & Hst').
    exists s'. cbn [run]. rewrite E1. cbn [final_state]. auto.
Qed.

End Producer.
End ServerFacts.

(** ** The producer: what the specification states *)

Module ServerClaims.
Import Server NumberFacts ServerFacts.

(** The host of the examples is a sane one. *)
Lemma demo_host_sane : sane Demo.host.
Proof.
  split.
  - intros k. unfold Math_random, Demo.host, Demo.random_draw.
    destruct (Nat.modulo k 3) as [|[|n]]; reflexivity.
  - intros k. unfold Math_random, Demo.host, Demo.random_draw.
    destruct (Nat.modulo k 3) as [|[|n]]; apply decimal_fits.
  - intros text v Hp.
    destruct (find_some _ Demo.known_messages Hp) as [Hin _].
    assert (forallb value_fits Demo.known_messages = true) as Hall
      by (vm_compute; reflexivity).
    rewrite forallb_forall in Hall. apply Hall, Hin.
  - intros text. change (fits (Demo.text_number text) = true).
    unfold Demo.text_number.
    destruct (String.eqb text ""); [reflexivity|].
    destruct (NilZero.uint_of_string text); [apply of_Z_fits|reflexivity].
Qed.

Lemma boot_steady : steady boot.
Proof. repeat split; try reflexivity. constructor. Qed.

Lemma two_viewers_steady : steady Demo.two_viewers.
Proof.
  repeat split; try reflexivity. apply NoDup_cons. split.
  - intros Hin. apply list_elem_of_singleton in Hin. discriminate.
  - apply NoDup_singleton.
Qed.

Lemma two_viewers_paused_steady : steady Demo.two_viewers_paused.
Proof. apply two_viewers_steady. Qed.

Section Claims.
Context `{Host}.

(** C7: called with intensity 1.0, the generator returns the exact
    centre point [(lat, lng, 1.0)] followed by 19 surrounding points, 20
    points in all, hence between 5 and 20; the [j]-th surrounding point
    is built from draws [3j], [3j+1] and [3j+2] and carries
    [Math.min(1.0, 1.0 * (0.7 + rand * 0.3))]. *)
Theorem C7_cluster_at_full_intensity (extra : nat) (s : server) :
  generateSomnathHeatPoints (19 + extra) (of_Z 1) s =
    Return ((SOMNATH_TEMPLE_lat, SOMNATH_TEMPLE_lng, of_Z 1)
              :: satellites (of_Z 1) (draws s) 19)
           (set_draws (draws s + 57) s) /\
  (5 <= length ((SOMNATH_TEMPLE_lat, SOMNATH_TEMPLE_lng, of_Z 1)
                  :: satellites (of_Z 1) (draws s) 19) <= 20)%nat /\
  length ((SOMNATH_TEMPLE_lat, SOMNATH_TEMPLE_lng, of_Z 1)
            :: satellites (of_Z 1) (draws s) 19) = 20%nat /\
  forall j, (j < 19)%nat ->
    exists lat lng,
      nth_error (satellites (of_Z 1) (draws s) 19) j =
      Some (lat, lng,
            Math_min [of_Z 1;
                      mul (of_Z 1)
                          (add (decimal 7 1)
                               (mul (Math_random (draws s + 3 * j + 2))
                                    (decimal 3 1)))]).
Proof.
  split; [|split; [|split]].
  - rewrite (generate_runs (of_Z 20) 19 (19 + extra) (of_Z 1) s);
      [reflexivity | vm_compute; reflexivity | vm_compute; reflexivity | lia].
  - cbn [length]. rewrite satellites_length. lia.
  - cbn [length]. rewrite satellites_length. reflexivity.
  - intros j Hj. rewrite (satellites_nth _ _ _ _ Hj). unfold satellite.
    eexists _, _. reflexivity.
Qed.

Lemma strict_eq_string_true v text :
  strict_eq_string v text = true <-> v = VStr text.
Proof.
  split.
  - destruct v; simpl; try discriminate. intros E. apply String.eqb_eq in E. congruence.
  - intros ->. simpl. apply String.eqb_refl.
Qed.

Lemma field_Get data k v : Get data k = Some v -> field data k = v.
Proof. unfold field. intros ->. reflexivity. Qed.

Lemma set_message_conditions data :
  Get data "type" = Some (VStr "set_crowd_intensity") ->
  requests_gujarat data = false /\ sets_intensity data = true /\
  toggles_gathering data = false.
Proof.
  intros E. unfold requests_gujarat, sets_intensity, toggles_gathering.
  rewrite (field_Get _ _ _ E). repeat split.
Qed.

(** What a [set_crowd_intensity] message does, whatever it carries. *)
Lemma incoming_set_crowd_intensity fuel ws message data s :
  JSON_parse message = Some data ->
  Get data "type" = Some (VStr "set_crowd_intensity") ->
  incoming fuel ws message s =
  Return tt
    (logged (set_somnathCrowdIntensity (clamped (field data "intensity")) s)
       [mkEntry Log "Received:" [data];
        mkEntry Log "Crowd intensity manually set to:"
          [VNum (clamped (field data "intensity"))]]).
Proof.
  intros Hp E. destruct (set_message_conditions data E) as (E1 & E2 & E3).
  rewrite (incoming_runs_without_request _ _ _ _ _ _ Hp E E1).
  unfold with_gathering_toggled, with_intensity_set. rewrite E2, E3.
  unfold logged, set_console, set_somnathCrowdIntensity. cbn.
  rewrite <- app_assoc. reflexivity.
Qed.

(** C2, as amended: a run of the interval handler that recomputes the
    intensity, which it does when a client is connected and the
    simulation is active, leaves it in [[0, 1]], peak included; a run
    that does not recompute it leaves it as it was, so that it lies in
    [[0, 1]] after the run if it did before.  A [set_crowd_intensity]
    message stores [Math.max(0, Math.min(1.0, v))] of what it carries;
    for a Number [n], whatever its magnitude, that lies in [[0, 1]]: it
    is [1.0] for [2.5] and [0] for [-3]. *)
Theorem C2_intensity_stays_in_unit_interval (fuel : nat) (now : string)
    (s : server) (ws : nat) (message : string) (data : value) (n : number)
    (u : server) :
  sane H -> steady s -> (67 <= fuel)%nat ->
  JSON_parse message = Some data ->
  Get data "type" = Some (VStr "set_crowd_intensity") ->
  Get data "intensity" = Some (VNum n) ->
  isNaN n = false ->
  (exists s', tick fuel now s = Return tt s' /\
      (clients s <> [] /\ ToBoolean (crowdGatheringActive s) = true ->
       in_unit (somnathCrowdIntensity s') = true) /\
      (clients s = [] \/ ToBoolean (crowdGatheringActive s) = false ->
       somnathCrowdIntensity s' = somnathCrowdIntensity s) /\
      (in_unit (somnathCrowdIntensity s) = true ->
       in_unit (somnathCrowdIntensity s') = true)) /\
  (exists u', incoming fuel ws message u = Return tt u' /\
              somnathCrowdIntensity u' = Math_max [pos_zero; Math_min [of_Z 1; n]] /\
              in_unit (somnathCrowdIntensity u') = true) /\
  Math_max [pos_zero; Math_min [of_Z 1; decimal 25 1]] = of_Z 1 /\
  Math_max [pos_zero; Math_min [of_Z 1; of_Z (-3)]] = pos_zero.
Proof.
  intros Hs Hst Hf Hp Ety Ei Hn. split; [|split; [|split; reflexivity]].
  - destruct (clients s) as [|c cs] eqn:Ec.
    + rewrite (tick_idles fuel now s Ec). eexists. split; [reflexivity|].
      split; [intros [Hne _]; congruence|]. split; auto.
    + destruct (tick_runs fuel now s Hs Hst Hf) as (updatedData & d & _ & ->);
        [congruence|].
      eexists. split; [reflexivity|].
      cbn [somnathCrowdIntensity logged set_console set_sockets set_draws].
      unfold advanced. destruct (ToBoolean (crowdGatheringActive s)) eqn:Ea.
      * destruct Hst as (_ & Hnn & Hfit & _).
        pose proof (gathered_in_unit s Hs Hnn Hfit) as Hg.
        split; [intros _; apply Hg|].
        split; [intros [Hc|Hc]; discriminate|]. intros _. apply Hg.
      * split; [intros [_ Hb]; discriminate|]. split; auto.
  - rewrite (incoming_set_crowd_intensity fuel ws message data u Hp Ety).
    eexists. split; [reflexivity|].
    cbn [somnathCrowdIntensity logged set_console set_somnathCrowdIntensity].
    rewrite (field_Get _ _ _ Ei). unfold clamped. cbn [ToNumber].
    split; [reflexivity|].
    apply (clamp_in_unit pos_zero n); try reflexivity. exact Hn.
Qed.


(** Not every value that is no Number coerces to NaN: [null] counts as
    [0], and the handler then stores [0]. *)
Remark null_intensity_stores_zero : clamped VNull = pos_zero.
Proof. reflexivity. Qed.

Lemma same_variables_refl s : same_variables s s.
Proof. repeat split. Qed.

Lemma same_variables_trans s1 s2 s3 :
  same_variables s1 s2 -> same_variables s2 s3 -> same_variables s1 s3.
Proof.
  intros (A1 & A2 & A3 & A4) (B1 & B2 & B3 & B4). unfold same_variables.
  rewrite B1, B2, B3, B4. auto.
Qed.

(** One run of the interval handler while the simulation is paused. *)
Lemma tick_paused fuel now s :
  sane H -> steady s -> (67 <= fuel)%nat ->
  ToBoolean (crowdGatheringActive s) = false ->
  exists s', tick fuel now s = Return tt s' /\ same_variables s s'.
Proof.
  intros Hs Hst Hf Hp. destruct (clients s) as [|c cs] eqn:Ec.
  - rewrite (tick_idles fuel now s Ec). eexists. split; [reflexivity|].
    apply same_variables_refl.
  - destruct (tick_runs fuel now s Hs Hst Hf) as (updatedData & d & _ & ->);
      [congruence|].
    eexists. split; [reflexivity|]. unfold advanced. rewrite Hp. repeat split.
Qed.

Lemma ticks_paused fuel nows :
  forall s,
    sane H -> steady s -> (67 <= fuel)%nat ->
    ToBoolean (crowdGatheringActive s) = false ->
    exists s', ticks fuel nows s = Return tt s' /\ same_variables s s'.
Proof.
  induction nows as [|now nows IH]; intros s Hs Hst Hf Hp.
  - exists s. split; [reflexivity|apply same_variables_refl].
  - destruct (tick_paused fuel now s Hs Hst Hf Hp) as (s1 & E1 & V1).
    destruct (IH s1) as (s' & E' & V'); auto.
    + eapply steady_same; eauto.
    + destruct V1 as (_ & -> & _). exact Hp.
    + exists s'. cbn [ticks]. unfold bind. rewrite E1. split; [exact E'|].
      eapply same_variables_trans; eauto.
Qed.

(** C8: while the gathering flag is false the stored intensity (and
    the update counter) is the same after any number of consecutive runs
    of the interval handler; an event that changes the intensity is a
    [set_crowd_intensity] message. *)
Theorem C8_paused_intensity_unchanged (fuel : nat) (nows : list string)
    (s : server) :
  sane H -> steady s -> (67 <= fuel)%nat ->
  ToBoolean (crowdGatheringActive s) = false ->
  (exists s', ticks fuel nows s = Return tt s' /\
              somnathCrowdIntensity s' = somnathCrowdIntensity s /\
              updateCount s' = updateCount s /\
              crowdGatheringActive s' = crowdGatheringActive s) /\
  (forall e s',
      dispatch fuel e s = Return tt s' ->
      somnathCrowdIntensity s' <> somnathCrowdIntensity s ->
      exists ws message data,
        e = Incoming ws message /\ JSON_parse message = Some data /\
        Get data "type" = Some (VStr "set_crowd_intensity")).
Proof.
  intros Hs Hst Hf Hp. split.
  - destruct (ticks_paused fuel nows s Hs Hst Hf Hp) as (s' & E & V1 & V2 & V3 & _).
    exists s'. auto.
  - intros e s' Ee Hne. destruct e as [|ws message|ws|ws|now].
    + destruct (connection_runs fuel s Hst Hf) as (points & d & E).
      rewrite E in Ee. injection Ee as <-. contradiction Hne. reflexivity.
    + unfold dispatch in Ee. destruct (JSON_parse message) as [data|] eqn:Ep.
      * destruct (Get data "type") as [t|] eqn:Et.
        -- destruct (requests_gujarat data) eqn:Er.
           ++ destruct (incoming_request_runs fuel ws message data t s Ep Et Er)
                as (s1 & E1 & V1 & _); [apply Hst|exact Hf|].
              rewrite E1 in Ee. injection Ee as <-. contradiction.
           ++ rewrite (incoming_runs_without_request _ _ _ _ _ _ Ep Et Er) in Ee.
              injection Ee as <-. exists ws, message, data.
              split; [reflexivity|]. split; [exact Ep|].
              unfold with_gathering_toggled, with_intensity_set in Hne.
              destruct (sets_intensity data) eqn:Es.
              ** unfold sets_intensity in Es. apply strict_eq_string_true in Es.
                 rewrite (field_Get _ _ _ Et) in Es. congruence.
              ** destruct (toggles_gathering data); contradiction Hne; reflexivity.
        -- rewrite (incoming_runs_null _ _ _ _ _ Ep Et) in Ee.
           injection Ee as <-. contradiction Hne. reflexivity.
      * rewrite (incoming_runs_malformed _ _ _ _ Ep) in Ee.
        injection Ee as <-. contradiction Hne. reflexivity.
    + unfold dispatch, set_readyState, close, print in Ee. run.
      destruct (sockets s !! ws); injection Ee as <-; contradiction Hne; reflexivity.
    + unfold dispatch, error, print in Ee. run.
      injection Ee as <-. contradiction Hne. reflexivity.
    + destruct (tick_paused fuel now s Hs Hst Hf Hp) as (s1 & E1 & V1 & _).
      unfold dispatch in Ee. rewrite E1 in Ee. injection Ee as <-. contradiction.
Qed.

Lemma open_reply_changes_sockets ws (sock : socket) payload (socks : gmap nat socket) :
  socks !! ws = Some sock ->
  <[ws := mkSocket OPEN (sent sock ++ [payload])]> socks <> socks.
Proof.
  intros Es E. assert (<[ws := mkSocket OPEN (sent sock ++ [payload])]> socks !! ws
                       = socks !! ws) as E' by (rewrite E; reflexivity).
  rewrite lookup_insert_eq, Es in E'. injection E' as E'.
  apply (f_equal sent) in E'. cbn in E'.
  apply (f_equal (@length string)) in E'. rewrite length_app in E'. cbn in E'. lia.
Qed.

(** C10: a [request_data] message whose region is not the string
    ["gujarat"] is answered by nothing and changes no variable (its
    receipt is logged); one whose region is ["gujarat"] gets the
    [full_update] reply; and for every text received on an open
    connection, something is sent if and only if the text parses to a
    message of type ["request_data"] and region ["gujarat"]. *)
Theorem C10_reply_only_to_gujarat_requests (fuel ws : nat)
    (message : string) (data region : value)
    (message' : string) (data' : value) (sock : socket) (s : server) :
  sane H -> steady s -> (67 <= fuel)%nat ->
  JSON_parse message = Some data ->
  Get data "type" = Some (VStr "request_data") ->
  Get data "region" = Some region ->
  strict_eq_string region "gujarat" = false ->
  JSON_parse message' = Some data' ->
  Get data' "type" = Some (VStr "request_data") ->
  Get data' "region" = Some (VStr "gujarat") ->
  sockets s !! ws = Some sock -> readyState sock = OPEN ->
  incoming fuel ws message s =
    Return tt (logged s [mkEntry Log "Received:" [data]]) /\
  (exists points d,
      incoming fuel ws message' s =
      Return tt
        (set_sockets
           (<[ws := mkSocket OPEN
                      (sent sock ++
                         [JSON_stringify
                            (full_update points "Somnath Temple crowd intensity: "
                               (somnathCrowdIntensity s))])]> (sockets s))
           (set_draws d (logged s [mkEntry Log "Received:" [data']])))) /\
  (forall text,
      exists s',
        incoming fuel ws text s = Return tt s' /\
        (sockets s' <> sockets s <->
         exists d0, JSON_parse text = Some d0 /\
                    Get d0 "type" = Some (VStr "request_data") /\
                    Get d0 "region" = Some (VStr "gujarat"))).
Proof.
  intros Hs Hst Hf Hp Et Er Hne Hp' Et' Er' Hso Hopen.
  assert (forall d0 t, Get d0 "type" = Some t ->
            (requests_gujarat d0 = true <->
             Get d0 "type" = Some (VStr "request_data") /\
             Get d0 "region" = Some (VStr "gujarat"))) as Hreq.
  { intros d0 t E0. unfold requests_gujarat.
    rewrite (Get_field _ _ _ E0 "type"), (Get_field _ _ _ E0 "region").
    rewrite andb_true_iff, !strict_eq_string_true.
    split; intros [E1 E2]; rewrite ?E1, ?E2; split; congruence. }
  split; [|split].
  - rewrite (incoming_runs_without_request _ _ _ _ _ _ Hp Et).
    + unfold with_gathering_toggled, with_intensity_set, toggles_gathering,
        sets_intensity. rewrite (field_Get _ _ _ Et). reflexivity.
    + unfold requests_gujarat. rewrite (field_Get _ _ _ Er), Hne.
      apply andb_false_r.
  - apply (incoming_runs_request fuel ws message' data' (VStr "request_data") sock s);
      auto; [|apply Hst].
    apply (Hreq data' _ Et'). auto.
  - intros text. destruct (JSON_parse text) as [d0|] eqn:Ep.
    + destruct (Get d0 "type") as [t|] eqn:E0.
      * destruct (requests_gujarat d0) eqn:Hr.
        -- destruct (incoming_runs_request fuel ws text d0 t sock s)
             as (points & d & ->); auto; [apply Hst|].
           eexists. split; [reflexivity|]. cbn [sockets set_sockets]. split.
           ++ intros _. exists d0. split; [reflexivity|].
              apply (Hreq d0 t E0), Hr.
           ++ intros _. apply open_reply_changes_sockets, Hso.
        -- rewrite (incoming_runs_without_request _ _ _ _ _ _ Ep E0 Hr).
           eexists. split; [reflexivity|]. split.
           ++ intros Hd. contradiction Hd.
              unfold with_gathering_toggled, with_intensity_set.
              destruct (toggles_gathering d0), (sets_intensity d0); reflexivity.
           ++ intros (d1 & E1 & Ht1 & Hr1). injection E1 as <-.
              assert (requests_gujarat d0 = true) by (apply (Hreq d0 t E0); auto).
              congruence.
      * rewrite (incoming_runs_null _ _ _ _ _ Ep E0).
        eexists. split; [reflexivity|]. split.
        -- intros Hd. contradiction Hd. reflexivity.
        -- intros (d1 & E1 & Ht1 & _). congruence.
    + rewrite (incoming_runs_malformed _ _ _ _ Ep).
      eexists. split; [reflexivity|]. split.
      * intros Hd. contradiction Hd. reflexivity.
      * intros (d1 & E1 & _). discriminate.
Qed.

End Claims.

(** *** At concrete inputs *)

#[local] Existing Instance Demo.host.

Lemma C2_witness :
  (exists s', tick 67 Demo.an_instant Demo.two_viewers = Return tt s' /\
      (clients Demo.two_viewers <> [] /\
       ToBoolean (crowdGatheringActive Demo.two_viewers) = true ->
       in_unit (somnathCrowdIntensity s') = true) /\
      (clients Demo.two_viewers = [] \/
       ToBoolean (crowdGatheringActive Demo.two_viewers) = false ->
       somnathCrowdIntensity s' = somnathCrowdIntensity Demo.two_viewers) /\
      (in_unit (somnathCrowdIntensity Demo.two_viewers) = true ->
       in_unit (somnathCrowdIntensity s') = true)) /\
  (exists u', incoming 67 0 (Demo.stringify Demo.set_intensity_25) Demo.two_viewers
                = Return tt u' /\
              somnathCrowdIntensity u' =
                Math_max [pos_zero; Math_min [of_Z 1; decimal 25 1]] /\
              in_unit (somnathCrowdIntensity u') = true) /\
  Math_max [pos_zero; Math_min [of_Z 1; decimal 25 1]] = of_Z 1 /\
  Math_max [pos_zero; Math_min [of_Z 1; of_Z (-3)]] = pos_zero.
Proof.
  apply (C2_intensity_stays_in_unit_interval (H := Demo.host) 67 Demo.an_instant
           Demo.two_viewers 0 (Demo.stringify Demo.set_intensity_25)
           Demo.set_intensity_25 (decimal 25 1) Demo.two_viewers).
  - exact demo_host_sane.
  - exact two_viewers_steady.
  - lia.
  - vm_compute. reflexivity.
  - reflexivity.
  - reflexivity.
  - reflexivity.
Defined.

(** The events that lead the server of the script to a paused
    simulation with an intensity that is no number: a viewer connects,
    sends a [set_crowd_intensity] message without [intensity], then
    pauses the simulation. *)
Example nan_while_paused_reached :
  exists s,
    run 67 [Connection;
            Incoming 0 (Demo.stringify Demo.set_intensity_missing);
            Incoming 0 (Demo.stringify Demo.toggle_off)] boot = Some s /\
    steady s /\ clients s = [0%nat] /\
    crowdGatheringActive s = VBool false /\ somnathCrowdIntensity s = nan.
Proof.
  destruct (run_steady 67
              [Connection;
               Incoming 0 (Demo.stringify Demo.set_intensity_missing);
               Incoming 0 (Demo.stringify Demo.toggle_off)] boot
              demo_host_sane boot_steady ltac:(lia)) as (s & E & Hst).
  exists s. split; [exact E|]. split; [exact Hst|].
  vm_compute in E. injection E as <-. repeat split.
Qed.

(** C2, as stated, fails: in the state these events lead to, a run of
    the interval handler, which has a client to serve, ends with the
    intensity NaN, which is not in [[0, 1]]. *)
Lemma C2_paused_tick_keeps_nan :
  exists s s',
    run 67 [Connection;
            Incoming 0 (Demo.stringify Demo.set_intensity_missing);
            Incoming 0 (Demo.stringify Demo.toggle_off)] boot = Some s /\
    clients s <> [] /\
    tick 67 Demo.an_instant s = Return tt s' /\
    somnathCrowdIntensity s' = nan /\
    in_unit (somnathCrowdIntensity s') = false.
Proof.
  destruct nan_while_paused_reached as (s & E & Hst & Hc & Ha & Hx).
  destruct (tick_runs 67 Demo.an_instant s demo_host_sane Hst ltac:(lia))
    as (updatedData & d & _ & Et); [rewrite Hc; discriminate|].
  eexists s, _. split; [exact E|]. split; [rewrite Hc; discriminate|].
  split; [exact Et|].
  cbn [somnathCrowdIntensity logged set_console set_sockets set_draws].
  unfold advanced. rewrite Ha. cbn [ToBoolean]. rewrite Hx. split; reflexivity.
Qed.




Lemma C8_witness :
  (exists s', ticks 67 [Demo.an_instant; Demo.an_instant] Demo.two_viewers_paused
                = Return tt s' /\
              somnathCrowdIntensity s' = somnathCrowdIntensity Demo.two_viewers_paused /\
              updateCount s' = updateCount Demo.two_viewers_paused /\
              crowdGatheringActive s' = crowdGatheringActive Demo.two_viewers_paused) /\
  (forall e s',
      dispatch 67 e Demo.two_viewers_paused = Return tt s' ->
      somnathCrowdIntensity s' <> somnathCrowdIntensity Demo.two_viewers_paused ->
      exists ws message data,
        e = Incoming ws message /\ JSON_parse message = Some data /\
        Get data "type" = Some (VStr "set_crowd_intensity")).
Proof.
  apply (C8_paused_intensity_unchanged (H := Demo.host) 67
           [Demo.an_instant; Demo.an_instant] Demo.two_viewers_paused).
  - exact demo_host_sane.
  - exact two_viewers_paused_steady.
  - lia.
  - reflexivity.
Defined.

Lemma C10_witness :
  incoming 67 0 (Demo.stringify Demo.request_kutch) Demo.two_viewers =
    Return tt (logged Demo.two_viewers
                 [mkEntry Log "Received:" [Demo.request_kutch]]) /\
  (exists points d,
      incoming 67 0 (Demo.stringify Demo.request_gujarat) Demo.two_viewers =
      Return tt
        (set_sockets
           (<[0%nat := mkSocket OPEN
                      (sent (mkSocket OPEN []) ++
                         [JSON_stringify
                            (full_update points "Somnath Temple crowd intensity: "
                               (somnathCrowdIntensity Demo.two_viewers))])]>
              (sockets Demo.two_viewers))
           (set_draws d (logged Demo.two_viewers
                           [mkEntry Log "Received:" [Demo.request_gujarat]])))) /\
  (forall text,
      exists s',
        incoming 67 0 text Demo.two_viewers = Return tt s' /\
        (sockets s' <> sockets Demo.two_viewers <->
         exists d0, JSON_parse text = Some d0 /\
                    Get d0 "type" = Some (VStr "request_data") /\
                    Get d0 "region" = Some (VStr "gujarat"))).
Proof.
  apply (C10_reply_only_to_gujarat_requests (H := Demo.host) 67 0
           (Demo.stringify Demo.request_kutch) Demo.request_kutch (VStr "kutch")
           (Demo.stringify Demo.request_gujarat) Demo.request_gujarat
           (mkSocket OPEN []) Demo.two_viewers).
  - exact demo_host_sane.
  - exact two_viewers_steady.
  - lia.
  - vm_compute. reflexivity.
  - reflexivity.
  - reflexivity.
  - reflexivity.
  - vm_compute. reflexivity.
  - reflexivity.
  - reflexivity.
  - reflexivity.
  - reflexivity.
Defined.

End ServerClaims.

(* ===================================================================== *)
(** * Part III. Further properties                                         *)
(* ===================================================================== *)

(** ** Numbers and their values *)

Module ValueFacts.
Import NumberFacts.


Section Shifts.
Local Open Scope Z_scope.

Lemma Zdigits2_ge m : 0 < m -> 2 ^ (Zdigits2 m - 1) <= m.
Proof.
  destruct m as [|p|p]; simpl; try lia. intros _.
  rewrite digits2_pos_size. pose proof (Pos.size_le p) as H.
  apply Pos2Z.pos_le_pos in H. rewrite Pos2Z.inj_pow in H.
  replace (Zpos (Pos.size p)) with (Zpos (Pos.size p) - 1 + 1) in H by lia.
  rewrite Z.pow_add_r in H by lia. change (Zpos p~0) with (2 * Zpos p) in H. lia.
Qed.

Lemma Zdigits2_pos m : 0 < m -> 0 < Zdigits2 m.
Proof. destruct m; simpl; lia. Qed.

Lemma Zdigits2_eq m k : 0 < k -> 2 ^ (k - 1) <= m < 2 ^ k -> Zdigits2 m = k.
Proof.
  intros Hk [Hlo Hhi].
  assert (0 < m) by (pose proof (Z.pow_pos_nonneg 2 (k - 1)); lia).
  pose proof (Zdigits2_le m k ltac:(lia) ltac:(lia) Hhi).
  pose proof (Zdigits2_gt m ltac:(lia)).
  pose proof (Zdigits2_pos m ltac:(lia)).
  destruct (Z_lt_le_dec (Zdigits2 m) k) as [Hlt|]; [|lia]. exfalso.
  assert (2 ^ Zdigits2 m <= 2 ^ (k - 1)) by (apply Z.pow_le_mono_r; lia). lia.
Qed.

Lemma shr_1_exact r :
  0 <= shr_m r -> exact_record r -> Z.even (shr_m r) = true ->
  exact_record (shr_1 r).
Proof.
  destruct r as [m rb sb]. unfold exact_record. cbn [shr_m shr_r shr_s].
  intros Hm [-> ->] He.
  destruct m as [|[p|p|]|p]; cbn in *; try discriminate; try lia; auto.
Qed.

Lemma even_of_mod m p : 0 <= m -> m mod 2 ^ Zpos p = 0 -> Z.even m = true.
Proof.
  intros Hm H. apply Z.even_spec. exists (m / 2 ^ Zpos p * 2 ^ (Zpos p - 1)).
  pose proof (Z.div_mod m (2 ^ Zpos p) ltac:(lia)) as E. rewrite H in E.
  set (q := m / 2 ^ Zpos p) in *.
  assert (2 ^ Zpos p = 2 * 2 ^ (Zpos p - 1)) as E2.
  { rewrite <- (Z.pow_1_r 2) at 2. rewrite <- Z.pow_add_r by lia. f_equal. lia. }
  rewrite E2 in E. lia.
Qed.

Lemma mod_pow2_split m a b :
  0 <= m -> 0 <= a -> 0 <= b -> m mod 2 ^ (a + b) = 0 ->
  m mod 2 ^ a = 0 /\ (m / 2 ^ a) mod 2 ^ b = 0.
Proof.
  intros Hm Ha Hb H.
  assert (0 < 2 ^ a) by (apply Z.pow_pos_nonneg; lia).
  assert (0 < 2 ^ b) by (apply Z.pow_pos_nonneg; lia).
  apply Z.mod_divide in H; [|rewrite Z.pow_add_r by lia; lia].
  destruct H as [q Hq]. rewrite Z.pow_add_r in Hq by lia.
  split.
  - apply Z.mod_divide; [lia|]. exists (q * 2 ^ b). lia.
  - replace m with (q * 2 ^ b * 2 ^ a) by lia. rewrite Z.div_mul by lia.
    apply Z.mod_mul. lia.
Qed.

Lemma iter_shr_1_exact p :
  forall r, 0 <= shr_m r -> exact_record r -> shr_m r mod 2 ^ Zpos p = 0 ->
    exact_record (SpecFloat.iter_pos shr_1 p r).
Proof.
  induction p as [p IH|p IH|]; intros r Hr Hx Hd; simpl SpecFloat.iter_pos.
  - replace (Zpos p~1) with (1 + (Zpos p + Zpos p)) in Hd by lia.
    destruct (mod_pow2_split (shr_m r) 1 (Zpos p + Zpos p) Hr ltac:(lia) ltac:(lia) Hd) as [D1 D2].
    destruct (shr_1_spec r Hr) as [H1 E1].
    assert (exact_record (shr_1 r)) as X1.
    { apply shr_1_exact; auto. apply (even_of_mod _ 1 Hr). exact D1. }
    rewrite Z.pow_1_r in D2. rewrite <- E1 in D2.
    destruct (mod_pow2_split _ (Zpos p) (Zpos p) H1 ltac:(lia) ltac:(lia) D2) as [D3 D4].
    destruct (iter_shr_1_spec p _ H1) as [H2 E2].
    apply IH; [exact H2| apply IH; auto |]. rewrite E2. exact D4.
  - replace (Zpos p~0) with (Zpos p + Zpos p) in Hd by lia.
    destruct (mod_pow2_split _ (Zpos p) (Zpos p) Hr ltac:(lia) ltac:(lia) Hd) as [D3 D4].
    destruct (iter_shr_1_spec p _ Hr) as [H2 E2].
    apply IH; [exact H2| apply IH; auto |]. rewrite E2. exact D4.
  - apply shr_1_exact; auto. apply (even_of_mod _ 1 Hr). exact Hd.
Qed.

(** The shift of an exact mantissa: the quotient, and no rounding when
    the division is exact. *)
Lemma shr_fexp_exact m e :
  0 <= m ->
  let k := Z.max 0 (fexp prec emax (Zdigits2 m + e) - e) in
  let r := fst (shr_fexp prec emax m e loc_Exact) in
  shr_m r = m / 2 ^ k /\
  snd (shr_fexp prec emax m e loc_Exact) = e + k /\
  m / 2 ^ k <= round_nearest_even (shr_m r) (loc_of_shr_record r) <= m / 2 ^ k + 1 /\
  (m mod 2 ^ k = 0 ->
   round_nearest_even (shr_m r) (loc_of_shr_record r) = m / 2 ^ k).
Proof.
  intros Hm k r.
  destruct (shr_fexp_spec m e loc_Exact Hm) as (H0 & E1 & E2). fold k in E1, E2.
  fold r in H0, E1. split; [exact E1|]. split; [exact E2|]. split.
  - rewrite <- E1. apply round_nearest_even_bounds, H0.
  - intros Hd. rewrite <- E1.
    assert (exact_record r) as [Xr Xs].
    { subst r. unfold shr_fexp, shr. subst k.
      destruct (fexp prec emax (Zdigits2 m + e) - e) as [|p|p] eqn:E;
        simpl fst; try (split; reflexivity).
      apply iter_shr_1_exact; [exact Hm|split; reflexivity|].
      simpl shr_m. rewrite Z.max_r in Hd by lia. exact Hd. }
    destruct r as [mr rb sb]. simpl in Xr, Xs. subst. reflexivity.
Qed.

Lemma fexp_eq e : fexp prec emax e = Z.max (e - 53) (-1074).
Proof. reflexivity. Qed.

(** The rounding of an exact mantissa that needs no shift to the left:
    the quotient of the shift to the right or its successor, at the
    exponent the format gives the value. *)
Lemma round_aux_exact_spec sx mx ex :
  0 < mx -> ex <= fexp prec emax (Zdigits2 mx + ex) ->
  let e1 := fexp prec emax (Zdigits2 mx + ex) in
  let m1 := mx / 2 ^ (e1 - ex) in
  exists m2,
    m1 <= m2 <= m1 + 1 /\ (mx mod 2 ^ (e1 - ex) = 0 -> m2 = m1) /\
    m1 < 2 ^ 53 /\ (-1074 < e1 -> 2 ^ 52 <= m1) /\ -1074 <= e1 /\
    binary_round_aux prec emax sx mx ex loc_Exact =
      if m2 =? 0 then S754_zero sx
      else if m2 =? 2 ^ 53 then
        if e1 + 1 <=? 971 then S754_finite sx (Z.to_pos (2 ^ 52)) (e1 + 1)
        else S754_infinity sx
      else if e1 <=? 971 then S754_finite sx (Z.to_pos m2) e1
      else S754_infinity sx.
Proof.
  intros Hm Hp e1 m1.
  assert (0 <= mx) as Hm0 by lia.
  destruct (shr_fexp_exact mx ex Hm0) as (E1 & X1 & B1 & D1).
  pose proof (shr_fexp_fits mx ex loc_Exact Hm0) as F1.
  fold e1 in E1, X1, B1, D1.
  rewrite Z.max_r in E1, X1, B1, D1 by (subst e1; lia).
  fold m1 in E1, B1, D1. rewrite E1 in F1.
  replace (ex + (e1 - ex)) with e1 in X1 by lia.
  assert (-1074 <= e1) as He1 by (subst e1; rewrite fexp_eq; lia).
  assert (-1074 < e1 -> 2 ^ 52 <= m1) as Hn.
  { intros Hgt. subst m1.
    assert (e1 = Zdigits2 mx + ex - 53) as Ee by (subst e1; rewrite fexp_eq in *; lia).
    pose proof (Zdigits2_ge mx Hm) as Hd. pose proof (Zdigits2_pos mx Hm).
    rewrite Ee in *.
    replace (Zdigits2 mx + ex - 53 - ex) with (Zdigits2 mx - 53) by lia.
    apply Z.div_le_lower_bound; [apply Z.pow_pos_nonneg; lia|].
    rewrite <- Z.pow_add_r by lia.
    replace (Zdigits2 mx - 53 + 52) with (Zdigits2 mx - 1) by lia. exact Hd. }
  unfold binary_round_aux.
  destruct (shr_fexp prec emax mx ex loc_Exact) as [r1 e1'] eqn:Es.
  cbn [fst snd] in *. subst e1'.
  set (m2 := round_nearest_even (shr_m r1) (loc_of_shr_record r1)) in *.
  exists m2. split; [exact B1|]. split; [exact D1|]. split; [exact F1|].
  split; [exact Hn|]. split; [exact He1|].
  assert (0 <= m1) as Hm1 by (subst m1; apply Z.div_pos; [lia|apply Z.pow_pos_nonneg; lia]).
  assert (0 <= m2) as Hm2 by lia.
  destruct (shr_fexp_spec m2 e1 loc_Exact Hm2) as (_ & E3 & X3).
  destruct (shr_fexp prec emax m2 e1 loc_Exact) as [r3 e3]. cbn [fst snd] in *.
  destruct (Z.eqb_spec m2 0) as [Ez|Hnz].
  - rewrite Ez in E3, X3. simpl Zdigits2 in E3, X3.
    rewrite Z.div_0_l in E3 by (apply Z.pow_nonzero; lia). rewrite E3. reflexivity.
  - destruct (Z.eqb_spec m2 (2 ^ 53)) as [Et|Hnt].
    + assert (Zdigits2 m2 = 54) as Ed by (apply Zdigits2_eq; lia).
      rewrite Ed, fexp_eq in E3, X3.
      replace (Z.max 0 (Z.max (54 + e1 - 53) (-1074) - e1)) with 1 in E3, X3 by lia.
      rewrite Et in E3. change (2 ^ 53 / 2 ^ 1) with (2 ^ 52) in E3.
      rewrite E3, X3. reflexivity.
    + assert (Zdigits2 m2 <= 53) as Ed by (apply Zdigits2_le; lia).
      rewrite fexp_eq in E3, X3.
      replace (Z.max 0 (Z.max (Zdigits2 m2 + e1 - 53) (-1074) - e1)) with 0 in E3, X3 by lia.
      rewrite Z.div_1_r in E3. rewrite Z.add_0_r in X3. rewrite E3, X3.
      destruct m2 as [|p|p]; [lia| |lia]. reflexivity.
Qed.

End Shifts.

Section Dyadic.
Local Open Scope Q_scope.

Lemma pow2_pos e : 0 < 2 ^ e.
Proof. apply Qpower_0_lt. reflexivity. Qed.

Lemma pow2_add a b : 2 ^ (a + b) == 2 ^ a * 2 ^ b.
Proof. apply Qpower_plus. discriminate. Qed.

Lemma pow2_Z n : (0 <= n)%Z -> 2 ^ n == inject_Z (2 ^ n).
Proof. intros Hn. rewrite Zpower_Qpower by exact Hn. reflexivity. Qed.

(** The same dyadic number at a smaller exponent. *)
Lemma dy_shift M a t :
  (t <= a)%Z -> inject_Z M * 2 ^ a == inject_Z (M * 2 ^ (a - t)) * 2 ^ t.
Proof.
  intros H. replace a with ((a - t) + t)%Z at 1 by lia.
  rewrite pow2_add, pow2_Z by lia. rewrite inject_Z_mult. ring.
Qed.

Lemma dy_le X Y t : inject_Z X * 2 ^ t <= inject_Z Y * 2 ^ t <-> (X <= Y)%Z.
Proof.
  pose proof (pow2_pos t). rewrite Zle_Qle. split; intros H1.
  - apply Qmult_le_r in H1; assumption.
  - apply Qmult_le_r; assumption.
Qed.

Lemma dy_lt X Y t : inject_Z X * 2 ^ t < inject_Z Y * 2 ^ t <-> (X < Y)%Z.
Proof.
  pose proof (pow2_pos t). rewrite Zlt_Qlt. split; intros H1.
  - apply Qmult_lt_r in H1; assumption.
  - apply Qmult_lt_r; assumption.
Qed.

Lemma dy_eq X Y t : inject_Z X * 2 ^ t == inject_Z Y * 2 ^ t <-> X = Y.
Proof.
  split; [|intros ->; reflexivity]. intros E.
  apply Z.le_antisymm; apply (dy_le _ _ t); rewrite E; apply Qle_refl.
Qed.

End Dyadic.

Section Grid.
Local Open Scope Z_scope.

Lemma binary64_finite_facts s m e :
  binary64 (S754_finite s m e) = true ->
  Zpos m < 2 ^ 53 /\ -1074 <= e <= 971 /\ (-1074 < e -> 2 ^ 52 <= Zpos m).
Proof.
  unfold binary64, valid_binary, bounded, canonical_mantissa. intros H.
  apply andb_true_iff in H as [Hc He]. apply Z.eqb_eq in Hc. apply Z.leb_le in He.
  rewrite fexp_eq in Hc. change (emax - prec) with 971 in He.
  change (Zpos (digits2_pos m)) with (Zdigits2 (Zpos m)) in Hc.
  pose proof (Zdigits2_gt (Zpos m) ltac:(lia)) as Hgt.
  pose proof (Zdigits2_ge (Zpos m) ltac:(lia)) as Hge.
  pose proof (Zdigits2_pos (Zpos m) ltac:(lia)) as Hd.
  set (d := Zdigits2 (Zpos m)) in *.
  assert (d <= 53) by lia.
  assert (2 ^ d <= 2 ^ 53) by (apply Z.pow_le_mono_r; lia).
  repeat split; try lia.
  intros Hn. assert (d = 53) as Ed by lia. rewrite Ed in Hge. exact Hge.
Qed.

Lemma binary64_finite_intro s m e :
  Zpos m < 2 ^ 53 -> -1074 <= e <= 971 -> (-1074 < e -> 2 ^ 52 <= Zpos m) ->
  binary64 (S754_finite s m e) = true.
Proof.
  intros Hm He Hn.
  unfold binary64, valid_binary, bounded, canonical_mantissa.
  apply andb_true_iff. split; [|apply Z.leb_le; change (emax - prec) with 971; lia].
  apply Z.eqb_eq. rewrite fexp_eq.
  change (Zpos (digits2_pos m)) with (Zdigits2 (Zpos m)).
  pose proof (Zdigits2_le (Zpos m) 53 ltac:(lia) ltac:(lia) Hm) as Hd.
  destruct (Z.eq_dec e (-1074)) as [->|Hne]; [lia|].
  rewrite (Zdigits2_eq (Zpos m) 53); [lia|lia|]. split; [apply Hn; lia|exact Hm].
Qed.

End Grid.

Section Gaps.
Local Open Scope Q_scope.

Lemma value_finite s m e :
  to_Q (S754_finite s m e) = inject_Z (cond_Zopp s (Zpos m)) * 2 ^ e.
Proof. reflexivity. Qed.

(** Between a grid point and the next one there is no binary64 value. *)
Lemma grid_next m1 e1 c :
  (0 <= m1 < 2 ^ 53)%Z -> (-1074 <= e1)%Z -> (-1074 < e1 -> 2 ^ 52 <= m1)%Z ->
  finite64 c = true ->
  inject_Z m1 * 2 ^ e1 < to_Q c ->
  inject_Z (m1 + 1) * 2 ^ e1 <= to_Q c.
Proof.
  intros Hm He Hn Hc Hlt. pose proof (pow2_pos e1) as Hp.
  destruct c as [sc|sc| |sc mc ec]; try discriminate.
  - simpl in Hlt. exfalso.
    assert (0 <= inject_Z m1) by (rewrite <- (Zle_Qle 0); lia). nra.
  - apply andb_true_iff in Hc as [_ Hc].
    destruct (binary64_finite_facts _ _ _ Hc) as (Hmc & Hec & Hnc).
    rewrite value_finite in *.
    destruct sc; cbn [cond_Zopp] in *.
    { exfalso. pose proof (pow2_pos ec).
      assert (0 <= inject_Z m1) by (rewrite <- (Zle_Qle 0); lia).
      assert (inject_Z (- Zpos mc) < 0) by (rewrite <- (Zlt_Qlt _ 0); lia). nra. }
    destruct (Z_le_gt_dec e1 ec) as [Hle|Hgt].
    + rewrite (dy_shift (Zpos mc) ec e1 Hle) in *.
      apply dy_lt in Hlt. apply dy_le. lia.
    + exfalso. rewrite (dy_shift m1 e1 ec) in Hlt by lia.
      apply dy_lt in Hlt.
      assert (2 ^ 1 <= 2 ^ (e1 - ec))%Z by (apply Z.pow_le_mono_r; lia).
      assert (2 ^ 52 <= m1)%Z by (apply Hn; lia). nia.
Qed.

End Gaps.

Section Magnitudes.
Local Open Scope Q_scope.

Lemma finite64_non_negative_value c :
  finite64 c = true -> non_negative c = true -> 0 <= to_Q c.
Proof.
  intros Hf Hn. destruct c as [[]|[]| |[] mc ec]; try discriminate Hf;
    try discriminate Hn; [apply Qle_refl|].
  rewrite value_finite. cbn [cond_Zopp]. pose proof (pow2_pos ec).
  assert (0 < inject_Z (Zpos mc)) by (rewrite <- (Zlt_Qlt 0); lia). nra.
Qed.

(** Rounding a magnitude that lies between two binary64 values gives a
    binary64 value between them. *)
Lemma round_mag sx mx ex lo hi :
  (0 < mx)%Z -> (ex <= fexp prec emax (Zdigits2 mx + ex))%Z ->
  finite64 lo = true -> non_negative lo = true ->
  finite64 hi = true -> non_negative hi = true ->
  to_Q lo <= inject_Z mx * 2 ^ ex <= to_Q hi ->
  exists M E, (0 <= M)%Z /\
    finite64 (binary_round_aux prec emax sx mx ex loc_Exact) = true /\
    to_Q (binary_round_aux prec emax sx mx ex loc_Exact)
      == inject_Z (cond_Zopp sx M) * 2 ^ E /\
    to_Q lo <= inject_Z M * 2 ^ E <= to_Q hi.
Proof.
  intros Hm Hp Hlo Hlon Hhi Hhin [Hl Hh].
  destruct (round_aux_exact_spec sx mx ex Hm Hp) as (m2 & B & D & F & N & E1 & ->).
  set (e1 := fexp prec emax (Zdigits2 mx + ex)) in *.
  set (k := (e1 - ex)%Z) in *.
  set (m1 := (mx / 2 ^ k)%Z) in *.
  assert (0 <= k)%Z as Hk by (subst k; lia).
  assert (0 < 2 ^ k)%Z as Hpk by (apply Z.pow_pos_nonneg; lia).
  assert (m1 * 2 ^ k <= mx < (m1 + 1) * 2 ^ k)%Z as Hdiv.
  { pose proof (Z.div_mod mx (2 ^ k) ltac:(lia)) as Ed.
    pose proof (Z.mod_pos_bound mx (2 ^ k) Hpk). fold m1 in Ed. lia. }
  assert (0 <= m1)%Z as Hm1 by (subst m1; apply Z.div_pos; lia).
  assert (forall N, inject_Z N * 2 ^ e1 == inject_Z (N * 2 ^ k) * 2 ^ ex) as Sh.
  { intros N0. apply dy_shift. subst k. lia. }
  (* the two bounds on the rounded magnitude *)
  assert (to_Q lo <= inject_Z m1 * 2 ^ e1) as L1.
  { destruct (Qlt_le_dec (inject_Z m1 * 2 ^ e1) (to_Q lo)) as [Hlt|]; [|assumption].
    exfalso. pose proof (grid_next m1 e1 lo ltac:(lia) E1 N Hlo Hlt) as G.
    assert (inject_Z (m1 + 1) * 2 ^ e1 <= inject_Z mx * 2 ^ ex) as G' by lra.
    rewrite Sh in G'. apply dy_le in G'. lia. }
  assert (inject_Z m2 * 2 ^ e1 <= to_Q hi) as U2.
  { destruct (Z.eq_dec m2 m1) as [->|Hne].
    - assert (inject_Z m1 * 2 ^ e1 <= inject_Z mx * 2 ^ ex) as G.
      { rewrite Sh. apply dy_le. lia. }
      lra.
    - assert (m2 = m1 + 1)%Z as -> by lia.
      apply (grid_next m1 e1 hi ltac:(lia) E1 N Hhi).
      assert (inject_Z m1 * 2 ^ e1 < inject_Z mx * 2 ^ ex) as G.
      { rewrite Sh. apply dy_lt.
        destruct (Z.eq_dec (mx mod 2 ^ k)%Z 0%Z) as [Ez|Hnz]; [specialize (D Ez); lia|].
        pose proof (Z.div_mod mx (2 ^ k) ltac:(lia)) as Ed.
        pose proof (Z.mod_pos_bound mx (2 ^ k) Hpk). fold m1 in Ed. lia. }
      lra. }
  assert (to_Q lo <= inject_Z m2 * 2 ^ e1) as L2.
  { assert (inject_Z m1 * 2 ^ e1 <= inject_Z m2 * 2 ^ e1) by (apply dy_le; lia). lra. }
  (* no overflow *)
  assert (forall e2, (e1 <= e2)%Z -> (0 < m2)%Z -> (-1074 < e2 -> 2 ^ 52 * 2 ^ (e2 - e1) <= m2)%Z ->
                     (e2 <= 971)%Z) as NoOv.
  { intros e2 H12 Hpos Hbig.
    destruct (Z_le_gt_dec e2 971) as [|Hgt]; [assumption|exfalso].
    destruct hi as [sh|sh| |sh mh eh]; try discriminate.
    - simpl in U2. pose proof (pow2_pos e1).
      assert (0 < inject_Z m2) by (rewrite <- (Zlt_Qlt 0); lia). nra.
    - apply andb_true_iff in Hhi as [_ Hhi].
      destruct (binary64_finite_facts _ _ _ Hhi) as (Hmh & Heh & _).
      destruct sh; [discriminate|]. rewrite value_finite in U2. cbn [cond_Zopp] in U2.
      destruct (Z_le_gt_dec eh e1) as [Hle|Hgt'].
      + rewrite (dy_shift m2 e1 eh Hle) in U2. apply dy_le in U2.
        assert (1 <= 2 ^ (e1 - eh))%Z by (apply Z.pow_le_mono_r with (b := 0%Z); lia).
        assert (2 ^ 0 <= 2 ^ (e2 - e1))%Z by (apply Z.pow_le_mono_r; lia).
        specialize (Hbig ltac:(lia)).
        destruct (Z.eq_dec e1 eh) as [Ee|Hne].
        * assert (2 ^ 1 <= 2 ^ (e2 - e1))%Z by (apply Z.pow_le_mono_r; lia). nia.
        * assert (2 ^ 1 <= 2 ^ (e1 - eh))%Z by (apply Z.pow_le_mono_r; lia). nia.
      + rewrite (dy_shift (Zpos mh) eh e1) in U2 by lia. apply dy_le in U2.
        specialize (Hbig ltac:(lia)).
        assert (2 ^ (e2 - e1) = 2 ^ (e2 - eh) * 2 ^ (eh - e1))%Z as Ep.
        { rewrite <- Z.pow_add_r by lia. f_equal. lia. }
        assert (2 ^ 1 <= 2 ^ (e2 - eh))%Z by (apply Z.pow_le_mono_r; lia).
        assert (0 < 2 ^ (eh - e1))%Z by (apply Z.pow_pos_nonneg; lia).
        rewrite Ep in Hbig. nia. }
  destruct (Z.eqb_spec m2 0) as [Ez|Hnz].
  - exists 0%Z, e1. split; [lia|]. split; [reflexivity|]. split.
    + destruct sx; cbn [to_Q cond_Zopp Z.opp]; symmetry; apply Qmult_0_l.
    + subst m2. split; assumption.
  - destruct (Z.eqb_spec m2 (2 ^ 53)) as [Et|Hnt].
    + exists m2, e1. split; [lia|].
      assert (e1 + 1 <= 971)%Z as Hfin.
      { apply NoOv; [lia|lia|]. intros _. rewrite Et.
        replace (e1 + 1 - e1)%Z with 1%Z by lia. reflexivity. }
      apply Z.leb_le in Hfin. rewrite Hfin. apply Z.leb_le in Hfin.
      split; [|split; [|split; assumption]].
      * apply andb_true_iff. split; [reflexivity|].
        apply binary64_finite_intro; [reflexivity|lia|reflexivity].
      * rewrite value_finite. rewrite Et.
        rewrite (dy_shift _ (e1 + 1) e1) by lia.
        replace (e1 + 1 - e1)%Z with 1%Z by lia.
        apply dy_eq. destruct sx; reflexivity.
    + exists m2, e1. split; [lia|].
      assert (0 < m2)%Z as Hpos by lia.
      assert (e1 <= 971)%Z as Hfin.
      { apply NoOv; [lia|lia|]. intros Hgt. rewrite Z.sub_diag. specialize (N Hgt).
        change (2 ^ 0)%Z with 1%Z. lia. }
      apply Z.leb_le in Hfin. rewrite Hfin. apply Z.leb_le in Hfin.
      split; [|split; [|split; assumption]].
      * apply andb_true_iff. split; [reflexivity|].
        apply binary64_finite_intro; rewrite ?Z2Pos.id by lia; lia.
      * rewrite value_finite. rewrite Z2Pos.id by lia. reflexivity.
Qed.

End Magnitudes.

Section Signs.
Local Open Scope Q_scope.

Lemma value_opp x : to_Q (SFopp x) == - to_Q x.
Proof.
  destruct x as [s|s| |s m e]; simpl; try reflexivity.
  destruct s; cbn [negb cond_Zopp]; rewrite ?inject_Z_opp; ring.
Qed.

Lemma finite64_opp x : finite64 (SFopp x) = finite64 x.
Proof. destruct x as [s|s| |s m e]; reflexivity. Qed.

Lemma value_sign x :
  finite64 x = true ->
  (non_negative x = true /\ 0 <= to_Q x) \/
  (non_negative (SFopp x) = true /\ to_Q x <= 0).
Proof.
  intros Hx. destruct x as [[]|[]| |[] m e]; try discriminate Hx.
  - right. split; [reflexivity|apply Qle_refl].
  - left. split; [reflexivity|apply Qle_refl].
  - right. split; [reflexivity|]. rewrite <- (Qopp_involutive (to_Q _)).
    rewrite <- value_opp. apply (Qopp_le_compat 0).
    apply finite64_non_negative_value; [exact Hx|reflexivity].
  - left. split; [reflexivity|]. apply finite64_non_negative_value; [exact Hx|reflexivity].
Qed.

Lemma value_positive x :
  finite64 x = true -> 0 < to_Q x -> non_negative x = true.
Proof.
  intros Hx Hp. destruct (value_sign x Hx) as [[H _]|[_ H]]; [exact H|lra].
Qed.

(** A magnitude below every value that is not negative and that [a]
    does not exceed. *)
Lemma lower_grid a :
  finite64 a = true ->
  exists lo, finite64 lo = true /\ non_negative lo = true /\
             to_Q a <= to_Q lo /\ (to_Q lo == 0 \/ lo = a).
Proof.
  intros Ha. destruct (value_sign a Ha) as [[Hn Hv]|[Hn Hv]].
  - exists a. repeat split; auto. apply Qle_refl.
  - exists pos_zero. repeat split; auto. left. reflexivity.
Qed.

(** Rounding an exact value that lies between two binary64 values gives
    a binary64 value between them. *)
Lemma round_signed sx mx ex a b :
  (0 < mx)%Z -> (ex <= fexp prec emax (Zdigits2 mx + ex))%Z ->
  finite64 a = true -> finite64 b = true ->
  to_Q a <= inject_Z (cond_Zopp sx mx) * 2 ^ ex <= to_Q b ->
  finite64 (binary_round_aux prec emax sx mx ex loc_Exact) = true /\
  to_Q a <= to_Q (binary_round_aux prec emax sx mx ex loc_Exact) <= to_Q b.
Proof.
  intros Hm Hp Ha Hb [Hl Hh]. pose proof (pow2_pos ex) as Hpe.
  assert (0 < inject_Z mx * 2 ^ ex) as Hv.
  { assert (0 < inject_Z mx) by (rewrite <- (Zlt_Qlt 0); lia). nra. }
  destruct sx; cbn [cond_Zopp] in Hl, Hh.
  - rewrite inject_Z_opp in Hl, Hh.
    assert (finite64 (SFopp a) = true) as Ha' by (rewrite finite64_opp; exact Ha).
    assert (finite64 (SFopp b) = true) as Hb' by (rewrite finite64_opp; exact Hb).
    pose proof (value_opp a) as Ea. pose proof (value_opp b) as Eb.
    destruct (lower_grid (SFopp b) Hb') as (lo & Hlo & Hlon & Hlb & Hlv).
    assert (non_negative (SFopp a) = true) as Han by (apply value_positive; [exact Ha'|lra]).
    assert (to_Q lo <= inject_Z mx * 2 ^ ex) as Hlo'.
    { destruct Hlv as [Hz| ->]; lra. }
    destruct (round_mag true mx ex lo (SFopp a) Hm Hp Hlo Hlon Ha' Han)
      as (M & E & HM & Hf & Ev & B1 & B2); [split; lra|].
    split; [exact Hf|]. rewrite Ev. cbn [cond_Zopp]. rewrite inject_Z_opp. split; lra.
  - destruct (lower_grid a Ha) as (lo & Hlo & Hlon & Hla & Hlv).
    assert (non_negative b = true) as Hbn by (apply value_positive; [exact Hb|lra]).
    assert (to_Q lo <= inject_Z mx * 2 ^ ex) as Hlo'.
    { destruct Hlv as [Hz| ->]; lra. }
    destruct (round_mag false mx ex lo b Hm Hp Hlo Hlon Hb Hbn)
      as (M & E & HM & Hf & Ev & B1 & B2); [split; lra|].
    split; [exact Hf|]. rewrite Ev. cbn [cond_Zopp]. split; lra.
Qed.

End Signs.

Section Sums.
Local Open Scope Q_scope.

Lemma iter_xO m d : Zpos (Pos.iter xO m d) = (Zpos m * 2 ^ Zpos d)%Z.
Proof.
  change (Pos.iter xO m d) with (shift_pos d m).
  rewrite shift_pos_correct. change (Z.pow_pos 2 d) with (2 ^ Zpos d)%Z. lia.
Qed.

Lemma shl_align_spec mx ex ex' :
  snd (shl_align mx ex ex') = Z.min ex ex' /\
  Zpos (fst (shl_align mx ex ex')) = (Zpos mx * 2 ^ (ex - Z.min ex ex'))%Z.
Proof.
  unfold shl_align. destruct (ex' - ex)%Z as [|d|d] eqn:E; cbn [fst snd].
  - rewrite Z.min_l by lia. rewrite Z.sub_diag. split; lia.
  - rewrite Z.min_l by lia. rewrite Z.sub_diag. split; lia.
  - rewrite Z.min_r by lia. split; [reflexivity|]. rewrite iter_xO.
    f_equal. f_equal. lia.
Qed.

Lemma Zdigits2_shift m d :
  (0 < m)%Z -> (0 <= d)%Z -> Zdigits2 (m * 2 ^ d) = (Zdigits2 m + d)%Z.
Proof.
  intros Hm Hd. pose proof (Zdigits2_gt m ltac:(lia)) as Hgt.
  pose proof (Zdigits2_ge m Hm) as Hge. pose proof (Zdigits2_pos m Hm).
  assert (0 < 2 ^ d)%Z by (apply Z.pow_pos_nonneg; lia).
  apply Zdigits2_eq; [lia|].
  replace (Zdigits2 m + d - 1)%Z with ((Zdigits2 m - 1) + d)%Z by lia.
  rewrite !Z.pow_add_r by lia. nia.
Qed.

(** [binary_round] of an exact value between two binary64 values. *)
Lemma binary_round_between sx mx ex a b :
  finite64 a = true -> finite64 b = true ->
  to_Q a <= inject_Z (cond_Zopp sx (Zpos mx)) * 2 ^ ex <= to_Q b ->
  finite64 (binary_round prec emax sx mx ex) = true /\
  to_Q a <= to_Q (binary_round prec emax sx mx ex) <= to_Q b.
Proof.
  intros Ha Hb Hv. unfold binary_round.
  destruct (shl_align_spec mx ex (fexp prec emax (Zpos (digits2_pos mx) + ex)))
    as [Es Em].
  destruct (shl_align mx ex _) as [mz ez]. cbn [fst snd] in Es, Em.
  change (Zpos (digits2_pos mx)) with (Zdigits2 (Zpos mx)) in Es, Em.
  set (f := fexp prec emax (Zdigits2 (Zpos mx) + ex)) in *.
  assert (Zdigits2 (Zpos mz) + ez = Zdigits2 (Zpos mx) + ex)%Z as Ed.
  { rewrite Em, Zdigits2_shift by lia. lia. }
  apply round_signed; auto; [lia| |].
  - rewrite Ed. fold f. lia.
  - assert (inject_Z (cond_Zopp sx (Zpos mz)) * 2 ^ ez ==
            inject_Z (cond_Zopp sx (Zpos mx)) * 2 ^ ex) as ->; [|exact Hv].
    rewrite (dy_shift _ ex ez) by lia. apply dy_eq.
    rewrite Em. rewrite Es. destruct sx; cbn [cond_Zopp]; lia.
Qed.

(** [binary_normalize] of an exact value between two binary64 values. *)
Lemma binary_normalize_between z e a b :
  finite64 a = true -> finite64 b = true ->
  to_Q a <= inject_Z z * 2 ^ e <= to_Q b ->
  finite64 (binary_normalize prec emax z e false) = true /\
  to_Q a <= to_Q (binary_normalize prec emax z e false) <= to_Q b.
Proof.
  intros Ha Hb Hv. destruct z as [|p|p]; cbn [binary_normalize].
  - split; [reflexivity|]. simpl to_Q. rewrite Qmult_0_l in Hv. exact Hv.
  - apply (binary_round_between false); auto.
  - apply (binary_round_between true); auto.
Qed.

Lemma of_Z_between z a b :
  finite64 a = true -> finite64 b = true ->
  to_Q a <= inject_Z z <= to_Q b ->
  finite64 (of_Z z) = true /\ to_Q a <= to_Q (of_Z z) <= to_Q b.
Proof.
  intros Ha Hb Hv. apply binary_normalize_between; auto.
  change (2 ^ 0) with 1. rewrite Qmult_1_r. exact Hv.
Qed.

(** The aligned mantissas of an addition. *)
Lemma aligned_value s m e ez :
  (ez <= e)%Z ->
  inject_Z (cond_Zopp s (Zpos (fst (shl_align m e ez)))) * 2 ^ ez
  == to_Q (S754_finite s m e).
Proof.
  intros H. destruct (shl_align_spec m e ez) as [_ Em]. rewrite Em.
  rewrite Z.min_r by lia. rewrite value_finite. rewrite (dy_shift _ e ez H).
  apply dy_eq. destruct s; cbn [cond_Zopp]; lia.
Qed.

Lemma add_between a b x y :
  finite64 a = true -> finite64 b = true ->
  finite64 x = true -> finite64 y = true ->
  to_Q a <= to_Q x + to_Q y <= to_Q b ->
  finite64 (add x y) = true /\ to_Q a <= to_Q (add x y) <= to_Q b.
Proof.
  intros Ha Hb Hx Hy Hv.
  destruct x as [sx|sx| |sx mx ex]; try discriminate Hx;
    destruct y as [sy|sy| |sy my ey]; try discriminate Hy.
  - assert (finite64 (add (S754_zero sx) (S754_zero sy)) = true /\
            to_Q (add (S754_zero sx) (S754_zero sy)) == 0) as [Hf Hz]
      by (destruct sx, sy; split; reflexivity).
    split; [exact Hf|]. rewrite Hz. cbn [to_Q] in Hv. lra.
  - change (add (S754_zero sx) (S754_finite sy my ey)) with (S754_finite sy my ey).
    split; [exact Hy|]. cbn [to_Q] in *. lra.
  - change (add (S754_finite sx mx ex) (S754_zero sy)) with (S754_finite sx mx ex).
    split; [exact Hx|]. cbn [to_Q] in *. lra.
  - unfold add, SFadd. apply binary_normalize_between; auto.
    rewrite inject_Z_plus, Qmult_plus_distr_l.
    rewrite !aligned_value by lia. exact Hv.
Qed.

Lemma sub_between a b x y :
  finite64 a = true -> finite64 b = true ->
  finite64 x = true -> finite64 y = true ->
  to_Q a <= to_Q x - to_Q y <= to_Q b ->
  finite64 (sub x y) = true /\ to_Q a <= to_Q (sub x y) <= to_Q b.
Proof.
  intros Ha Hb Hx Hy Hv.
  destruct x as [sx|sx| |sx mx ex]; try discriminate Hx;
    destruct y as [sy|sy| |sy my ey]; try discriminate Hy.
  - assert (finite64 (sub (S754_zero sx) (S754_zero sy)) = true /\
            to_Q (sub (S754_zero sx) (S754_zero sy)) == 0) as [Hf Hz]
      by (destruct sx, sy; split; reflexivity).
    split; [exact Hf|]. rewrite Hz. cbn [to_Q] in Hv. lra.
  - change (sub (S754_zero sx) (S754_finite sy my ey))
      with (SFopp (S754_finite sy my ey)).
    split; [rewrite finite64_opp; exact Hy|]. rewrite value_opp.
    cbn [to_Q] in *. lra.
  - change (sub (S754_finite sx mx ex) (S754_zero sy)) with (S754_finite sx mx ex).
    split; [exact Hx|]. cbn [to_Q] in *. lra.
  - unfold sub, SFsub. apply binary_normalize_between; auto.
    unfold Z.sub. rewrite inject_Z_plus, inject_Z_opp, Qmult_plus_distr_l.
    assert (forall q r, - q * r == - (q * r)) as En by (intros; ring).
    rewrite En. rewrite !aligned_value by lia. exact Hv.
Qed.

End Sums.

Section Aligned.
Local Open Scope Z_scope.

Lemma Zdigits2_lower m n : (0 <= n)%Z -> (2 ^ n <= m)%Z -> (n + 1 <= Zdigits2 m)%Z.
Proof.
  intros Hn Hm. assert (0 < 2 ^ n)%Z by (apply Z.pow_pos_nonneg; lia).
  pose proof (Zdigits2_gt m ltac:(lia)) as Hgt.
  pose proof (Zdigits2_pos m ltac:(lia)).
  destruct (Z_lt_le_dec n (Zdigits2 m)) as [|Hle]; [lia|exfalso].
  assert (2 ^ Zdigits2 m <= 2 ^ n)%Z by (apply Z.pow_le_mono_r; lia). lia.
Qed.

(** The product of two binary64 mantissas needs no shift to the left. *)
Lemma mul_aligned sx mx ex sy my ey :
  binary64 (S754_finite sx mx ex) = true ->
  binary64 (S754_finite sy my ey) = true ->
  (ex + ey <= fexp prec emax (Zdigits2 (Zpos (mx * my)) + (ex + ey)))%Z.
Proof.
  intros Hx Hy.
  destruct (binary64_finite_facts _ _ _ Hx) as (Hmx & Hex & Hnx).
  destruct (binary64_finite_facts _ _ _ Hy) as (Hmy & Hey & Hny).
  rewrite fexp_eq. rewrite Pos2Z.inj_mul.
  destruct (Z.eq_dec ex (-1074)) as [Ex|Nx]; destruct (Z.eq_dec ey (-1074)) as [Ey|Ny];
    try lia.
  - destruct (Z_le_gt_dec ey 0) as [|Hpos]; [lia|].
    specialize (Hny ltac:(lia)).
    pose proof (Zdigits2_lower (Zpos mx * Zpos my) 52 ltac:(lia) ltac:(nia)). lia.
  - destruct (Z_le_gt_dec ex 0) as [|Hpos]; [lia|].
    specialize (Hnx ltac:(lia)).
    pose proof (Zdigits2_lower (Zpos mx * Zpos my) 52 ltac:(lia) ltac:(nia)). lia.
  - specialize (Hnx ltac:(lia)). specialize (Hny ltac:(lia)).
    pose proof (Zdigits2_lower (Zpos mx * Zpos my) 104 ltac:(lia)) as Hd.
    change (2 ^ 104)%Z with (2 ^ 52 * 2 ^ 52)%Z in Hd. specialize (Hd ltac:(nia)). lia.
Qed.

End Aligned.

Section Products.
Local Open Scope Q_scope.

Lemma mul_between a b x y :
  finite64 a = true -> finite64 b = true ->
  finite64 x = true -> finite64 y = true ->
  to_Q a <= to_Q x * to_Q y <= to_Q b ->
  finite64 (mul x y) = true /\ to_Q a <= to_Q (mul x y) <= to_Q b.
Proof.
  intros Ha Hb Hx Hy Hv.
  destruct x as [sx|sx| |sx mx ex]; try discriminate Hx;
    destruct y as [sy|sy| |sy my ey]; try discriminate Hy;
    try (split; [reflexivity|]; cbn [mul SFmul to_Q] in *; lra).
  unfold mul, SFmul.
  apply andb_true_iff in Hx as [_ Hx]. apply andb_true_iff in Hy as [_ Hy].
  apply round_signed; auto; [lia|apply (mul_aligned sx mx ex sy my ey); assumption|].
  assert (inject_Z (cond_Zopp (xorb sx sy) (Zpos (mx * my))) * 2 ^ (ex + ey)
          == to_Q (S754_finite sx mx ex) * to_Q (S754_finite sy my ey)) as ->;
    [|exact Hv].
  rewrite !value_finite, pow2_add.
  assert (inject_Z (cond_Zopp (xorb sx sy) (Zpos (mx * my)))
          == inject_Z (cond_Zopp sx (Zpos mx)) * inject_Z (cond_Zopp sy (Zpos my))) as ->.
  { rewrite <- inject_Z_mult. destruct sx, sy; cbn [xorb cond_Zopp]; apply inject_Z_injective; lia. }
  ring.
Qed.

(** *** Comparison *)

Lemma positive_order m1 e1 m2 e2 :
  binary64 (S754_finite false m1 e1) = true ->
  binary64 (S754_finite false m2 e2) = true ->
  (inject_Z (Zpos m1) * 2 ^ e1 ?= inject_Z (Zpos m2) * 2 ^ e2) =
  match Z.compare e1 e2 with
  | Lt => Lt
  | Gt => Gt
  | Eq => Pos.compare m1 m2
  end.
Proof.
  intros H1 H2.
  destruct (binary64_finite_facts _ _ _ H1) as (Hm1 & He1 & Hn1).
  destruct (binary64_finite_facts _ _ _ H2) as (Hm2 & He2 & Hn2).
  destruct (Z.compare_spec e1 e2) as [->|Hlt|Hgt].
  - destruct (Pos.compare_spec m1 m2) as [->|Hlt|Hgt].
    + apply (proj1 (Qeq_alt _ _)). reflexivity.
    + apply (proj1 (Qlt_alt _ _)). apply dy_lt. lia.
    + apply (proj1 (Qgt_alt _ _)). apply dy_lt. lia.
  - apply (proj1 (Qlt_alt _ _)). rewrite (dy_shift _ e2 e1) by lia. apply dy_lt.
    assert (2 ^ 1 <= 2 ^ (e2 - e1))%Z by (apply Z.pow_le_mono_r; lia).
    specialize (Hn2 ltac:(lia)). nia.
  - apply (proj1 (Qgt_alt _ _)). rewrite (dy_shift _ e1 e2) by lia. apply dy_lt.
    assert (2 ^ 1 <= 2 ^ (e1 - e2))%Z by (apply Z.pow_le_mono_r; lia).
    specialize (Hn1 ltac:(lia)). nia.
Qed.

Lemma Qcompare_opp p q : (- p ?= - q) = CompOpp (p ?= q).
Proof.
  destruct (Qcompare_spec p q) as [E|L|G]; cbn [CompOpp].
  - apply (proj1 (Qeq_alt _ _)). rewrite E. reflexivity.
  - apply (proj1 (Qgt_alt _ _)). lra.
  - apply (proj1 (Qlt_alt _ _)). lra.
Qed.

(** On binary64 values the comparison of the floats is the comparison
    of their values. *)
Lemma compare_value x y :
  finite64 x = true -> finite64 y = true ->
  SFcompare x y = Some (to_Q x ?= to_Q y).
Proof.
  intros Hx Hy.
  destruct x as [sx|sx| |sx mx ex]; try discriminate Hx;
    destruct y as [sy|sy| |sy my ey]; try discriminate Hy.
  - reflexivity.
  - cbn [SFcompare]. f_equal. symmetry.
    destruct (value_sign _ Hy) as [[Hn Hv]|[Hn Hv]]; destruct sy; try discriminate Hn.
    + apply (proj1 (Qlt_alt _ _)). apply andb_true_iff in Hy as [_ Hy].
      cbn [to_Q cond_Zopp]. pose proof (pow2_pos ey).
      assert (0 < inject_Z (Zpos my)) by (rewrite <- (Zlt_Qlt 0); lia). nra.
    + apply (proj1 (Qgt_alt _ _)). cbn [to_Q cond_Zopp]. pose proof (pow2_pos ey).
      assert (inject_Z (Zneg my) < 0) by (rewrite <- (Zlt_Qlt _ 0); lia).
      change (- Zpos my)%Z with (Zneg my). nra.
  - cbn [SFcompare]. f_equal. symmetry.
    destruct (value_sign _ Hx) as [[Hn Hv]|[Hn Hv]]; destruct sx; try discriminate Hn.
    + apply (proj1 (Qgt_alt _ _)). cbn [to_Q cond_Zopp]. pose proof (pow2_pos ex).
      assert (0 < inject_Z (Zpos mx)) by (rewrite <- (Zlt_Qlt 0); lia). nra.
    + apply (proj1 (Qlt_alt _ _)). cbn [to_Q cond_Zopp]. pose proof (pow2_pos ex).
      assert (inject_Z (Zneg mx) < 0) by (rewrite <- (Zlt_Qlt _ 0); lia).
      change (- Zpos mx)%Z with (Zneg mx). nra.
  - apply andb_true_iff in Hx as [_ Hx]. apply andb_true_iff in Hy as [_ Hy].
    pose proof (pow2_pos ex). pose proof (pow2_pos ey).
    assert (0 < inject_Z (Zpos mx)) by (rewrite <- (Zlt_Qlt 0); lia).
    assert (0 < inject_Z (Zpos my)) by (rewrite <- (Zlt_Qlt 0); lia).
    cbn [SFcompare]. f_equal. symmetry. rewrite !value_finite.
    destruct sx, sy; cbn [cond_Zopp]; rewrite ?inject_Z_opp.
    + assert (forall q r, - q * r == - (q * r)) as En by (intros; ring).
      rewrite !En, Qcompare_opp. rewrite (positive_order mx ex my ey Hx Hy).
      destruct (Z.compare ex ey); reflexivity.
    + apply (proj1 (Qlt_alt _ _)). nra.
    + apply (proj1 (Qgt_alt _ _)). nra.
    + apply (positive_order mx ex my ey Hx Hy).
Qed.

Lemma lt_value x y :
  finite64 x = true -> finite64 y = true ->
  (lt x y = true <-> to_Q x < to_Q y).
Proof.
  intros Hx Hy. unfold lt, SFltb. rewrite (compare_value x y Hx Hy).
  rewrite Qlt_alt. destruct (to_Q x ?= to_Q y); split; congruence.
Qed.

Lemma le_value x y :
  finite64 x = true -> finite64 y = true ->
  (le x y = true <-> to_Q x <= to_Q y).
Proof.
  intros Hx Hy. unfold le, SFleb. rewrite (compare_value x y Hx Hy).
  rewrite Qle_alt. destruct (to_Q x ?= to_Q y); split; congruence.
Qed.

Lemma lt_false_value x y :
  finite64 x = true -> finite64 y = true ->
  (lt x y = false <-> to_Q y <= to_Q x).
Proof.
  intros Hx Hy. pose proof (lt_value x y Hx Hy) as L.
  destruct (lt x y); split; intros; try congruence.
  - assert (to_Q x < to_Q y) by (apply L; reflexivity). lra.
  - destruct (Qlt_le_dec (to_Q x) (to_Q y)) as [Hl|Hl]; [|assumption].
    apply L in Hl. discriminate.
Qed.

(** Two binary64 values with the same value are the same float, the two
    zeros apart. *)
Lemma value_inj x y :
  finite64 x = true -> finite64 y = true -> to_Q x == to_Q y ->
  x = y \/ (exists sx sy, x = S754_zero sx /\ y = S754_zero sy).
Proof.
  intros Hx Hy E. pose proof (compare_value x y Hx Hy) as C.
  apply (proj1 (Qeq_alt _ _)) in E. rewrite E in C.
  destruct x as [sx|sx| |sx mx ex]; try discriminate Hx;
    destruct y as [sy|sy| |sy my ey]; try discriminate Hy.
  - right. eauto.
  - cbn [SFcompare] in C. destruct sy; discriminate.
  - cbn [SFcompare] in C. destruct sx; discriminate.
  - left. cbn [SFcompare] in C.
    destruct sx, sy; try discriminate;
      destruct (Z.compare_spec ex ey) as [->| |]; try discriminate;
      change (Pos.compare_cont Eq mx my) with (Pos.compare mx my) in C;
      destruct (Pos.compare_spec mx my) as [->| |]; try discriminate; reflexivity.
Qed.

End Products.

Section Valid.
Local Open Scope Z_scope.

Lemma round_aux_binary64 sx mx ex :
  0 < mx -> ex <= fexp prec emax (Zdigits2 mx + ex) ->
  binary64 (binary_round_aux prec emax sx mx ex loc_Exact) = true.
Proof.
  intros Hm Hp.
  destruct (round_aux_exact_spec sx mx ex Hm Hp) as (m2 & B & D & F & N & E1 & ->).
  set (e1 := fexp prec emax (Zdigits2 mx + ex)) in *.
  set (m1 := mx / 2 ^ (e1 - ex)) in *.
  assert (0 <= m1) by (subst m1; apply Z.div_pos; [lia|apply Z.pow_pos_nonneg; lia]).
  destruct (Z.eqb_spec m2 0); [reflexivity|].
  destruct (Z.eqb_spec m2 (2 ^ 53)).
  - destruct (Z.leb_spec (e1 + 1) 971); [|reflexivity].
    apply binary64_finite_intro; [reflexivity|lia|reflexivity].
  - destruct (Z.leb_spec e1 971); [|reflexivity].
    apply binary64_finite_intro; rewrite ?Z2Pos.id by lia; lia.
Qed.

Lemma binary_round_binary64 sx mx ex :
  binary64 (binary_round prec emax sx mx ex) = true.
Proof.
  unfold binary_round.
  destruct (shl_align_spec mx ex (fexp prec emax (Zpos (digits2_pos mx) + ex)))
    as [Es Em].
  destruct (shl_align mx ex _) as [mz ez]. cbn [fst snd] in Es, Em.
  change (Zpos (digits2_pos mx)) with (Zdigits2 (Zpos mx)) in Es, Em.
  apply round_aux_binary64; [lia|].
  rewrite Em, Zdigits2_shift by lia.
  replace (Zdigits2 (Zpos mx) + (ex - Z.min ex (fexp prec emax (Zdigits2 (Zpos mx) + ex))) + ez)
    with (Zdigits2 (Zpos mx) + ex) by lia.
  lia.
Qed.

Lemma binary_normalize_binary64 z e :
  binary64 (binary_normalize prec emax z e false) = true.
Proof. destruct z; [reflexivity| |]; apply binary_round_binary64. Qed.

Lemma add_binary64 x y :
  binary64 x = true -> binary64 y = true -> binary64 (add x y) = true.
Proof.
  intros Hx Hy.
  destruct x as [sx|sx| |sx mx ex], y as [sy|sy| |sy my ey];
    try apply binary_normalize_binary64;
    try destruct sx; try destruct sy; try reflexivity; assumption.
Qed.

Lemma sub_binary64 x y :
  binary64 x = true -> binary64 y = true -> binary64 (sub x y) = true.
Proof.
  intros Hx Hy.
  destruct x as [sx|sx| |sx mx ex], y as [sy|sy| |sy my ey];
    try apply binary_normalize_binary64;
    try destruct sx; try destruct sy; try reflexivity; assumption.
Qed.

Lemma mul_binary64 x y :
  binary64 x = true -> binary64 y = true -> binary64 (mul x y) = true.
Proof.
  intros Hx Hy.
  destruct x as [sx|sx| |sx mx ex], y as [sy|sy| |sy my ey]; try reflexivity.
  apply round_aux_binary64; [lia|]. apply (mul_aligned sx mx ex sy my ey); assumption.
Qed.

Lemma of_Z_binary64 z : binary64 (of_Z z) = true.
Proof. apply binary_normalize_binary64. Qed.

(** A binary64 value fits. *)
Lemma binary64_fits x : binary64 x = true -> fits x = true.
Proof.
  destruct x as [s|s| |s m e]; try reflexivity. intros H.
  destruct (binary64_finite_facts _ _ _ H) as (Hm & _). apply Z.ltb_lt, Hm.
Qed.

End Valid.

Section Integers.
Local Open Scope Q_scope.

(** The float that holds a small integer. *)
Lemma integer_representable z :
  (Z.abs z < 2 ^ 53)%Z ->
  exists c, finite64 c = true /\ to_Q c == inject_Z z.
Proof.
  intros Hz. destruct (Z.eq_dec z 0%Z) as [->|Hnz].
  - exists pos_zero. split; reflexivity.
  - set (d := Zdigits2 (Z.abs z)).
    pose proof (Zdigits2_gt (Z.abs z) ltac:(lia)) as Hgt.
    pose proof (Zdigits2_ge (Z.abs z) ltac:(lia)) as Hge.
    pose proof (Zdigits2_pos (Z.abs z) ltac:(lia)) as Hd.
    pose proof (Zdigits2_le (Z.abs z) 53%Z ltac:(lia) ltac:(lia) Hz) as Hle.
    fold d in Hgt, Hge, Hd, Hle.
    assert (0 < 2 ^ (53 - d))%Z as Hp by (apply Z.pow_pos_nonneg; lia).
    assert (2 ^ 52 <= Z.abs z * 2 ^ (53 - d) < 2 ^ 53)%Z as Hb.
    { assert (2 ^ 52 = 2 ^ (d - 1) * 2 ^ (53 - d))%Z as E52
        by (rewrite <- Z.pow_add_r by lia; f_equal; lia).
      assert (2 ^ 53 = 2 ^ d * 2 ^ (53 - d))%Z as E53
        by (rewrite <- Z.pow_add_r by lia; f_equal; lia).
      rewrite E52, E53. nia. }
    exists (S754_finite (z <? 0)%Z (Z.to_pos (Z.abs z * 2 ^ (53 - d))) (d - 53)). split.
    + apply andb_true_iff. split; [reflexivity|].
      apply binary64_finite_intro; rewrite ?Z2Pos.id by lia; lia.
    + rewrite value_finite. rewrite Z2Pos.id by lia.
      assert (inject_Z z == inject_Z z * 2 ^ 0) as -> by (change (2 ^ 0) with 1; ring).
      rewrite (dy_shift z 0%Z (d - 53)%Z) by lia. apply dy_eq.
      replace (0 - (d - 53))%Z with (53 - d)%Z by lia.
      destruct (Z.ltb_spec z 0%Z); cbn [cond_Zopp]; lia.
Qed.

Lemma of_Z_exact z :
  (Z.abs z < 2 ^ 53)%Z ->
  finite64 (of_Z z) = true /\ to_Q (of_Z z) == inject_Z z.
Proof.
  intros Hz. destruct (integer_representable z Hz) as (c & Hc & Ec).
  destruct (of_Z_between z c c Hc Hc) as (Hf & Hl & Hh); [rewrite Ec; split; apply Qle_refl|].
  split; [exact Hf|]. rewrite Ec in Hl, Hh. apply Qle_antisym; assumption.
Qed.

End Integers.

Section Values.
Local Open Scope Q_scope.

Lemma value_of_Z z : (Z.abs z < 2 ^ 53)%Z -> to_Q (of_Z z) == inject_Z z.
Proof. intros Hz. apply of_Z_exact, Hz. Qed.

Lemma finite64_of_Z z : (Z.abs z < 2 ^ 53)%Z -> finite64 (of_Z z) = true.
Proof. intros Hz. apply of_Z_exact, Hz. Qed.

(** Counting in floats is exact below [2^53]. *)
Lemma add_of_Z a b :
  (0 <= a)%Z -> (0 < b)%Z -> (a + b < 2 ^ 53)%Z ->
  add (of_Z a) (of_Z b) = of_Z (a + b).
Proof.
  intros Ha Hb Hs.
  destruct (of_Z_exact a ltac:(lia)) as [Fa Va].
  destruct (of_Z_exact b ltac:(lia)) as [Fb Vb].
  destruct (of_Z_exact (a + b) ltac:(lia)) as [Fs Vs].
  destruct (add_between (of_Z (a + b)) (of_Z (a + b)) (of_Z a) (of_Z b)) as (Fr & L & U);
    auto.
  { rewrite Va, Vb, Vs, inject_Z_plus. split; apply Qle_refl. }
  destruct (value_inj _ _ Fr Fs) as [E|(s1 & s2 & _ & E)]; [apply Qle_antisym; assumption|exact E|].
  exfalso. rewrite E in Vs. cbn [to_Q] in Vs.
  assert (0 < inject_Z (a + b)) by (rewrite <- (Zlt_Qlt 0); lia). lra.
Qed.

(** [Math.floor] of a binary64 value that is not negative and below
    [2^52]: the float of its integer part. *)
Lemma Math_floor_value x :
  finite64 x = true -> non_negative x = true -> to_Q x < inject_Z (2 ^ 52) ->
  exists z, (0 <= z)%Z /\ Math_floor x = of_Z z /\
            inject_Z z <= to_Q x < inject_Z z + 1.
Proof.
  intros Hx Hn Hlt. destruct x as [[]|[]| |[] m e]; try discriminate Hx; try discriminate Hn.
  - exists 0%Z. split; [lia|]. split; [reflexivity|]. cbn [to_Q]. split; [apply Qle_refl|reflexivity].
  - apply andb_true_iff in Hx as [_ Hx].
    destruct (binary64_finite_facts _ _ _ Hx) as (Hm & He & Hnorm).
    rewrite value_finite in *. cbn [cond_Zopp] in *.
    assert (e < 0)%Z as Hneg.
    { destruct (Z_lt_le_dec e 0) as [|Hge]; [assumption|exfalso].
      assert (inject_Z (2 ^ 52) == inject_Z (2 ^ 52) * 2 ^ 0) as E0
        by (change (2 ^ 0) with 1; ring).
      rewrite E0 in Hlt. rewrite (dy_shift (Zpos m) e 0%Z) in Hlt by lia.
      apply dy_lt in Hlt. specialize (Hnorm ltac:(lia)).
      assert (1 <= 2 ^ (e - 0))%Z by (apply Z.pow_le_mono_r with (b := 0%Z); lia). nia. }
    exists (Zpos m / 2 ^ (- e))%Z.
    assert (0 < 2 ^ (- e))%Z as Hp by (apply Z.pow_pos_nonneg; lia).
    pose proof (Z.div_mod (Zpos m) (2 ^ (- e)) ltac:(lia)) as Ed.
    pose proof (Z.mod_pos_bound (Zpos m) (2 ^ (- e)) Hp) as Hb.
    split; [apply Z.div_pos; lia|]. split.
    + unfold Math_floor. destruct (Z.leb_spec 0 e) as [|_]; [lia|].
      cbn [cond_Zopp]. rewrite Z.shiftr_div_pow2 by lia. reflexivity.
    + set (z := (Zpos m / 2 ^ (- e))%Z) in *.
      assert (forall N, inject_Z N == inject_Z (N * 2 ^ (- e)) * 2 ^ e) as Sh.
      { intros N. assert (inject_Z N == inject_Z N * 2 ^ 0) as E0
          by (change (2 ^ 0) with 1; ring).
        rewrite E0 at 1. rewrite (dy_shift N 0%Z e) by lia.
        replace (0 - e)%Z with (- e)%Z by lia. reflexivity. }
      split.
      * rewrite (Sh z). apply dy_le. lia.
      * assert (inject_Z z + 1 == inject_Z (z + 1)) as ->
          by (rewrite inject_Z_plus; reflexivity).
        rewrite (Sh (z + 1)%Z). apply dy_lt. lia.
Qed.

(** *** [Math.min] and [Math.max] of two values *)

Lemma Math_min_pair c x :
  positive_finite c = true -> isNaN x = false ->
  Math_min [c; x] = if lt x c then x else c.
Proof.
  intros Hc Hx. destruct c as [[]|[]| |[] mc ec]; try discriminate Hc.
  unfold Math_min. cbn [fold_left]. unfold min_step at 2. cbn.
  unfold min_step. rewrite Hx. cbn [isNaN is_pos_zero]. rewrite andb_false_r.
  reflexivity.
Qed.

Lemma Math_max_pair c x :
  positive_finite c = true \/ c = pos_zero -> isNaN x = false ->
  Math_max [c; x] = if lt c x then x else c.
Proof.
  intros Hc Hx.
  assert (max_step neg_infinity c = c /\ isNaN c = false /\ is_neg_zero c = false)
    as (E1 & E2 & E3).
  { destruct Hc as [Hc| ->]; [|repeat split].
    destruct c as [[]|[]| |[] mc ec]; try discriminate Hc. repeat split. }
  unfold Math_max. cbn [fold_left]. rewrite E1. unfold max_step.
  rewrite E2, Hx, E3, andb_false_r. reflexivity.
Qed.

Lemma finite64_not_nan x : finite64 x = true -> isNaN x = false.
Proof. destruct x; try reflexivity. discriminate. Qed.

(** [Math.min(c, x)] on binary64 values. *)
Lemma Math_min_value c x :
  positive_finite c = true -> finite64 c = true -> finite64 x = true ->
  finite64 (Math_min [c; x]) = true /\
  to_Q (Math_min [c; x]) <= to_Q c /\ to_Q (Math_min [c; x]) <= to_Q x /\
  (Math_min [c; x] = x \/ (Math_min [c; x] = c /\ to_Q c <= to_Q x)).
Proof.
  intros Hp Hc Hx. rewrite (Math_min_pair c x Hp (finite64_not_nan x Hx)).
  destruct (lt x c) eqn:E.
  - apply (lt_value x c Hx Hc) in E. repeat split; auto; [lra|apply Qle_refl].
  - apply (lt_false_value x c Hx Hc) in E. repeat split; auto. apply Qle_refl.
Qed.

(** [Math.max(c, x)] on binary64 values. *)
Lemma Math_max_value c x :
  positive_finite c = true \/ c = pos_zero -> finite64 c = true -> finite64 x = true ->
  finite64 (Math_max [c; x]) = true /\
  to_Q c <= to_Q (Math_max [c; x]) /\ to_Q x <= to_Q (Math_max [c; x]) /\
  (Math_max [c; x] = x \/ (Math_max [c; x] = c /\ to_Q x <= to_Q c)).
Proof.
  intros Hp Hc Hx. rewrite (Math_max_pair c x Hp (finite64_not_nan x Hx)).
  destruct (lt c x) eqn:E.
  - apply (lt_value c x Hc Hx) in E. repeat split; auto; [lra|apply Qle_refl].
  - apply (lt_false_value c x Hc Hx) in E. repeat split; auto. apply Qle_refl.
Qed.

(** Membership in [[0, 1]] and [[0, 1)], as values. *)
Lemma value_one : to_Q (of_Z 1) == 1.
Proof. vm_compute. reflexivity. Qed.

Lemma in_unit_value x :
  binary64 x = true -> in_unit x = true ->
  finite64 x = true /\ 0 <= to_Q x <= 1.
Proof.
  intros Hb Hu. unfold in_unit in Hu. apply andb_true_iff in Hu as [H0 H1].
  assert (finite64 x = true) as Hf.
  { destruct x as [s|[]| |s m e]; try discriminate; exact Hb. }
  split; [exact Hf|].
  apply (le_value pos_zero x eq_refl Hf) in H0.
  apply (le_value x (of_Z 1) Hf eq_refl) in H1.
  rewrite value_one in H1. cbn [to_Q] in H0. split; assumption.
Qed.

Lemma in_random_range_value x :
  binary64 x = true -> in_random_range x = true ->
  finite64 x = true /\ 0 <= to_Q x < 1.
Proof.
  intros Hb Hu. unfold in_random_range in Hu. apply andb_true_iff in Hu as [H0 H1].
  assert (finite64 x = true) as Hf.
  { destruct x as [s|[]| |s m e]; try discriminate; exact Hb. }
  split; [exact Hf|].
  apply (le_value pos_zero x eq_refl Hf) in H0.
  apply (lt_value x (of_Z 1) Hf eq_refl) in H1.
  rewrite value_one in H1. cbn [to_Q] in H0. split; assumption.
Qed.

Lemma value_in_unit x :
  finite64 x = true -> 0 <= to_Q x <= 1 -> in_unit x = true.
Proof.
  intros Hf [H0 H1]. unfold in_unit. apply andb_true_iff. split.
  - apply (le_value pos_zero x eq_refl Hf). exact H0.
  - apply (le_value x (of_Z 1) Hf eq_refl). rewrite value_one. exact H1.
Qed.

End Values.

End ValueFacts.

(** ** The producer's numbers *)

Module ClusterFacts.
Import NumberFacts ValueFacts Server ServerFacts ServerData.


Section Scaled.
Local Open Scope Q_scope.

Lemma inject_Z_pred z : inject_Z (z - 1) == inject_Z z - 1.
Proof. unfold Z.sub. rewrite inject_Z_plus, inject_Z_opp. reflexivity. Qed.

Lemma inject_Z_succ z : inject_Z (z + 1) == inject_Z z + 1.
Proof. rewrite inject_Z_plus. reflexivity. Qed.

Lemma value_non_negative x :
  finite64 x = true -> non_negative x = true -> 0 <= to_Q x.
Proof. apply finite64_non_negative_value. Qed.

(** [Math.floor(x * n)] for [x] in [[0, 1]] and an integer [n]: an
    integer of [[0, n]] within one of [n * x]. *)
Lemma floor_scaled x c n :
  finite64 x = true -> non_negative x = true -> to_Q x <= 1 ->
  positive_finite c = true -> finite64 c = true -> to_Q c == inject_Z n ->
  (0 < n < 2 ^ 52)%Z ->
  exists z, (0 <= z <= n)%Z /\ Math_floor (mul x c) = of_Z z /\
            inject_Z z - 1 < inject_Z n * to_Q x < inject_Z z + 1.
Proof.
  intros Hx Hn Hle Hpc Hc Vc Hrange.
  pose proof (value_non_negative x Hx Hn) as H0.
  assert (0 < inject_Z n) as Hnq by (rewrite <- (Zlt_Qlt 0); lia).
  assert (0 <= inject_Z n * to_Q x) as Hprod by (apply Qmult_le_0_compat; lra).
  assert (inject_Z n * to_Q x <= inject_Z n) as Hprod'.
  { rewrite <- (Qmult_1_r (inject_Z n)) at 2. apply Qmult_le_l; assumption. }
  assert (to_Q pos_zero <= to_Q x * to_Q c <= to_Q c) as B.
  { change (to_Q pos_zero) with 0. rewrite Vc. lra. }
  destruct (mul_between pos_zero c x c eq_refl Hc Hx Hc B) as (Fy & Ly & Uy).
  change (to_Q pos_zero) with 0 in Ly. rewrite Vc in Uy.
  assert (non_negative (mul x c) = true) as Ny.
  { destruct c as [[]|[]| |[] mc ec]; try discriminate Hpc.
    apply mul_non_negative, Hn. }
  destruct (Math_floor_value (mul x c) Fy Ny) as (z & Hz & Ez & Lz & Uz).
  { assert (inject_Z n < inject_Z (2 ^ 52)) by (rewrite <- Zlt_Qlt; lia). lra. }
  assert (z <= n)%Z as Hzn.
  { rewrite Zle_Qle. lra. }
  exists z. split; [lia|]. split; [exact Ez|]. split.
  - destruct (Qlt_le_dec (inject_Z z - 1) (inject_Z n * to_Q x)) as [|Hc1]; [assumption|].
    exfalso.
    assert (1 <= z)%Z as Hz1.
    { destruct (Z_lt_le_dec z 1) as [Hlt|]; [|assumption]. exfalso.
      assert (z = 0)%Z as -> by lia. change (inject_Z 0) with 0 in Hc1. lra. }
    destruct (of_Z_exact (z - 1) ltac:(lia)) as [Fz Vz].
    assert (to_Q pos_zero <= to_Q x * to_Q c <= to_Q (of_Z (z - 1))) as B'.
    { change (to_Q pos_zero) with 0. rewrite Vc, Vz.
      rewrite inject_Z_pred. lra. }
    destruct (mul_between pos_zero (of_Z (z - 1)) x c eq_refl Fz Hx Hc B') as (_ & _ & U').
    rewrite Vz, inject_Z_pred in U'. lra.
  - destruct (Qlt_le_dec (inject_Z n * to_Q x) (inject_Z z + 1)) as [|Hc1]; [assumption|].
    exfalso.
    destruct (of_Z_exact (z + 1) ltac:(lia)) as [Fz Vz].
    assert (z + 1 <= n)%Z as Hzn1.
    { rewrite Zle_Qle, inject_Z_succ. lra. }
    assert (to_Q (of_Z (z + 1)) <= to_Q x * to_Q c <= to_Q c) as B'.
    { rewrite Vc, Vz, inject_Z_succ. lra. }
    destruct (mul_between (of_Z (z + 1)) c x c Fz Hc Hx Hc B') as (_ & L' & _).
    rewrite Vz, inject_Z_succ in L'. lra.
Qed.

End Scaled.

Section Constants.
Local Open Scope Q_scope.

Lemma value_0_5 : to_Q (decimal 5 1) == 1 # 2.
Proof. vm_compute. reflexivity. Qed.
Lemma value_0_01 : to_Q (decimal 1 2) == 5764607523034235 # 576460752303423488.
Proof. vm_compute. reflexivity. Qed.
Lemma value_0_005 : to_Q (decimal 5 3) == 5764607523034235 # 1152921504606846976.
Proof. vm_compute. reflexivity. Qed.
Lemma value_0_02 : to_Q (decimal 2 2) == 5764607523034235 # 288230376151711744.
Proof. vm_compute. reflexivity. Qed.
Lemma value_0_7 : to_Q (decimal 7 1) == 6305039478318694 # 9007199254740992.
Proof. vm_compute. reflexivity. Qed.
Lemma value_0_3 : to_Q (decimal 3 1) == 5404319552844595 # 18014398509481984.
Proof. vm_compute. reflexivity. Qed.
Lemma value_0_2 : to_Q (decimal 2 1) == 7205759403792794 # 36028797018963968.
Proof. vm_compute. reflexivity. Qed.
Lemma value_0_1 : to_Q (decimal 1 1) == 7205759403792794 # 72057594037927936.
Proof. vm_compute. reflexivity. Qed.
Lemma value_0_05 : to_Q (decimal 5 2) == 7205759403792794 # 144115188075855872.
Proof. vm_compute. reflexivity. Qed.
Lemma value_15 : to_Q (of_Z 15) == 15.
Proof. vm_compute. reflexivity. Qed.
Lemma value_1000 : to_Q (of_Z 1000) == 1000.
Proof. vm_compute. reflexivity. Qed.
Lemma value_lat : to_Q SOMNATH_TEMPLE_lat == 5879533756025196 # 281474976710656.
Proof. vm_compute. reflexivity. Qed.
Lemma value_lng : to_Q SOMNATH_TEMPLE_lng == 4954036995726141 # 70368744177664.
Proof. vm_compute. reflexivity. Qed.

Lemma value_lat_lo : to_Q lat_lo == 5878126381141642 # 281474976710656.
Proof. vm_compute. reflexivity. Qed.
Lemma value_lat_hi : to_Q lat_hi == 5880941130908750 # 281474976710656.
Proof. vm_compute. reflexivity. Qed.
Lemma value_lng_lo : to_Q lng_lo == 4953685152005252 # 70368744177664.
Proof. vm_compute. reflexivity. Qed.
Lemma value_lng_hi : to_Q lng_hi == 4954388839447030 # 70368744177664.
Proof. vm_compute. reflexivity. Qed.
Lemma value_lat_span : to_Q lat_span == 1407374883554 # 281474976710656.
Proof. vm_compute. reflexivity. Qed.
Lemma value_lng_span : to_Q lng_span == 351843720889 # 70368744177664.
Proof. vm_compute. reflexivity. Qed.

Lemma value_abs x : to_Q (Math_abs x) == Qabs (to_Q x).
Proof.
  destruct x as [s|s| |s m e]; try reflexivity. unfold Math_abs, SFabs.
  rewrite !value_finite. pose proof (pow2_pos e).
  assert (0 < inject_Z (Zpos m)) by (rewrite <- (Zlt_Qlt 0); lia).
  destruct s; cbn [cond_Zopp].
  - rewrite Qabs_neg; [rewrite inject_Z_opp; ring|]. rewrite inject_Z_opp. nra.
  - rewrite Qabs_pos; [reflexivity|nra].
Qed.

Lemma finite64_abs x : finite64 (Math_abs x) = finite64 x.
Proof. destruct x; reflexivity. Qed.

End Constants.

Section Cluster.
Context `{Host}.
Hypothesis Hsane : sane H.
Hypothesis Hdraws : binary64_draws H.
Local Open Scope Q_scope.

Lemma draw_value k :
  finite64 (Math_random k) = true /\ 0 <= to_Q (Math_random k) < 1.
Proof.
  apply in_random_range_value; [apply Hdraws|apply (random_in_range H Hsane)].
Qed.

(** [(r - 0.5) * 0.01] lies within 0.005 of zero. *)
Lemma offset_value r :
  finite64 r = true -> 0 <= to_Q r < 1 ->
  finite64 (mul (sub r (decimal 5 1)) (decimal 1 2)) = true /\
  - to_Q (decimal 5 3) <= to_Q (mul (sub r (decimal 5 1)) (decimal 1 2))
    <= to_Q (decimal 5 3).
Proof.
  intros Hr Hv.
  assert (to_Q (SFopp (decimal 5 1)) <= to_Q r - to_Q (decimal 5 1)
          <= to_Q (decimal 5 1)) as B1.
  { rewrite value_opp, value_0_5. lra. }
  destruct (sub_between (SFopp (decimal 5 1)) (decimal 5 1) r (decimal 5 1)
              eq_refl eq_refl Hr eq_refl B1) as (F1 & L1 & U1).
  rewrite value_opp, value_0_5 in L1. rewrite value_0_5 in U1.
  assert (to_Q (SFopp (decimal 5 3))
          <= to_Q (sub r (decimal 5 1)) * to_Q (decimal 1 2)
          <= to_Q (decimal 5 3)) as B2.
  { rewrite value_opp, value_0_005, value_0_01. lra. }
  destruct (mul_between (SFopp (decimal 5 3)) (decimal 5 3)
              (sub r (decimal 5 1)) (decimal 1 2) eq_refl eq_refl F1 eq_refl B2)
    as (F2 & L2 & U2).
  rewrite value_opp in L2. auto.
Qed.


(** A coordinate of a surrounding point stays within 0.005 of the
    temple's, and passes the test of the temple area. *)
Lemma near_lat off :
  finite64 off = true ->
  - to_Q (decimal 5 3) <= to_Q off <= to_Q (decimal 5 3) ->
  finite64 (add SOMNATH_TEMPLE_lat off) = true /\
  Qabs (to_Q (add SOMNATH_TEMPLE_lat off) - to_Q SOMNATH_TEMPLE_lat)
    <= 5000001 # 1000000000 /\
  lt (Math_abs (sub (add SOMNATH_TEMPLE_lat off) SOMNATH_TEMPLE_lat)) (decimal 2 2)
    = true.
Proof.
  intros Hf Hv. rewrite value_0_005 in Hv.
  assert (to_Q lat_lo <= to_Q SOMNATH_TEMPLE_lat + to_Q off <= to_Q lat_hi) as B1.
  { rewrite value_lat_lo, value_lat_hi, value_lat. lra. }
  destruct (add_between lat_lo lat_hi SOMNATH_TEMPLE_lat off eq_refl eq_refl eq_refl Hf B1)
    as (F1 & L1 & U1).
  rewrite value_lat_lo in L1. rewrite value_lat_hi in U1.
  split; [exact F1|]. split.
  - apply Qabs_Qle_condition. rewrite value_lat. lra.
  - assert (to_Q (SFopp lat_span)
            <= to_Q (add SOMNATH_TEMPLE_lat off) - to_Q SOMNATH_TEMPLE_lat
            <= to_Q lat_span) as B2.
    { rewrite value_opp, value_lat_span, value_lat. lra. }
    destruct (sub_between (SFopp lat_span) lat_span _ SOMNATH_TEMPLE_lat
                eq_refl eq_refl F1 eq_refl B2) as (F2 & L2 & U2).
    apply lt_value; [rewrite finite64_abs; exact F2|reflexivity|].
    rewrite value_abs, value_0_02. apply Qabs_Qlt_condition.
    rewrite value_opp, value_lat_span in L2. rewrite value_lat_span in U2. lra.
Qed.

Lemma near_lng off :
  finite64 off = true ->
  - to_Q (decimal 5 3) <= to_Q off <= to_Q (decimal 5 3) ->
  finite64 (add SOMNATH_TEMPLE_lng off) = true /\
  Qabs (to_Q (add SOMNATH_TEMPLE_lng off) - to_Q SOMNATH_TEMPLE_lng)
    <= 5000001 # 1000000000 /\
  lt (Math_abs (sub (add SOMNATH_TEMPLE_lng off) SOMNATH_TEMPLE_lng)) (decimal 2 2)
    = true.
Proof.
  intros Hf Hv. rewrite value_0_005 in Hv.
  assert (to_Q lng_lo <= to_Q SOMNATH_TEMPLE_lng + to_Q off <= to_Q lng_hi) as B1.
  { rewrite value_lng_lo, value_lng_hi, value_lng. lra. }
  destruct (add_between lng_lo lng_hi SOMNATH_TEMPLE_lng off eq_refl eq_refl eq_refl Hf B1)
    as (F1 & L1 & U1).
  rewrite value_lng_lo in L1. rewrite value_lng_hi in U1.
  split; [exact F1|]. split.
  - apply Qabs_Qle_condition. rewrite value_lng. lra.
  - assert (to_Q (SFopp lng_span)
            <= to_Q (add SOMNATH_TEMPLE_lng off) - to_Q SOMNATH_TEMPLE_lng
            <= to_Q lng_span) as B2.
    { rewrite value_opp, value_lng_span, value_lng. lra. }
    destruct (sub_between (SFopp lng_span) lng_span _ SOMNATH_TEMPLE_lng
                eq_refl eq_refl F1 eq_refl B2) as (F2 & L2 & U2).
    apply lt_value; [rewrite finite64_abs; exact F2|reflexivity|].
    rewrite value_abs, value_0_02. apply Qabs_Qlt_condition.
    rewrite value_opp, value_lng_span in L2. rewrite value_lng_span in U2. lra.
Qed.

(** The intensity of a surrounding point: not negative and at most the
    intensity of the centre. *)
Lemma dimmed_value x r :
  finite64 x = true -> 0 <= to_Q x <= 1 ->
  finite64 r = true -> 0 <= to_Q r < 1 ->
  let p := Math_min [of_Z 1; mul x (add (decimal 7 1) (mul r (decimal 3 1)))] in
  finite64 p = true /\ 0 <= to_Q p <= to_Q x.
Proof.
  intros Hx Hvx Hr Hvr.
  assert (to_Q pos_zero <= to_Q r * to_Q (decimal 3 1) <= to_Q (decimal 3 1)) as B1.
  { change (to_Q pos_zero) with 0. rewrite value_0_3. nra. }
  destruct (mul_between pos_zero (decimal 3 1) r (decimal 3 1) eq_refl eq_refl Hr eq_refl B1)
    as (F1 & L1 & U1).
  change (to_Q pos_zero) with 0 in L1. rewrite value_0_3 in U1.
  assert (to_Q (decimal 7 1)
          <= to_Q (decimal 7 1) + to_Q (mul r (decimal 3 1)) <= to_Q (of_Z 1)) as B2.
  { rewrite value_one, value_0_7. lra. }
  destruct (add_between (decimal 7 1) (of_Z 1) (decimal 7 1) (mul r (decimal 3 1))
              eq_refl eq_refl eq_refl F1 B2) as (F2 & L2 & U2).
  rewrite value_0_7 in L2. rewrite value_one in U2.
  set (f := add (decimal 7 1) (mul r (decimal 3 1))) in *.
  assert (to_Q pos_zero <= to_Q x * to_Q f <= to_Q x) as B3.
  { change (to_Q pos_zero) with 0. nra. }
  destruct (mul_between pos_zero x x f eq_refl Hx Hx F2 B3) as (F3 & L3 & U3).
  change (to_Q pos_zero) with 0 in L3.
  destruct (Math_min_value (of_Z 1) (mul x f) eq_refl eq_refl F3)
    as (F4 & M1 & M2 & [E|[E Hge]]).
  - cbv zeta. rewrite E. auto.
  - cbv zeta. rewrite E. rewrite value_one in *. split; [reflexivity|]. lra.
Qed.

Lemma satellite_facts x r1 r2 r3 :
  finite64 x = true -> 0 <= to_Q x <= 1 ->
  finite64 r1 = true -> 0 <= to_Q r1 < 1 ->
  finite64 r2 = true -> 0 <= to_Q r2 < 1 ->
  finite64 r3 = true -> 0 <= to_Q r3 < 1 ->
  isSomnathArea (satellite x r1 r2 r3) = true /\
  finite64 (fst (fst (satellite x r1 r2 r3))) = true /\
  finite64 (snd (fst (satellite x r1 r2 r3))) = true /\
  finite64 (snd (satellite x r1 r2 r3)) = true /\
  Qabs (to_Q (fst (fst (satellite x r1 r2 r3))) - to_Q SOMNATH_TEMPLE_lat)
    <= 5000001 # 1000000000 /\
  Qabs (to_Q (snd (fst (satellite x r1 r2 r3))) - to_Q SOMNATH_TEMPLE_lng)
    <= 5000001 # 1000000000 /\
  0 <= to_Q (snd (satellite x r1 r2 r3)) <= to_Q x.
Proof.
  intros Hx Hvx H1 V1 H2 V2 H3 V3.
  destruct (offset_value r1 H1 V1) as [Fo1 Bo1].
  destruct (offset_value r2 H2 V2) as [Fo2 Bo2].
  destruct (near_lat _ Fo1 Bo1) as (Fa & Qa & Ta).
  destruct (near_lng _ Fo2 Bo2) as (Fb & Qb & Tb).
  destruct (dimmed_value x r3 Hx Hvx H3 V3) as (Fp & Vp).
  unfold satellite, isSomnathArea. cbn [fst snd].
  rewrite Ta, Tb. repeat split; auto; apply Vp.
Qed.

End Cluster.

End ClusterFacts.

Module ClusterTheorems.
Import NumberFacts ValueFacts Server ServerFacts ServerData ClusterFacts.

Section Generator.
Context `{Host}.

(** More fuel does not change what the loop returns. *)
Lemma surrounding_more fuel :
  forall intensity numPoints i points s pts s',
    surrounding fuel intensity numPoints i points s = Return pts s' ->
    forall fuel', (fuel <= fuel')%nat ->
      surrounding fuel' intensity numPoints i points s = Return pts s'.
Proof.
  induction fuel as [|fuel IH]; intros intensity numPoints i points s pts s' E fuel' Hf.
  - destruct fuel'; cbn [surrounding] in *;
      destruct (lt i (sub numPoints (of_Z 1))); try discriminate; exact E.
  - destruct fuel' as [|fuel']; [lia|]. cbn [surrounding] in *.
    destruct (lt i (sub numPoints (of_Z 1))); [|exact E].
    unfold bind, random in *. eapply IH; [exact E|lia].
Qed.

Lemma generate_more fuel intensity s pts s' :
  generateSomnathHeatPoints fuel intensity s = Return pts s' ->
  forall fuel', (fuel <= fuel')%nat ->
    generateSomnathHeatPoints fuel' intensity s = Return pts s'.
Proof. unfold generateSomnathHeatPoints. apply surrounding_more. Qed.

(** The number of points for an intensity of the unit interval. *)
Lemma numPoints_exact x :
  binary64 x = true -> in_unit x = true ->
  exists z, (0 <= z <= 15)%Z /\
    add (Math_floor (mul x (of_Z 15))) (of_Z 5) = add (of_Z z) (of_Z 5) /\
    (inject_Z z - 1 < 15 * to_Q x < inject_Z z + 1)%Q.
Proof.
  intros Hb Hu. destruct (in_unit_value x Hb Hu) as (Hf & H0 & H1).
  destruct (non_negative x) eqn:Hn.
  - destruct (floor_scaled x (of_Z 15) 15 Hf Hn H1 eq_refl eq_refl value_15 ltac:(lia))
      as (z & Hz & Ez & Bz).
    exists z. rewrite Ez. repeat split; try lia; apply Bz.
  - destruct x as [[]|[]| |[] m e]; try discriminate.
    exists 0%Z. split; [lia|]. split; [reflexivity|]. cbn [to_Q]. split; reflexivity.
Qed.

(** X1: for an intensity that is a binary64 value of the unit
    interval, [generateSomnathHeatPoints] returns, with fuel for its at
    most 19 rounds, a list of n points with 5 <= n <= 20 and
    n - 6 < 15 * intensity < n - 4 (n is [floor(intensity * 15) + 5],
    the product being rounded): the centre with the intensity itself,
    then n - 1 points of three draws each. *)
Theorem cluster_size (x : number) :
  binary64 x = true -> in_unit x = true ->
  exists n : nat,
    (5 <= n <= 20)%nat /\
    (inject_Z (Z.of_nat n) - 6 < 15 * to_Q x < inject_Z (Z.of_nat n) - 4)%Q /\
    forall fuel s, (19 <= fuel)%nat ->
      generateSomnathHeatPoints fuel x s =
      Return ((SOMNATH_TEMPLE_lat, SOMNATH_TEMPLE_lng, x)
                :: satellites x (draws s) (n - 1))
             (set_draws (draws s + 3 * (n - 1)) s) /\
      length ((SOMNATH_TEMPLE_lat, SOMNATH_TEMPLE_lng, x)
                :: satellites x (draws s) (n - 1)) = n.
Proof.
  intros Hb Hu. destruct (numPoints_exact x Hb Hu) as (z & Hz & En & Bz).
  exists (Z.to_nat z + 5)%nat. split; [lia|]. split.
  - replace (Z.of_nat (Z.to_nat z + 5)) with (z + 5)%Z by lia.
    rewrite inject_Z_plus. change (inject_Z 5) with 5%Q. split; lra.
  - intros fuel s Hf.
    replace (Z.to_nat z + 5 - 1)%nat with (Z.to_nat z + 4)%nat by lia. split.
    + apply (generate_runs (add (of_Z z) (of_Z 5))); [exact En| |lia].
      apply counts_small. lia.
    + cbn [length]. rewrite satellites_length. lia.
Qed.

Section Draws.
Hypothesis Hsane : sane H.
Hypothesis Hdraws : binary64_draws H.

Lemma satellites_near x :
  finite64 x = true -> (0 <= to_Q x <= 1)%Q ->
  forall n d, Forall (fun p => near_temple x p /\ isSomnathArea p = true)
                     (satellites x d n).
Proof.
  intros Hf Hv. induction n as [|n IH]; intros d; cbn [satellites]; constructor.
  - destruct (draw_value Hsane Hdraws d) as [F1 V1].
    destruct (draw_value Hsane Hdraws (d + 1)) as [F2 V2].
    destruct (draw_value Hsane Hdraws (d + 2)) as [F3 V3].
    destruct (satellite_facts x _ _ _ Hf Hv F1 V1 F2 V2 F3 V3)
      as (A & Fa & Fb & Fp & Qa & Qb & Vp).
    destruct (satellite x (Math_random d) (Math_random (d + 1)) (Math_random (d + 2)))
      as [[lat lng] i]. cbn [fst snd] in *. split; [|exact A].
    unfold near_temple. auto.
  - apply IH.
Qed.

Lemma centre_near x :
  finite64 x = true -> (0 <= to_Q x <= 1)%Q ->
  near_temple x (SOMNATH_TEMPLE_lat, SOMNATH_TEMPLE_lng, x) /\
  isSomnathArea (SOMNATH_TEMPLE_lat, SOMNATH_TEMPLE_lng, x) = true.
Proof.
  intros Hf Hv. split; [|reflexivity]. unfold near_temple.
  assert (forall q, Qabs (q - q) <= 5000001 # 1000000000)%Q as Hz.
  { intros q. apply Qabs_Qle_condition. split; lra. }
  repeat split; auto; try apply Hz; try apply Hv. apply Qle_refl.
Qed.

(** X2: every point the generator returns for such an intensity lies
    within 0.005000001 degrees of the temple on both axes, has a finite
    intensity from zero to that of the centre, and passes the test
    [isSomnathArea] of the interval handler, which therefore leaves the
    whole cluster as it is. *)
Theorem cluster_points (x : number) (fuel : nat) (s : server) :
  binary64 x = true -> in_unit x = true -> (19 <= fuel)%nat ->
  exists (pts : list point) (s' : server),
    generateSomnathHeatPoints fuel x s = Return pts s' /\
    Forall (fun p => near_temple x p /\ isSomnathArea p = true) pts.
Proof.
  intros Hb Hu Hfuel. destruct (in_unit_value x Hb Hu) as (Hf & Hv).
  destruct (numPoints_exact x Hb Hu) as (z & Hz & En & _).
  eexists _, _. split.
  - apply (generate_runs (add (of_Z z) (of_Z 5)) (Z.to_nat z + 4)); [exact En| |lia].
    apply counts_small. lia.
  - constructor.
    + apply centre_near; assumption.
    + apply satellites_near; assumption.
Qed.

End Draws.

(** With an intensity that is not a number the loop never runs. *)
Lemma generate_nan (fuel : nat) (s : server) :
  generateSomnathHeatPoints fuel nan s =
  Return [(SOMNATH_TEMPLE_lat, SOMNATH_TEMPLE_lng, nan)] s.
Proof. destruct fuel; reflexivity. Qed.

End Generator.
End ClusterTheorems.

Module GatherFacts.
Import NumberFacts ValueFacts Server ServerFacts ServerData ClusterFacts.

Section Gather.
Context `{Host}.
Hypothesis Hsane : sane H.
Hypothesis Hdraws : binary64_draws H.
Local Open Scope Q_scope.

(** Adding to a finite value that is not zero gives a binary64 value
    whatever is added. *)
Lemma add_positive_binary64 c y :
  positive_finite c = true -> binary64 c = true -> binary64 (add c y) = true.
Proof.
  intros Hp Hc. destruct c as [[]|[]| |[] mc ec]; try discriminate Hp.
  destruct y as [sy|sy| |sy my ey]; try reflexivity; try exact Hc.
  apply binary_normalize_binary64.
Qed.

Lemma target_value count :
  non_negative count = true ->
  finite64 (target count) = true /\ 0 <= to_Q (target count) <= 1.
Proof.
  intros Hc.
  set (t := add (decimal 5 1) (mul (div count (of_Z 100)) (decimal 5 1))).
  assert (binary64 t = true) as Bt by (apply add_positive_binary64; reflexivity).
  assert (non_negative t = true) as Nt.
  { apply add_non_negative; [reflexivity|].
    change (decimal 5 1) with (S754_finite false 4503599627370496 (-53)).
    apply mul_non_negative.
    change (of_Z 100) with (S754_finite false 7036874417766400 (-46)).
    apply div_non_negative, Hc. }
  destruct (capped_non_negative t Nt (binary64_fits t Bt)) as (Hu & _ & _ & _).
  apply in_unit_value; [|exact Hu]. fold t in Hu. unfold target. fold t.
  destruct (Math_min_cases (of_Z 1) t) as [[-> _]| ->]; try reflexivity; auto.
  apply non_negative_not_nan, Nt.
Qed.

(** [(r - 0.5) * c] for a constant [c] of the unit interval. *)
Lemma variation_value r c :
  finite64 r = true -> 0 <= to_Q r < 1 ->
  finite64 c = true -> 0 <= to_Q c <= 1 ->
  finite64 (mul (sub r (decimal 5 1)) c) = true /\
  - (1) <= to_Q (mul (sub r (decimal 5 1)) c) <= 1.
Proof.
  intros Hr Hv Hc Vc.
  assert (to_Q (SFopp (decimal 5 1)) <= to_Q r - to_Q (decimal 5 1)
          <= to_Q (decimal 5 1)) as B1.
  { rewrite value_opp, value_0_5. lra. }
  destruct (sub_between (SFopp (decimal 5 1)) (decimal 5 1) r (decimal 5 1)
              eq_refl eq_refl Hr eq_refl B1) as (F1 & L1 & U1).
  rewrite value_opp, value_0_5 in L1. rewrite value_0_5 in U1.
  assert (to_Q (of_Z (-1)) <= to_Q (sub r (decimal 5 1)) * to_Q c <= to_Q (of_Z 1)) as B2.
  { rewrite value_one. change (to_Q (of_Z (-1))) with (inject_Z (-4503599627370496) * 2 ^ (-52)).
    assert (inject_Z (-4503599627370496) * 2 ^ (-52) == - (1)) as -> by reflexivity.
    nra. }
  destruct (mul_between (of_Z (-1)) (of_Z 1) _ c eq_refl eq_refl F1 Hc B2)
    as (F2 & L2 & U2).
  assert (to_Q (of_Z (-1)) == - (1)) as E by reflexivity.
  rewrite E in L2. rewrite value_one in U2. auto.
Qed.

Lemma le_0_3 x : finite64 x = true ->
  (le (decimal 3 1) x = true <-> to_Q (decimal 3 1) <= to_Q x).
Proof. intros Hx. apply le_value; [reflexivity|exact Hx]. Qed.

Lemma varied_value count r :
  non_negative count = true -> finite64 r = true -> 0 <= to_Q r < 1 ->
  finite64 (varied count r) = true /\
  to_Q (decimal 3 1) <= to_Q (varied count r) <= 1.
Proof.
  intros Hc Hr Hv. destruct (target_value count Hc) as (Ft & Vt).
  destruct (variation_value r (decimal 5 2) Hr Hv eq_refl) as (Fv & Vv).
  { rewrite value_0_05. lra. }
  set (v := mul (sub r (decimal 5 1)) (decimal 5 2)) in *.
  assert (to_Q (of_Z (-1)) <= to_Q (target count) + to_Q v <= to_Q (of_Z 2)) as B.
  { assert (to_Q (of_Z (-1)) == - (1)) as -> by reflexivity.
    assert (to_Q (of_Z 2) == 2) as -> by reflexivity. lra. }
  destruct (add_between (of_Z (-1)) (of_Z 2) (target count) v eq_refl eq_refl Ft Fv B)
    as (Fw & _ & _).
  unfold varied. fold v. set (w := add (target count) v) in *.
  destruct (Math_min_value (of_Z 1) w eq_refl eq_refl Fw) as (Fm & M1 & _ & _).
  rewrite value_one in M1.
  destruct (Math_max_value (decimal 3 1) (Math_min [of_Z 1; w]) (or_introl eq_refl)
              eq_refl Fm) as (Fx & X1 & _ & [E|[E _]]).
  - split; [exact Fx|]. split; [exact X1|]. rewrite E. exact M1.
  - split; [exact Fx|]. split; [exact X1|]. rewrite E, value_0_3. lra.
Qed.

Lemma peaked_value x :
  finite64 x = true -> to_Q (decimal 3 1) <= to_Q x <= 1 ->
  finite64 (peaked x) = true /\ to_Q (decimal 3 1) <= to_Q (peaked x) <= 1.
Proof.
  intros Hx Hv. rewrite value_0_3 in Hv.
  assert (to_Q (decimal 3 1) <= to_Q x + to_Q (decimal 2 1) <= to_Q (of_Z 2)) as B.
  { assert (to_Q (of_Z 2) == 2) as -> by reflexivity.
    rewrite value_0_3, value_0_2. lra. }
  destruct (add_between (decimal 3 1) (of_Z 2) x (decimal 2 1) eq_refl eq_refl Hx eq_refl B)
    as (Fw & Lw & _).
  unfold peaked.
  destruct (Math_min_value (of_Z 1) (add x (decimal 2 1)) eq_refl eq_refl Fw)
    as (Fm & M1 & _ & [E|[E _]]).
  - rewrite value_one in M1. split; [exact Fm|]. rewrite E in *. split; assumption.
  - split; [exact Fm|]. rewrite E, value_one, value_0_3. lra.
Qed.

(** The intensity the gathering step stores. *)
Lemma gathered_value s :
  non_negative (updateCount s) = true ->
  finite64 (somnathCrowdIntensity (gathered s)) = true /\
  to_Q (decimal 3 1) <= to_Q (somnathCrowdIntensity (gathered s)) <= 1.
Proof.
  intros Hn. unfold gathered. cbn [somnathCrowdIntensity].
  assert (non_negative (add (updateCount s) (of_Z 1)) = true) as Hc
    by (apply add_non_negative; [exact Hn|reflexivity]).
  destruct (draw_value Hsane Hdraws (draws s)) as [Fr Vr].
  destruct (varied_value _ _ Hc Fr Vr) as (Fx & Vx).
  destruct (lt (Math_random (S (draws s))) (decimal 1 1)); [|auto].
  apply peaked_value; assumption.
Qed.

End Gather.
End GatherFacts.

Module UpdateFacts.
Import NumberFacts ValueFacts Server ServerFacts ServerData ClusterFacts.
Import ClusterTheorems GatherFacts.

Section Update.
Context `{Host}.

Lemma vary_in_area p s : isSomnathArea p = true -> vary p s = Return p s.
Proof.
  destruct p as [[lat lng] i]. unfold vary, isSomnathArea. intros ->. reflexivity.
Qed.

Lemma vary_outside p s :
  isSomnathArea p = false ->
  vary p s = Return (varied_point p (Math_random (draws s))) (set_draws (S (draws s)) s).
Proof.
  destruct p as [[lat lng] i]. unfold vary, isSomnathArea. intros ->. reflexivity.
Qed.

Lemma map_M_app {A B} (f : A -> M server B) l1 l2 s :
  map_M f (l1 ++ l2) s =
  (let* a := map_M f l1 in let* b := map_M f l2 in ret (a ++ b)) s.
Proof.
  revert s. induction l1 as [|x l1 IH]; intros s; cbn [map_M app].
  - unfold bind, ret. destruct (map_M f l2 s); reflexivity.
  - unfold bind at 1 3 4. destruct (f x s) as [y s1| |]; try reflexivity.
    unfold bind at 1. rewrite IH. unfold bind, ret.
    destruct (map_M f l1 s1) as [ys s2| |]; try reflexivity.
    destruct (map_M f l2 s2); reflexivity.
Qed.

Lemma map_M_vary_in_area pts :
  Forall (fun p => isSomnathArea p = true) pts ->
  forall s, map_M vary pts s = Return pts s.
Proof.
  induction 1 as [|p pts Hp _ IH]; intros s; [reflexivity|].
  cbn [map_M]. unfold bind. rewrite (vary_in_area p s Hp), IH. reflexivity.
Qed.

Lemma map_M_vary_outside pts :
  forallb (fun p => negb (isSomnathArea p)) pts = true ->
  forall s, map_M vary pts s =
            Return (varied_points pts (draws s)) (set_draws (draws s + length pts) s).
Proof.
  induction pts as [|p pts IH]; intros Hall s.
  - cbn. unfold ret. rewrite Nat.add_0_r, set_draws_same. reflexivity.
  - cbn [forallb] in Hall. apply andb_true_iff in Hall as [Hp Hall].
    apply negb_true_iff in Hp.
    cbn [map_M varied_points]. unfold bind. rewrite (vary_outside p s Hp).
    rewrite (IH Hall). cbn [draws set_draws length]. unfold ret.
    rewrite set_draws_twice. do 2 f_equal. lia.
Qed.

Lemma base_outside :
  forallb (fun p => negb (isSomnathArea p)) baseHeatmapData = true.
Proof. vm_compute. reflexivity. Qed.

End Update.
End UpdateFacts.

Module UpdateTheorems.
Import NumberFacts ValueFacts Server ServerFacts ServerData ClusterFacts.
Import ClusterTheorems GatherFacts UpdateFacts.

Section Update.
Context `{Host}.
Hypothesis Hsane : sane H.
Hypothesis Hdraws : binary64_draws H.

Lemma satellites_in_area x :
  forall n d, Forall (fun p => isSomnathArea p = true) (satellites x d n).
Proof.
  induction n as [|n IH]; intros d; cbn [satellites]; constructor; [|apply IH].
  destruct (draw_value Hsane Hdraws d) as [F1 V1].
  destruct (draw_value Hsane Hdraws (d + 1)) as [F2 V2].
  destruct (offset_value _ F1 V1) as [Fo1 Bo1].
  destruct (offset_value _ F2 V2) as [Fo2 Bo2].
  destruct (near_lat _ Fo1 Bo1) as (_ & _ & Ta).
  destruct (near_lng _ Fo2 Bo2) as (_ & _ & Tb).
  unfold satellite, isSomnathArea. rewrite Ta, Tb. reflexivity.
Qed.

Lemma when_gather_runs s :
  when (ToBoolean (crowdGatheringActive s)) gather s = Return tt (advanced s).
Proof.
  unfold advanced, when. destruct (ToBoolean _); [apply gather_runs|reflexivity].
Qed.

(** X4: the object the interval handler builds from a steady state:
    the nine base points, each with its intensity varied by a draw of
    its own, then the cluster as generated (the centre and n
    satellites), with the intensity the gathering step has left;
    after that step 3n draws go to the cluster and 9 to the base
    points. *)
Theorem update_data_shape (fuel : nat) (now : string) (s : server) :
  steady s -> (67 <= fuel)%nat ->
  exists n : nat,
    (n <= 67)%nat /\
    update_message fuel now s =
    Return
      (heatmap_update
         (varied_points baseHeatmapData (draws (advanced s) + 3 * n)
            ++ (SOMNATH_TEMPLE_lat, SOMNATH_TEMPLE_lng,
                somnathCrowdIntensity (advanced s))
            :: satellites (somnathCrowdIntensity (advanced s))
                 (draws (advanced s)) n)
         now (somnathCrowdIntensity (advanced s)))
      (set_draws (draws (advanced s) + 3 * n + 9) (advanced s)).
Proof.
  intros Hst Hf.
  pose proof (advanced_steady s Hsane Hst) as (Hok & _).
  destruct (getCurrentHeatmapData_runs (advanced s) Hok) as (n & Hn & Hg).
  specialize (Hg fuel ltac:(lia)).
  exists n. split; [exact Hn|].
  unfold update_message. unfold bind at 1. unfold get_state at 1.
  unfold bind at 1. rewrite when_gather_runs.
  unfold bind at 1. rewrite Hg.
  unfold bind at 1. rewrite map_M_app. unfold bind at 1.
  rewrite (map_M_vary_outside _ base_outside). cbn [draws set_draws].
  unfold bind at 1. rewrite map_M_vary_in_area.
  - unfold ret, bind, get_state. cbn [somnathCrowdIntensity set_draws].
    rewrite set_draws_twice. reflexivity.
  - constructor; [reflexivity|apply satellites_in_area].
Qed.

Lemma variation_small r :
  finite64 r = true -> (0 <= to_Q r < 1)%Q ->
  finite64 (mul (sub r (decimal 5 1)) (decimal 1 1)) = true /\
  (- to_Q (decimal 5 2) <= to_Q (mul (sub r (decimal 5 1)) (decimal 1 1))
   <= to_Q (decimal 5 2))%Q.
Proof.
  intros Hr Hv.
  assert (to_Q (SFopp (decimal 5 1)) <= to_Q r - to_Q (decimal 5 1)
          <= to_Q (decimal 5 1))%Q as B1.
  { rewrite value_opp, value_0_5. lra. }
  destruct (sub_between (SFopp (decimal 5 1)) (decimal 5 1) r (decimal 5 1)
              eq_refl eq_refl Hr eq_refl B1) as (F1 & L1 & U1).
  rewrite value_opp, value_0_5 in L1. rewrite value_0_5 in U1.
  assert (to_Q (SFopp (decimal 5 2))
          <= to_Q (sub r (decimal 5 1)) * to_Q (decimal 1 1)
          <= to_Q (decimal 5 2))%Q as B2.
  { rewrite value_opp, value_0_05, value_0_1. lra. }
  destruct (mul_between (SFopp (decimal 5 2)) (decimal 5 2)
              (sub r (decimal 5 1)) (decimal 1 1) eq_refl eq_refl F1 eq_refl B2)
    as (F2 & L2 & U2).
  rewrite value_opp in L2. auto.
Qed.

(** X5: for a point of [baseHeatmapData] the callback of [map] keeps
    the coordinates, consumes one draw and returns the intensity plus
    [(random - 0.5) * 0.1] as the additions round it, the clamp to
    [0.1, 1] never acting: the result lies between 0.4 and 0.8. *)
Theorem base_points_varied (p : point) (s : server) :
  In p baseHeatmapData ->
  exists i : number,
    vary p s = Return (fst p, i) (set_draws (S (draws s)) s) /\
    i = add (snd p) (mul (sub (Math_random (draws s)) (decimal 5 1)) (decimal 1 1)) /\
    le (decimal 4 1) i = true /\ le i (decimal 8 1) = true.
Proof.
  intros Hin. set (k := draws s).
  assert (isSomnathArea p = false) as Hout.
  { pose proof base_outside as Hall. rewrite forallb_forall in Hall.
    apply negb_true_iff, Hall, Hin. }
  rewrite (vary_outside p s Hout). fold k.
  destruct (draw_value Hsane Hdraws k) as [Fr Vr].
  destruct (variation_small _ Fr Vr) as (Fv & Lv & Uv).
  rewrite value_0_05 in Lv, Uv.
  set (v := mul (sub (Math_random k) (decimal 5 1)) (decimal 1 1)) in *.
  assert (finite64 (snd p) = true /\
          (to_Q (decimal 5 1) <= to_Q (snd p) <= to_Q (decimal 7 1))%Q) as [Fi Vi].
  { cbn [baseHeatmapData In] in Hin.
    repeat (destruct Hin as [<-|Hin]; [split; [reflexivity|vm_compute; split; discriminate]|]).
    destruct Hin. }
  destruct p as [[lat lng] i]. cbn [fst snd] in *.
  rewrite value_0_5, value_0_7 in Vi.
  assert (to_Q (decimal 4 1) <= to_Q i + to_Q v <= to_Q (decimal 8 1))%Q as B.
  { assert (to_Q (decimal 4 1) == 7205759403792794 # 18014398509481984)%Q as ->
      by (vm_compute; reflexivity).
    assert (to_Q (decimal 8 1) == 7205759403792794 # 9007199254740992)%Q as ->
      by (vm_compute; reflexivity).
    lra. }
  destruct (add_between (decimal 4 1) (decimal 8 1) i v eq_refl eq_refl Fi Fv B)
    as (Fw & Lw & Uw).
  set (w := add i v) in *.
  assert (lt w (of_Z 1) = true) as E1.
  { apply lt_value; [exact Fw|reflexivity|]. rewrite value_one.
    assert (to_Q (decimal 8 1) == 7205759403792794 # 9007199254740992)%Q as E
      by (vm_compute; reflexivity).
    rewrite E in Uw. lra. }
  assert (lt (decimal 1 1) w = true) as E2.
  { apply lt_value; [reflexivity|exact Fw|]. rewrite value_0_1.
    assert (to_Q (decimal 4 1) == 7205759403792794 # 18014398509481984)%Q as E
      by (vm_compute; reflexivity).
    rewrite E in Lw. lra. }
  assert (varied_point (lat, lng, i) (Math_random k) = (lat, lng, w)) as ->.
  { unfold varied_point. fold v. fold w.
    rewrite (Math_min_pair (of_Z 1) w eq_refl (finite64_not_nan w Fw)), E1.
    rewrite (Math_max_pair (decimal 1 1) w (or_introl eq_refl) (finite64_not_nan w Fw)), E2.
    reflexivity. }
  exists w. split; [reflexivity|]. split; [reflexivity|]. split.
  - apply le_value; [reflexivity|exact Fw|exact Lw].
  - apply le_value; [exact Fw|reflexivity|exact Uw].
Qed.

End Update.

Section NotANumber.
Context `{Host}.

(** X3: with the simulation paused and an intensity that is NaN, the
    update the interval handler builds has the nine base points, each
    varied by one draw, and a single point at the temple, with intensity
    NaN: the loop of the generator never runs; the [crowdCount] of such
    an update is NaN. *)
Theorem nan_intensity_update (fuel : nat) (now : string) (s : server) :
  somnathCrowdIntensity s = nan ->
  ToBoolean (crowdGatheringActive s) = false ->
  update_message fuel now s =
    Return
      (heatmap_update
         (varied_points baseHeatmapData (draws s)
            ++ [(SOMNATH_TEMPLE_lat, SOMNATH_TEMPLE_lng, nan)])
         now nan)
      (set_draws (draws s + 9) s) /\
  forall data, Get (heatmap_update data now nan) "crowdCount" = Some (VNum nan).
Proof.
  intros Ex Hp. split; [|reflexivity].
  unfold update_message. unfold bind at 1. unfold get_state at 1.
  unfold bind at 1. rewrite Hp. unfold when, ret.
  unfold bind at 1. unfold getCurrentHeatmapData.
  unfold bind at 1. unfold get_state at 1. rewrite Ex.
  unfold bind at 1. rewrite generate_nan. unfold ret.
  unfold bind at 1. rewrite map_M_app. unfold bind at 1.
  rewrite (map_M_vary_outside _ base_outside).
  unfold bind at 1. rewrite map_M_vary_in_area by (constructor; [reflexivity|constructor]).
  unfold ret, bind, get_state. cbn [somnathCrowdIntensity set_draws]. rewrite Ex.
  reflexivity.
Qed.

End NotANumber.
End UpdateTheorems.

Module TickTheorems.
Import NumberFacts ValueFacts Server ServerFacts ServerData ClusterFacts.
Import ClusterTheorems GatherFacts UpdateFacts UpdateTheorems.

Section Tick.
Context `{Host}.

(** X6: for a non-negative binary64 intensity of the unit interval,
    the [crowdCount] of an update is an integer from 0 to 1000, less
    than one away from 1000 times the intensity. *)
Theorem crowd_count_range (x : number) (data : list point) (now : string) :
  binary64 x = true -> in_unit x = true -> non_negative x = true ->
  exists z : Z,
    (0 <= z <= 1000)%Z /\
    Get (heatmap_update data now x) "crowdCount" = Some (VNum (of_Z z)) /\
    (inject_Z z - 1 < 1000 * to_Q x < inject_Z z + 1)%Q.
Proof.
  intros Hb Hu Hn. destruct (in_unit_value x Hb Hu) as (Hf & H0 & H1).
  destruct (floor_scaled x (of_Z 1000) 1000 Hf Hn H1 eq_refl eq_refl value_1000 ltac:(lia))
    as (z & Hz & Ez & Bz).
  exists z. split; [exact Hz|]. split; [|exact Bz].
  unfold heatmap_update. cbn [Get lookup_prop String.eqb Ascii.eqb Bool.eqb].
  rewrite Ez. reflexivity.
Qed.

Lemma update_message_from_advanced fuel now s :
  update_message fuel now s =
  (let* currentData := getCurrentHeatmapData fuel in
   let* updatedData := map_M vary currentData in
   let* s := get_state in
   ret (heatmap_update updatedData now (somnathCrowdIntensity s))) (advanced s).
Proof.
  unfold update_message. unfold bind at 1. unfold get_state at 1.
  unfold bind at 1. rewrite when_gather_runs. reflexivity.
Qed.

Lemma update_message_reset fuel now y s :
  ToBoolean (crowdGatheringActive s) = true ->
  update_message fuel now (set_somnathCrowdIntensity y s) = update_message fuel now s.
Proof.
  intros Ha. rewrite !update_message_from_advanced. unfold advanced.
  cbn [crowdGatheringActive set_somnathCrowdIntensity]. rewrite Ha. reflexivity.
Qed.

Hypothesis Hsane : sane H.
Hypothesis Hdraws : binary64_draws H.

(** X7: on a tick with a viewer connected and the simulation active,
    the stored intensity has no influence on the outcome: the gathering
    step overwrites it from the counter and the draws; the intensity
    after the tick lies between 0.3 and 1. *)
Theorem active_tick_resets_intensity (fuel : nat) (now : string) (s : server)
    (y : number) :
  steady s -> (67 <= fuel)%nat -> clients s <> [] ->
  ToBoolean (crowdGatheringActive s) = true ->
  tick fuel now (set_somnathCrowdIntensity y s) = tick fuel now s /\
  exists s', tick fuel now s = Return tt s' /\
    le (decimal 3 1) (somnathCrowdIntensity s') = true /\
    le (somnathCrowdIntensity s') (of_Z 1) = true.
Proof.
  intros Hst Hf Hc Ha.
  assert (Nat.ltb 0 (length (clients s)) = true) as Hc0
    by (destruct (clients s); [congruence|reflexivity]).
  split.
  - unfold tick, bind, get_state, when. cbn [clients set_somnathCrowdIntensity].
    destruct (Nat.ltb 0 (length (clients s))); [|discriminate Hc0].
    rewrite (update_message_reset _ _ _ _ Ha). reflexivity.
  - destruct (tick_runs fuel now s Hsane Hst Hf Hc) as (u & d & _ & ->).
    eexists. split; [reflexivity|]. cbn [somnathCrowdIntensity logged set_console set_sockets set_draws].
    unfold advanced. rewrite Ha.
    destruct Hst as (_ & Hn & _).
    destruct (gathered_value Hsane Hdraws s Hn) as (Fx & L & U). split.
    + apply le_value; [reflexivity|exact Fx|exact L].
    + apply le_value; [exact Fx|reflexivity|]. rewrite value_one. exact U.
Qed.

(** X8: the counter of updates, when it holds the integer n: after a
    tick it holds n + 1 if a viewer is connected and the simulation is
    active, and n otherwise. *)
Theorem update_counter (fuel : nat) (now : string) (s : server) (n : Z) :
  steady s -> (67 <= fuel)%nat ->
  updateCount s = of_Z n -> (0 <= n)%Z -> (n + 1 < 2 ^ 53)%Z ->
  exists s', tick fuel now s = Return tt s' /\
    updateCount s' =
    if Nat.ltb 0 (length (clients s)) && ToBoolean (crowdGatheringActive s)
    then of_Z (n + 1) else of_Z n.
Proof.
  intros Hst Hf En Hn Hlt. destruct (clients s) as [|c cs] eqn:Ec.
  - rewrite (tick_idles fuel now s Ec). exists s. split; [reflexivity|exact En].
  - destruct (tick_runs fuel now s Hsane Hst Hf) as (u & d & _ & E); [congruence|].
    rewrite E. eexists. split; [reflexivity|].
    cbn [updateCount logged set_console set_sockets set_draws length Nat.ltb Nat.leb andb].
    unfold advanced. destruct (ToBoolean (crowdGatheringActive s)); [|exact En].
    unfold gathered. cbn [updateCount]. rewrite En. apply add_of_Z; lia.
Qed.

End Tick.
End TickTheorems.

Module ViewerTheorems.
Import EffFacts NumberFacts ValueFacts Server ServerFacts ServerData ClusterFacts.
Import ClusterTheorems GatherFacts UpdateFacts UpdateTheorems TickTheorems.

Section Viewers.
Context `{Host}.
Hypothesis Hsane : sane H.

Lemma elem_of_clients_add c ws cs : c ∈ clients_add ws cs <-> c = ws \/ c ∈ cs.
Proof.
  unfold clients_add. case_bool_decide as Hin.
  - split; [auto|]. intros [->|Hc]; assumption.
  - rewrite elem_of_app, list_elem_of_singleton. tauto.
Qed.

Lemma elem_of_clients_delete c ws cs : c ∈ clients_delete ws cs <-> c <> ws /\ c ∈ cs.
Proof. unfold clients_delete. rewrite list_elem_of_filter. tauto. Qed.

(** X9: a new connection joins the clients and is sent one message,
    the full update with the nine base points and the current cluster
    under the label of the initial data; the other connections and the
    three variables are untouched. *)
Theorem new_viewer_gets_full_update (fuel : nat) (s : server) :
  steady s -> (67 <= fuel)%nat ->
  let ws := fresh (dom (sockets s)) in
  exists (n : nat) (s' : server),
    dispatch fuel Connection s = Return tt s' /\
    (forall c, c ∈ clients s' <-> c = ws \/ c ∈ clients s) /\
    sockets s' !! ws =
      Some (mkSocket OPEN
              [JSON_stringify
                 (full_update
                    (baseHeatmapData ++
                       (SOMNATH_TEMPLE_lat, SOMNATH_TEMPLE_lng, somnathCrowdIntensity s)
                       :: satellites (somnathCrowdIntensity s) (draws s) n)
                    "Initial heatmap data - Somnath Temple crowd intensity: "
                    (somnathCrowdIntensity s))]) /\
    (forall c, c <> ws -> sockets s' !! c = sockets s !! c) /\
    same_variables s (set_clients (clients s) s').
Proof.
  intros (Hok & _) Hf ws.
  pose (s0 := logged (set_sockets (<[ws := mkSocket OPEN []]> (sockets s)) s)
                [mkEntry Log "New client connected:" []]).
  destruct (getCurrentHeatmapData_runs
              (set_clients (clients_add ws (clients s0)) s0) Hok)
    as (n & Hn & Hg).
  specialize (Hg fuel ltac:(lia)).
  exists n. eexists. split.
  - unfold dispatch. unfold bind at 1. unfold get_state at 1. fold ws.
    unfold bind at 1. unfold modify at 1. unfold connection.
    unfold bind at 1. rewrite print_runs.
    unfold bind at 1. unfold modify at 1. fold s0.
    unfold bind at 1. rewrite Hg.
    unfold bind at 1. unfold get_state at 1. unfold send. run.
    cbn. rewrite lookup_insert_eq. cbn. rewrite insert_insert_eq. reflexivity.
  - cbn [clients sockets]. split; [intros c; apply elem_of_clients_add|].
    split; [apply lookup_insert_eq|].
    split; [intros c Hc; apply lookup_insert_ne; congruence|].
    repeat split.
Qed.

(** X10: after [close] or [error] for a connection it is no longer a
    client, nothing has been sent to it, and the next tick sends it
    nothing. *)
Theorem departed_viewer_gets_nothing (fuel ws : nat) (e : event) (now : string)
    (s : server) :
  steady s -> (67 <= fuel)%nat -> e = Close ws \/ e = Failure ws ->
  exists s1 s2,
    dispatch fuel e s = Return tt s1 /\
    (forall c, c ∈ clients s1 <-> c <> ws /\ c ∈ clients s) /\
    sent <$> (sockets s1 !! ws) = sent <$> (sockets s !! ws) /\
    dispatch fuel (Interval now) s1 = Return tt s2 /\
    sockets s2 !! ws = sockets s1 !! ws.
Proof.
  intros Hst Hf He.
  destruct (dispatch_steady fuel e s Hsane Hst Hf) as (s1 & E1 & Hst1).
  assert (clients s1 = clients_delete ws (clients s) /\
          sent <$> (sockets s1 !! ws) = sent <$> (sockets s !! ws)) as [Ec Es].
  { destruct He as [-> | ->]; unfold dispatch, set_readyState, close, error, print in E1;
      run; cbn in E1.
    - destruct (sockets s !! ws) as [sock|] eqn:Eso; injection E1 as <-; cbn.
      + rewrite lookup_insert_eq. split; reflexivity.
      + rewrite Eso. split; reflexivity.
    - injection E1 as <-. split; reflexivity. }
  assert (ws ∉ clients s1) as Hout.
  { rewrite Ec. intros Hin. apply elem_of_clients_delete in Hin as [Hne _]. congruence. }
  destruct (dispatch_steady fuel (Interval now) s1 Hsane Hst1 Hf) as (s2 & E2 & _).
  exists s1, s2. split; [exact E1|]. split.
  { intros c. rewrite Ec. apply elem_of_clients_delete. }
  split; [exact Es|]. split; [exact E2|].
  cbn [dispatch] in E2. destruct (clients s1) as [|c cs] eqn:Ecs.
  - rewrite (tick_idles fuel now s1 Ecs) in E2. injection E2 as <-. reflexivity.
  - destruct (tick_runs fuel now s1 Hsane Hst1 Hf) as (u & d & _ & E); [congruence|].
    rewrite E in E2. injection E2 as <-. cbn [sockets logged set_console set_sockets].
    rewrite <- Ecs in Hout. apply broadcast_absent. exact Hout.
Qed.

(** X11: a [toggle_gathering] message stores its [active] property as
    it is, with no conversion to a boolean ([undefined] when it is
    missing), logs ACTIVE or PAUSED by its truthiness and touches
    nothing else. *)
Theorem toggle_stores_raw_value (fuel ws : nat) (message : string) (data : value)
    (s : server) :
  JSON_parse message = Some data ->
  Get data "type" = Some (VStr "toggle_gathering") ->
  exists s', incoming fuel ws message s = Return tt s' /\
    crowdGatheringActive s' = field data "active" /\
    somnathCrowdIntensity s' = somnathCrowdIntensity s /\
    updateCount s' = updateCount s /\ clients s' = clients s /\
    sockets s' = sockets s /\
    console s' = console s ++
      [mkEntry Log "Received:" [data];
       mkEntry Log "Crowd gathering:"
         [VStr (if ToBoolean (field data "active") then "ACTIVE" else "PAUSED")]].
Proof.
  intros Hp E.
  assert (field data "type" = VStr "toggle_gathering") as Ef by (unfold field; rewrite E; reflexivity).
  rewrite (incoming_runs_without_request fuel ws message data _ s Hp E);
    [|unfold requests_gujarat; rewrite Ef; reflexivity].
  unfold with_gathering_toggled, with_intensity_set, sets_intensity, toggles_gathering.
  rewrite Ef. cbn [strict_eq_string String.eqb Ascii.eqb Bool.eqb].
  eexists. split; [reflexivity|]. cbn. rewrite <- app_assoc. repeat split.
Qed.

(** X12: a message that does not parse, or that parses to [null], so
    that reading its [type] throws, changes no variable, sends nothing
    and consumes no draw; the error is logged. *)
Theorem unreadable_message_changes_nothing (fuel ws : nat) (message : string)
    (s : server) :
  JSON_parse message = None \/
  (exists data, JSON_parse message = Some data /\ Get data "type" = None) ->
  exists s', incoming fuel ws message s = Return tt s' /\
    same_variables s s' /\ sockets s' = sockets s /\ draws s' = draws s /\
    exists lines, console s' = console s ++ lines /\
      In (mkEntry Error "Error parsing message:" []) lines.
Proof.
  intros [Hp|(data & Hp & E)].
  - rewrite (incoming_runs_malformed fuel ws message s Hp).
    eexists. split; [reflexivity|]. repeat split. eexists. split; [reflexivity|]. left. reflexivity.
  - rewrite (incoming_runs_null fuel ws message data s Hp E).
    eexists. split; [reflexivity|]. repeat split. eexists. split; [reflexivity|].
    right. left. reflexivity.
Qed.

(** X13: a message whose [type] is none of the three the handler
    knows is logged as received, and nothing else happens. *)
Theorem unknown_type_only_logged (fuel ws : nat) (message : string) (data t : value)
    (s : server) :
  JSON_parse message = Some data -> Get data "type" = Some t ->
  t <> VStr "request_data" -> t <> VStr "set_crowd_intensity" ->
  t <> VStr "toggle_gathering" ->
  incoming fuel ws message s = Return tt (logged s [mkEntry Log "Received:" [data]]).
Proof.
  intros Hp E N1 N2 N3.
  assert (field data "type" = t) as Ef by (unfold field; rewrite E; reflexivity).
  assert (forall text, t <> VStr text -> strict_eq_string t text = false) as Hne.
  { intros text Hn. destruct t; try reflexivity. simpl. apply String.eqb_neq. congruence. }
  rewrite (incoming_runs_without_request fuel ws message data _ s Hp E);
    [|unfold requests_gujarat; rewrite Ef, (Hne _ N1); reflexivity].
  unfold with_gathering_toggled, with_intensity_set, sets_intensity, toggles_gathering.
  rewrite Ef, (Hne _ N2), (Hne _ N3). reflexivity.
Qed.

(** X14: from the initial state, whatever connections, messages,
    closes, errors and ticks come and in whatever order, every handler
    returns: no exception escapes a handler, and the state stays
    steady. *)
Theorem producer_never_stops (fuel : nat) (events : list event) (e : event) :
  (67 <= fuel)%nat ->
  exists s, run fuel events boot = Some s /\ steady s /\
    exists s', dispatch fuel e s = Return tt s' /\ steady s'.
Proof.
  intros Hf.
  assert (steady boot) as Hb by (repeat split; try reflexivity; constructor).
  destruct (run_steady fuel events boot Hsane Hb Hf) as (s & E & Hst).
  exists s. split; [exact E|]. split; [exact Hst|].
  apply dispatch_steady; assumption.
Qed.

End Viewers.
End ViewerTheorems.

(** ** The producer: the update it broadcasts *)

Module UpdateClaims.
Import NumberFacts ValueFacts Server ServerFacts ServerData ClusterFacts GatherFacts.

Section Broadcast.
Context `{Host}.



End Broadcast.

(** *** At concrete inputs *)

#[local] Existing Instance Demo.host.

(** The draws of the examples are binary64 values. *)
Lemma demo_draws_binary64 : binary64_draws Demo.host.
Proof.
  intros k. unfold Math_random, Demo.host, Demo.random_draw.
  destruct (Nat.modulo k 3) as [|[|n]]; reflexivity.
Qed.


(** The update of a paused server whose stored intensity is NaN: the
    crowd size is NaN and the intensity is written [NaN]. *)
Example update_of_nan_while_paused :
  exists update s1,
    update_message 67 Demo.an_instant
      (set_somnathCrowdIntensity nan Demo.two_viewers_paused) = Return update s1 /\
    Get update "crowdCount" = Some (VNum nan) /\
    Get update "somnathIntensity" = Some (VStr "NaN").
Proof. eexists _, _. vm_compute. repeat split. Qed.

End UpdateClaims.

(** ** The producer at concrete inputs *)

Module ProducerExamples.
Import Server ServerData ServerClaims.
Import ClusterTheorems UpdateTheorems TickTheorems ViewerTheorems UpdateClaims.

#[local] Existing Instance Demo.host.

Lemma cluster_size_witness :
  exists n : nat,
    (5 <= n <= 20)%nat /\
    (inject_Z (Z.of_nat n) - 6 < 15 * to_Q (decimal 5 1) < inject_Z (Z.of_nat n) - 4)%Q /\
    forall fuel s, (19 <= fuel)%nat ->
      generateSomnathHeatPoints fuel (decimal 5 1) s =
      Return ((SOMNATH_TEMPLE_lat, SOMNATH_TEMPLE_lng, decimal 5 1)
                :: satellites (decimal 5 1) (draws s) (n - 1))
             (set_draws (draws s + 3 * (n - 1)) s) /\
      length ((SOMNATH_TEMPLE_lat, SOMNATH_TEMPLE_lng, decimal 5 1)
                :: satellites (decimal 5 1) (draws s) (n - 1)) = n.
Proof.
  apply (cluster_size (H := Demo.host) (decimal 5 1)); reflexivity.
Defined.

Lemma cluster_points_witness :
  exists (pts : list point) (s' : server),
    generateSomnathHeatPoints 19 (decimal 5 1) Demo.two_viewers = Return pts s' /\
    Forall (fun p => near_temple (decimal 5 1) p /\ isSomnathArea p = true) pts.
Proof.
  apply (cluster_points (H := Demo.host) demo_host_sane demo_draws_binary64
           (decimal 5 1) 19 Demo.two_viewers).
  - reflexivity.
  - reflexivity.
  - lia.
Defined.

Lemma nan_intensity_update_witness :
  update_message 0 Demo.an_instant Echo.two_viewers_nan =
    Return
      (heatmap_update
         (varied_points baseHeatmapData (draws Echo.two_viewers_nan)
            ++ [(SOMNATH_TEMPLE_lat, SOMNATH_TEMPLE_lng, nan)])
         Demo.an_instant nan)
      (set_draws (draws Echo.two_viewers_nan + 9) Echo.two_viewers_nan) /\
  forall data,
    Get (heatmap_update data Demo.an_instant nan) "crowdCount" = Some (VNum nan).
Proof.
  apply (nan_intensity_update (H := Demo.host) 0 Demo.an_instant Echo.two_viewers_nan).
  - reflexivity.
  - reflexivity.
Defined.

Lemma update_data_shape_witness :
  exists n : nat,
    (n <= 67)%nat /\
    update_message 67 Demo.an_instant Demo.two_viewers =
    Return
      (heatmap_update
         (varied_points baseHeatmapData (draws (advanced Demo.two_viewers) + 3 * n)
            ++ (SOMNATH_TEMPLE_lat, SOMNATH_TEMPLE_lng,
                somnathCrowdIntensity (advanced Demo.two_viewers))
            :: satellites (somnathCrowdIntensity (advanced Demo.two_viewers))
                 (draws (advanced Demo.two_viewers)) n)
         Demo.an_instant (somnathCrowdIntensity (advanced Demo.two_viewers)))
      (set_draws (draws (advanced Demo.two_viewers) + 3 * n + 9)
         (advanced Demo.two_viewers)).
Proof.
  apply (update_data_shape (H := Demo.host) demo_host_sane demo_draws_binary64
           67 Demo.an_instant Demo.two_viewers).
  - exact two_viewers_steady.
  - lia.
Defined.

Lemma base_points_varied_witness :
  exists i : number,
    vary (pt 230225 725714 7) Demo.two_viewers =
      Return (fst (pt 230225 725714 7), i)
             (set_draws (S (draws Demo.two_viewers)) Demo.two_viewers) /\
    i = add (snd (pt 230225 725714 7))
            (mul (sub (Math_random (draws Demo.two_viewers)) (decimal 5 1))
                 (decimal 1 1)) /\
    le (decimal 4 1) i = true /\ le i (decimal 8 1) = true.
Proof.
  apply (base_points_varied (H := Demo.host) demo_host_sane demo_draws_binary64
           (pt 230225 725714 7) Demo.two_viewers).
  left. reflexivity.
Defined.

Lemma crowd_count_range_witness :
  exists z : Z,
    (0 <= z <= 1000)%Z /\
    Get (heatmap_update [] Demo.an_instant (decimal 5 1)) "crowdCount" =
      Some (VNum (of_Z z)) /\
    (inject_Z z - 1 < 1000 * to_Q (decimal 5 1) < inject_Z z + 1)%Q.
Proof.
  apply (crowd_count_range (H := Demo.host) (decimal 5 1) [] Demo.an_instant);
    reflexivity.
Defined.

Lemma active_tick_resets_intensity_witness :
  tick 67 Demo.an_instant (set_somnathCrowdIntensity nan Demo.two_viewers) =
    tick 67 Demo.an_instant Demo.two_viewers /\
  exists s', tick 67 Demo.an_instant Demo.two_viewers = Return tt s' /\
    le (decimal 3 1) (somnathCrowdIntensity s') = true /\
    le (somnathCrowdIntensity s') (of_Z 1) = true.
Proof.
  apply (active_tick_resets_intensity (H := Demo.host) demo_host_sane
           demo_draws_binary64 67 Demo.an_instant Demo.two_viewers nan).
  - exact two_viewers_steady.
  - lia.
  - discriminate.
  - reflexivity.
Defined.

Lemma update_counter_witness :
  exists s', tick 67 Demo.an_instant Demo.two_viewers = Return tt s' /\
    updateCount s' =
    if Nat.ltb 0 (length (clients Demo.two_viewers))
       && ToBoolean (crowdGatheringActive Demo.two_viewers)
    then of_Z (0 + 1) else of_Z 0.
Proof.
  apply (update_counter (H := Demo.host) demo_host_sane 67 Demo.an_instant
           Demo.two_viewers 0).
  - exact two_viewers_steady.
  - lia.
  - reflexivity.
  - lia.
  - reflexivity.
Defined.

Lemma new_viewer_gets_full_update_witness :
  let ws := fresh (dom (sockets Demo.two_viewers)) in
  exists (n : nat) (s' : server),
    dispatch 67 Connection Demo.two_viewers = Return tt s' /\
    (forall c, c ∈ clients s' <-> c = ws \/ c ∈ clients Demo.two_viewers) /\
    sockets s' !! ws =
      Some (mkSocket OPEN
              [JSON_stringify
                 (full_update
                    (baseHeatmapData ++
                       (SOMNATH_TEMPLE_lat, SOMNATH_TEMPLE_lng,
                        somnathCrowdIntensity Demo.two_viewers)
                       :: satellites (somnathCrowdIntensity Demo.two_viewers)
                            (draws Demo.two_viewers) n)
                    "Initial heatmap data - Somnath Temple crowd intensity: "
                    (somnathCrowdIntensity Demo.two_viewers))]) /\
    (forall c, c <> ws -> sockets s' !! c = sockets Demo.two_viewers !! c) /\
    same_variables Demo.two_viewers (set_clients (clients Demo.two_viewers) s').
Proof.
  apply (new_viewer_gets_full_update (H := Demo.host) 67 Demo.two_viewers).
  - exact two_viewers_steady.
  - lia.
Defined.

Lemma departed_viewer_gets_nothing_witness :
  exists s1 s2,
    dispatch 67 (Close 0) Demo.two_viewers = Return tt s1 /\
    (forall c, c ∈ clients s1 <-> c <> 0%nat /\ c ∈ clients Demo.two_viewers) /\
    sent <$> (sockets s1 !! 0%nat) = sent <$> (sockets Demo.two_viewers !! 0%nat) /\
    dispatch 67 (Interval Demo.an_instant) s1 = Return tt s2 /\
    sockets s2 !! 0%nat = sockets s1 !! 0%nat.
Proof.
  apply (departed_viewer_gets_nothing (H := Demo.host) demo_host_sane 67 0
           (Close 0) Demo.an_instant Demo.two_viewers).
  - exact two_viewers_steady.
  - lia.
  - left. reflexivity.
Defined.

Lemma toggle_stores_raw_value_witness :
  exists s',
    incoming 0 0 (Demo.stringify Demo.toggle_off) Demo.two_viewers = Return tt s' /\
    crowdGatheringActive s' = field Demo.toggle_off "active" /\
    somnathCrowdIntensity s' = somnathCrowdIntensity Demo.two_viewers /\
    updateCount s' = updateCount Demo.two_viewers /\
    clients s' = clients Demo.two_viewers /\
    sockets s' = sockets Demo.two_viewers /\
    console s' = console Demo.two_viewers ++
      [mkEntry Log "Received:" [Demo.toggle_off];
       mkEntry Log "Crowd gathering:"
         [VStr (if ToBoolean (field Demo.toggle_off "active")
                then "ACTIVE" else "PAUSED")]].
Proof.
  apply (toggle_stores_raw_value (H := Demo.host) 0 0
           (Demo.stringify Demo.toggle_off) Demo.toggle_off Demo.two_viewers).
  - vm_compute. reflexivity.
  - reflexivity.
Defined.

Lemma unreadable_message_changes_nothing_witness :
  exists s',
    incoming 0 0 "{" Demo.two_viewers = Return tt s' /\
    same_variables Demo.two_viewers s' /\
    sockets s' = sockets Demo.two_viewers /\ draws s' = draws Demo.two_viewers /\
    exists lines, console s' = console Demo.two_viewers ++ lines /\
      In (mkEntry Error "Error parsing message:" []) lines.
Proof.
  apply (unreadable_message_changes_nothing (H := Demo.host) 0 0 "{"
           Demo.two_viewers).
  left. vm_compute. reflexivity.
Defined.

Lemma unknown_type_only_logged_witness :
  incoming 0 0 (Demo.stringify Demo.a_status) Demo.two_viewers =
  Return tt (logged Demo.two_viewers [mkEntry Log "Received:" [Demo.a_status]]).
Proof.
  apply (unknown_type_only_logged (H := Demo.host) 0 0
           (Demo.stringify Demo.a_status) Demo.a_status VUndefined Demo.two_viewers).
  - vm_compute. reflexivity.
  - reflexivity.
  - discriminate.
  - discriminate.
  - discriminate.
Defined.

Lemma producer_never_stops_witness :
  exists s,
    run 67 [Connection; Interval Demo.an_instant; Close 0] boot = Some s /\
    steady s /\
    exists s', dispatch 67 (Interval Demo.an_instant) s = Return tt s' /\ steady s'.
Proof.
  apply (producer_never_stops (H := Demo.host) demo_host_sane 67
           [Connection; Interval Demo.an_instant; Close 0]
           (Interval Demo.an_instant)).
  lia.
Defined.

End ProducerExamples.

Module StartupFacts.
Import EffFacts NumberFacts ValueFacts MapJs Startup.

Section Counting.
Local Open Scope Z_scope.

(** Comparing two counters. *)
Lemma lt_of_Z a b :
  Z.abs a < 2 ^ 53 -> Z.abs b < 2 ^ 53 ->
  lt (of_Z a) (of_Z b) = (a <? b).
Proof.
  intros Ha Hb.
  destruct (of_Z_exact a Ha) as [Fa Va]. destruct (of_Z_exact b Hb) as [Fb Vb].
  destruct (Z.ltb_spec a b) as [Hlt|Hge].
  - apply lt_value; auto. rewrite Va, Vb. rewrite <- Zlt_Qlt. exact Hlt.
  - apply lt_false_value; auto. rewrite Va, Vb. rewrite <- Zle_Qle. exact Hge.
Qed.

Lemma le_of_Z a b :
  Z.abs a < 2 ^ 53 -> Z.abs b < 2 ^ 53 ->
  le (of_Z a) (of_Z b) = (a <=? b).
Proof.
  intros Ha Hb.
  destruct (of_Z_exact a Ha) as [Fa Va]. destruct (of_Z_exact b Hb) as [Fb Vb].
  destruct (Z.leb_spec a b) as [Hle|Hgt].
  - apply le_value; auto. rewrite Va, Vb. rewrite <- Zle_Qle. exact Hle.
  - destruct (le (of_Z a) (of_Z b)) eqn:E; [|reflexivity]. exfalso.
    apply (le_value _ _ Fa Fb) in E. rewrite Va, Vb in E.
    rewrite <- Zle_Qle in E. lia.
Qed.

End Counting.

Section Leaflet.
Context `{Host}.
Variable callback : M loader unit.
Variable n : Z.
Hypothesis Hn : (1 <= n < 2 ^ 53)%Z.

(** The state after [j] checks that did not find [L], for [j] below the
    limit [n]: one timeout is pending. *)
Lemma check_again (j : Z) (p : list nat) (c : list entry) :
  (0 <= j)%Z -> (j + 1 < n)%Z ->
  check false callback (mkLoader (of_Z j) (VNum (of_Z n)) p c) =
  Return tt (mkLoader (of_Z (j + 1)) (VNum (of_Z n)) (p ++ [100%nat]) c).
Proof.
  intros Hj Hlt. unfold check. run.
  cbn [attempts maxAttempts pending lines set_attempts set_pending set_lines ToNumber].
  rewrite (add_of_Z j 1) by lia.
  rewrite (lt_of_Z (j + 1) n) by lia.
  destruct (Z.ltb_spec (j + 1) n); [reflexivity|lia].
Qed.

Lemma check_gives_up (j : Z) (p : list nat) (c : list entry) :
  (0 <= j)%Z -> (j + 1 = n)%Z ->
  check false callback (mkLoader (of_Z j) (VNum (of_Z n)) p c) =
  Return tt
    (mkLoader (of_Z n) (VNum (of_Z n)) p
       (c ++ [mkEntry Error
                (String.append "Leaflet failed to load after "
                   (String.append (NumberToString (of_Z n)) " attempts")) []])).
Proof.
  intros Hj He. unfold check, say. run.
  cbn [attempts maxAttempts pending lines set_attempts set_pending set_lines ToNumber ToString].
  rewrite (add_of_Z j 1) by lia. rewrite He.
  rewrite (lt_of_Z n n) by lia. rewrite Z.ltb_irrefl. reflexivity.
Qed.

Lemma check_found (j : Z) (p : list nat) (c : list entry) :
  (0 <= j)%Z -> (j + 1 <= n)%Z ->
  check true callback (mkLoader (of_Z j) (VNum (of_Z n)) p c) =
  callback (mkLoader (of_Z (j + 1)) (VNum (of_Z n)) p
              (c ++ [mkEntry Log "Leaflet loaded!" []])).
Proof.
  intros Hj Hle. unfold check, say. run.
  cbn [attempts maxAttempts pending lines set_attempts set_pending set_lines].
  rewrite (add_of_Z j 1) by lia.
  destruct (callback _) as [[] s| |]; reflexivity.
Qed.

(** [m] timeouts in a row that do not find [L], the limit not being
    reached. *)
Lemma polling_again (m : nat) :
  forall (j : Z) (c : list entry) (later : list bool),
    (1 <= j)%Z -> (j + Z.of_nat m < n)%Z ->
    polling (repeat false m ++ later) callback
      (mkLoader (of_Z j) (VNum (of_Z n)) [100%nat] c) =
    polling later callback
      (mkLoader (of_Z (j + Z.of_nat m)) (VNum (of_Z n)) [100%nat] c).
Proof.
  induction m as [|m IH]; intros j c later Hj Hlt.
  - cbn [repeat app]. rewrite Z.add_0_r. reflexivity.
  - cbn [repeat app polling]. unfold bind at 1. unfold timeout_fires at 1.
    unfold bind at 1. unfold get_state at 1. cbn [pending].
    unfold bind at 1. unfold modify at 1. unfold set_pending.
    cbn [attempts maxAttempts pending lines].
    rewrite (check_again j [] c) by lia. cbn [app].
    rewrite IH by lia. do 3 f_equal. lia.
Qed.

Lemma polling_idle (later : list bool) (s : loader) :
  pending s = [] -> polling later callback s = Return tt s.
Proof.
  intros Hp. induction later as [|l later IH]; [reflexivity|].
  cbn [polling]. unfold bind at 1. unfold timeout_fires. run. rewrite Hp. exact IH.
Qed.

Lemma then_ret (m : M loader unit) (s : loader) : (m ;; ret tt) s = m s.
Proof. unfold bind, ret. destruct (m s) as [[] s'| |]; reflexivity. Qed.

(** X15: [waitForLeaflet] with limit n (50 when the argument is
    missing or falsy): if [L] is undefined at the first k checks, k < n,
    and defined at the next, the callback runs after the line
    [Leaflet loaded!], with k + 1 attempts counted and no timeout left
    pending. *)
Theorem leaflet_found (limit : value) (k : nat) (s : loader) :
  (if ToBoolean limit then limit else VNum (of_Z 50)) = VNum (of_Z n) ->
  (Z.of_nat k < n)%Z -> pending s = [] ->
  waiting callback limit (repeat false k ++ [true]) s =
  callback (mkLoader (of_Z (Z.of_nat k + 1)) (VNum (of_Z n)) []
              (lines s ++ [mkEntry Log "Leaflet loaded!" []])).
Proof.
  intros He Hk Hp. destruct s as [a0 m0 p0 c]. cbn [pending lines] in *. subst p0.
  destruct k as [|k].
  - cbn [repeat app waiting polling]. rewrite then_ret.
    unfold waitForLeaflet. unfold bind at 1. unfold modify at 1.
    unfold bind at 1. unfold modify at 1. unfold set_maxAttempts, set_attempts.
    cbn [attempts maxAttempts pending lines]. rewrite He.
    change pos_zero with (of_Z 0). rewrite check_found by lia. reflexivity.
  - cbn [repeat app waiting]. unfold bind at 1.
    unfold waitForLeaflet. unfold bind at 1. unfold modify at 1.
    unfold bind at 1. unfold modify at 1. unfold set_maxAttempts, set_attempts.
    cbn [attempts maxAttempts pending lines]. rewrite He.
    change pos_zero with (of_Z 0). rewrite check_again by lia. cbn [app]. change (0 + 1)%Z with 1%Z.
    rewrite (polling_again k 1 c [true]) by lia.
    cbn [polling]. rewrite then_ret.
    unfold timeout_fires, bind at 1, get_state. cbn [pending].
    unfold bind at 1, modify, set_pending. cbn [attempts maxAttempts pending lines].
    rewrite check_found by lia. do 2 f_equal. f_equal. lia.
Qed.

(** X16: if [L] is undefined at the first n checks, the error line
    with the limit is logged at the n-th, no timeout is left pending and
    the callback does not run, whether or not [L] is defined later. *)
Theorem leaflet_never_found (limit : value) (later : list bool) (s : loader) :
  (if ToBoolean limit then limit else VNum (of_Z 50)) = VNum (of_Z n) ->
  pending s = [] ->
  waiting callback limit (repeat false (Z.to_nat n) ++ later) s =
  Return tt
    (mkLoader (of_Z n) (VNum (of_Z n)) []
       (lines s ++
          [mkEntry Error
             (String.append "Leaflet failed to load after "
                (String.append (NumberToString (of_Z n)) " attempts")) []])).
Proof.
  intros He Hp. destruct s as [a0 m0 p0 c]. cbn [pending lines] in *. subst p0.
  destruct (Z.to_nat n) as [|k] eqn:Ek; [lia|].
  cbn [repeat app waiting]. unfold bind at 1.
  unfold waitForLeaflet. unfold bind at 1. unfold modify at 1.
  unfold bind at 1. unfold modify at 1. unfold set_maxAttempts, set_attempts.
  cbn [attempts maxAttempts pending lines]. rewrite He.
  change pos_zero with (of_Z 0).
  destruct k as [|k].
  - rewrite check_gives_up by lia. cbn [repeat app]. apply polling_idle. reflexivity.
  - rewrite check_again by lia. cbn [app]. change (0 + 1)%Z with 1%Z.
    replace (S k) with (k + 1)%nat by lia. rewrite repeat_app, <- app_assoc.
    rewrite (polling_again k 1 c) by lia.
    cbn [repeat app polling]. unfold bind at 1.
    unfold timeout_fires, bind at 1, get_state. cbn [pending].
    unfold bind at 1, modify, set_pending. cbn [attempts maxAttempts pending lines].
    rewrite check_gives_up by lia. apply polling_idle. reflexivity.
Qed.

End Leaflet.
End StartupFacts.

Module HeatmapStart.
Import EffFacts NumberFacts ValueFacts MapJs Startup StartupFacts.

Section Retry.
Context `{Host}.

Lemma addGujaratHeatmap_absent w : addGujaratHeatmap false w = Return false w.
Proof. reflexivity. Qed.

(** With the library loaded [addGujaratHeatmap] returns [true], the
    layer showing the fallback set. *)
Lemma addGujaratHeatmap_loaded w :
  exists w', addGujaratHeatmap true w = Return true w' /\
             heatmapLayer w' = Some fallbackStaticData.
Proof.
  unfold addGujaratHeatmap, connectWebSocket, new_WebSocket, print,
    useFallbackData, setLatLngs. run.
  destruct (heatmapLayer w) as [old|] eqn:El; simpl; rewrite ?El; simpl;
    destruct (WebSocket_accepts _); simpl; rewrite ?El; simpl;
    eexists; split; reflexivity.
Qed.

Lemma retry_again (j : Z) (w : window) :
  (0 <= j)%Z -> (j + 1 < 20)%Z ->
  retry false (mkStartup w (of_Z j) true) = Return tt (mkStartup w (of_Z (j + 1)) true).
Proof.
  intros Hj Hlt. unfold retry, in_window. run.
  cbn [win retries retryInterval set_win set_retries set_retryInterval].
  rewrite addGujaratHeatmap_absent.
  cbn [win retries retryInterval set_win set_retries set_retryInterval].
  rewrite (add_of_Z j 1) by lia. rewrite (le_of_Z 20 (j + 1)) by lia.
  destruct (Z.leb_spec 20 (j + 1)); [lia|]. destruct w; reflexivity.
Qed.

Lemma retry_gives_up (w : window) :
  retry false (mkStartup w (of_Z 19) true) =
  Return tt
    (mkStartup (logged w [mkEntry Error "Failed to load heatmap library after"
                            [VNum (of_Z 20); VStr "attempts"]])
       (of_Z 20) false).
Proof.
  unfold retry, in_window. run.
  cbn [win retries retryInterval set_win set_retries set_retryInterval].
  rewrite addGujaratHeatmap_absent.
  cbn [win retries retryInterval set_win set_retries set_retryInterval].
  rewrite (add_of_Z 19 1) by lia. change (19 + 1)%Z with 20%Z.
  rewrite (le_of_Z 20 20) by lia. cbn [Z.leb Z.compare Pos.compare Pos.compare_cont orb].
  reflexivity.
Qed.

Lemma retry_adds (j : Z) (w w' : window) :
  (0 <= j)%Z -> (j + 1 <= 20)%Z ->
  addGujaratHeatmap true w = Return true w' ->
  retry true (mkStartup w (of_Z j) true) =
  Return tt
    (mkStartup
       (if (j + 1 =? 20)%Z
        then logged w' [mkEntry Error "Failed to load heatmap library after"
                          [VNum (of_Z 20); VStr "attempts"]]
        else w')
       (of_Z (j + 1)) false).
Proof.
  intros Hj Hle E. unfold retry, in_window. run.
  cbn [win retries retryInterval set_win set_retries set_retryInterval].
  rewrite E.
  cbn [win retries retryInterval set_win set_retries set_retryInterval orb].
  rewrite (add_of_Z j 1) by lia. rewrite (le_of_Z 20 (j + 1)) by lia.
  destruct (Z.leb_spec 20 (j + 1)) as [Hl|Hl]; destruct (Z.eqb_spec (j + 1) 20); try lia;
    reflexivity.
Qed.

Lemma retrying_idle (later : list bool) (s : startup) :
  retryInterval s = false -> retrying later s = Return tt s.
Proof.
  intros Hp. induction later as [|l later IH]; [reflexivity|].
  cbn [retrying]. unfold bind at 1. unfold interval_fires. run. rewrite Hp. exact IH.
Qed.

Lemma retrying_again (m : nat) :
  forall (j : Z) (w : window) (later : list bool),
    (0 <= j)%Z -> (j + Z.of_nat m < 20)%Z ->
    retrying (repeat false m ++ later) (mkStartup w (of_Z j) true) =
    retrying later (mkStartup w (of_Z (j + Z.of_nat m)) true).
Proof.
  induction m as [|m IH]; intros j w later Hj Hlt.
  - cbn [repeat app]. rewrite Z.add_0_r. reflexivity.
  - cbn [repeat app retrying]. unfold bind at 1. unfold interval_fires at 1.
    unfold bind at 1. unfold get_state at 1. cbn [retryInterval].
    rewrite retry_again by lia. rewrite IH by lia. do 3 f_equal. lia.
Qed.

Lemma add_heatmap_soon_absent (s : startup) :
  add_heatmap_soon false s = Return tt (mkStartup (win s) (of_Z 0) true).
Proof.
  unfold add_heatmap_soon, in_window. run. rewrite addGujaratHeatmap_absent.
  destruct s as [w r i]. destruct w. reflexivity.
Qed.

(** X17: when the heat-layer library is missing at the first try and
    at the first k retries and present at retry k + 1 <= 20, that retry
    creates the layer, which shows the fallback data, and clears the
    interval; if it is the twentieth, the line of the failure is logged
    all the same. *)
Theorem heatmap_added_on_retry (k : nat) (later : list bool) (s : startup) :
  (k < 20)%nat ->
  exists w',
    addGujaratHeatmap true (win s) = Return true w' /\
    heatmapLayer w' = Some fallbackStaticData /\
    starting (repeat false (S k) ++ true :: later) s =
    Return tt
      (mkStartup
         (if Nat.eqb k 19
          then logged w' [mkEntry Error "Failed to load heatmap library after"
                            [VNum (of_Z 20); VStr "attempts"]]
          else w')
         (of_Z (Z.of_nat k + 1)) false).
Proof.
  intros Hk. destruct (addGujaratHeatmap_loaded (win s)) as (w' & E & Hl).
  exists w'. split; [exact E|]. split; [exact Hl|].
  cbn [repeat app starting]. unfold bind at 1. rewrite add_heatmap_soon_absent.
  rewrite (retrying_again k 0 (win s) (true :: later)) by lia.
  cbn [retrying]. unfold bind at 1. unfold interval_fires at 1.
  unfold bind at 1. unfold get_state at 1. cbn [retryInterval].
  rewrite (retry_adds (0 + Z.of_nat k) (win s) w') by (auto; lia).
  rewrite retrying_idle by reflexivity.
  replace (0 + Z.of_nat k + 1 =? 20)%Z with (Nat.eqb k 19).
  - replace (0 + Z.of_nat k + 1)%Z with (Z.of_nat k + 1)%Z by lia. reflexivity.
  - destruct (Nat.eqb_spec k 19), (Z.eqb_spec (0 + Z.of_nat k + 1) 20); try reflexivity; lia.
Qed.

(** X18: when the library is missing at the first try and at twenty
    retries, the line of the failure is logged, the interval is cleared
    and the page is otherwise as it was: no layer is created and no
    socket, even if the library loads later. *)
Theorem heatmap_given_up (later : list bool) (s : startup) :
  starting (repeat false 21 ++ later) s =
  Return tt
    (mkStartup
       (logged (win s) [mkEntry Error "Failed to load heatmap library after"
                          [VNum (of_Z 20); VStr "attempts"]])
       (of_Z 20) false).
Proof.
  change (repeat false 21) with (false :: repeat false 19 ++ [false]).
  cbn [app starting]. unfold bind at 1. rewrite add_heatmap_soon_absent.
  rewrite <- app_assoc. rewrite (retrying_again 19 0 (win s)) by lia.
  cbn [app retrying]. unfold bind at 1. unfold interval_fires at 1.
  unfold bind at 1. unfold get_state at 1. cbn [retryInterval].
  change (0 + Z.of_nat 19)%Z with 19%Z. rewrite retry_gives_up.
  apply retrying_idle. reflexivity.
Qed.

End Retry.
End HeatmapStart.

Module PageTheorems.
Import EffFacts MapJs ConsumerFacts Startup.

Section Page.
Context `{Host}.

(** What the handler does with a message that parses: it hands the
    message or its [data] to [updateHeatmapData], or it only logs. *)
Lemma onmessage_cases (ws : nat) (data : string) (message : value) (w : window) :
  JSON_parse data = Some message ->
  (exists d, (d = message \/ Get message "data" = Some d) /\
             onmessage ws data w = updateHeatmapData d w) \/
  (exists entries, onmessage ws data w = Return tt (logged w entries)).
Proof.
  intros Hp. rewrite (onmessage_parsed ws data message w Hp).
  destruct (Get message "type") as [t|] eqn:Et; [|right; eexists; reflexivity].
  pose proof (readable_fields message t Et "data") as Ed.
  destruct (_ && _); [left; eexists; split; [right; exact Ed|reflexivity]|].
  destruct (Array_isArray message); [left; eexists; split; [left|]; reflexivity|].
  destruct (Array_isArray _); [left; eexists; split; [right; exact Ed|reflexivity]|].
  right. eexists. reflexivity.
Qed.

Lemma step_failed ws w :
  step (Failed ws) w =
  match heatmapLayer w with
  | Some _ =>
      logged (set_heatmapLayer (Some fallbackStaticData)
                (logged w [mkEntry Error "WebSocket error:" []]))
        [mkEntry Log "Using fallback static data with"
           [VNum (of_Z (Z.of_nat (length fallbackStaticData))); VStr "data points"]]
  | None => logged w [mkEntry Error "WebSocket error:" []]
  end.
Proof.
  unfold step, dispatch, onerror, print, useFallbackData, setLatLngs. run.
  cbn [heatmapLayer set_console]. destruct (heatmapLayer w); reflexivity.
Qed.

(** X19: where the points of the overlay come from: an open event or
    an assignment of the flag never changes them; an error or a close
    shows the fallback set if the layer exists; a timeout leaves them,
    or shows the fallback set when the URL is refused; a message leaves
    them, or replaces them by an array that is the parsed message itself
    or its [data]. *)
Theorem overlay_sources (e : event) (w : window) :
  match e with
  | Message ws data =>
      heatmapLayer (step e w) = heatmapLayer w \/
      exists message points,
        has_layer w /\ JSON_parse data = Some message /\
        (message = VArr points \/ Get message "data" = Some (VArr points)) /\
        heatmapLayer (step e w) = Some points
  | Failed _ | Closed _ _ _ =>
      heatmapLayer (step e w) =
        match heatmapLayer w with
        | Some _ => Some fallbackStaticData
        | None => None
        end
  | Timeout n =>
      heatmapLayer (step e w) = heatmapLayer w \/
      has_layer w /\ WebSocket_accepts (wsUrl w) = false /\
      heatmapLayer (step e w) = Some fallbackStaticData
  | Opened _ | Assign_wsReconnectDisabled _ =>
      heatmapLayer (step e w) = heatmapLayer w
  end.
Proof.
  destruct e as [ws|ws data|ws|ws code reason|n|v].
  - unfold step, dispatch, set_readyState, onopen, print, send. run.
    destruct (sockets w !! ws) as [sock|] eqn:Es; cbn; rewrite ?lookup_insert_eq, ?Es;
      reflexivity.
  - unfold step, dispatch.
    destruct (JSON_parse data) as [message|] eqn:Hp.
    + destruct (onmessage_cases ws data message w Hp)
        as [(d & Hd & ->)|(entries & ->)]; [|left; reflexivity].
      unfold updateHeatmapData, setLatLngs, print. run.
      destruct (heatmapLayer w) as [old|] eqn:El; [|left; cbn; congruence].
      destruct d as [| | | | |points|]; try (left; cbn; congruence).
      right. exists message, points. split; [unfold has_layer; rewrite El; eauto|].
      split; [reflexivity|]. split; [|reflexivity].
      destruct Hd as [<-|Hd]; [left; reflexivity|right; exact Hd].
    + left. unfold onmessage, print. run. rewrite Hp. reflexivity.
  - rewrite step_failed. destruct (heatmapLayer w) eqn:El; cbn; congruence.
  - unfold step, dispatch, set_readyState, onclose, print, useFallbackData,
      setLatLngs, setTimeout. run.
    destruct (sockets w !! ws); cbn; destruct (heatmapLayer w) eqn:El; cbn; congruence.
  - unfold step, dispatch. run.
    destruct (timers w !! n) as [[d []]|]; [|left; reflexivity].
    unfold run_callback, action. run. cbn [wsReconnectDisabled set_timers].
    destruct (negb _); [|left; reflexivity].
    unfold connectWebSocket, new_WebSocket, print, useFallbackData, setLatLngs. run.
    cbn. destruct (WebSocket_accepts (wsUrl w)) eqn:Ea.
    + left. unfold wsUrl in *. cbn in Ea |- *. rewrite Ea. reflexivity.
    + unfold wsUrl in *. cbn in Ea |- *. rewrite Ea. cbn.
      destruct (heatmapLayer w) eqn:El; [right|left; cbn; congruence].
      split; [unfold has_layer; rewrite El; eauto|]. split; reflexivity.
  - reflexivity.
Qed.

Lemma take_drop_beyond {A} (n : nat) (l : list A) :
  l !! n = None -> take n l ++ drop (S n) l = l.
Proof.
  intros Hn. apply lookup_ge_None in Hn.
  rewrite take_ge by lia. rewrite drop_ge by lia. apply app_nil_r.
Qed.

(** X20: the pending timeouts: a close adds one of 5000 ms at the
    end, a timeout that fires is removed, and no other event adds or
    removes one. *)
Theorem timers_account (e : event) (w : window) :
  timers (step e w) =
  match e with
  | Closed _ _ _ => timers w ++ [mkTimer 5000 retry_connection]
  | Timeout n => take n (timers w) ++ drop (S n) (timers w)
  | _ => timers w
  end.
Proof.
  destruct e as [ws|ws data|ws|ws code reason|n|v].
  - unfold step, dispatch, set_readyState, onopen, print, send. run.
    destruct (sockets w !! ws) as [sock|] eqn:Es; cbn; rewrite ?lookup_insert_eq, ?Es;
      reflexivity.
  - unfold step, dispatch.
    destruct (JSON_parse data) as [message|] eqn:Hp.
    + destruct (onmessage_cases ws data message w Hp)
        as [(d & _ & ->)|(entries & ->)]; [|reflexivity].
      unfold updateHeatmapData, setLatLngs, print. run.
      destruct (heatmapLayer w); [destruct d|]; reflexivity.
    + unfold onmessage, print. run. rewrite Hp. reflexivity.
  - rewrite step_failed. destruct (heatmapLayer w); reflexivity.
  - unfold step, dispatch, set_readyState, onclose, print, useFallbackData,
      setLatLngs, setTimeout. run.
    destruct (sockets w !! ws); cbn; destruct (heatmapLayer w); reflexivity.
  - unfold step, dispatch. run.
    destruct (timers w !! n) as [[d []]|] eqn:Et;
      [|symmetry; apply take_drop_beyond, Et].
    unfold run_callback, action. run. cbn [wsReconnectDisabled set_timers].
    destruct (negb _); [|reflexivity].
    unfold connectWebSocket, new_WebSocket, print, useFallbackData, setLatLngs. run.
    cbn. unfold wsUrl. cbn. destruct (WebSocket_accepts _); cbn;
      [reflexivity|]. destruct (heatmapLayer w); reflexivity.
  - reflexivity.
Qed.

(** X21: the sockets: one is created, connecting, and becomes the
    current one exactly when a pending timeout fires while
    [wsReconnectDisabled] is falsy and the browser accepts the URL;
    every other event keeps the set of sockets and the current one. *)
Theorem sockets_account (e : event) (w : window) :
  match e with
  | Timeout n =>
      if bool_decide (is_Some (timers w !! n))
         && negb (ToBoolean (wsReconnectDisabled w))
         && WebSocket_accepts (wsUrl w)
      then
        sockets (step e w) =
          <[fresh (dom (sockets w)) := mkWebSocket (wsUrl w) CONNECTING []]>
            (sockets w) /\
        heatmapWebSocket (step e w) = Some (fresh (dom (sockets w)))
      else
        sockets (step e w) = sockets w /\
        heatmapWebSocket (step e w) = heatmapWebSocket w
  | _ =>
      dom (sockets (step e w)) = dom (sockets w) /\
      heatmapWebSocket (step e w) = heatmapWebSocket w
  end.
Proof.
  destruct e as [ws|ws data|ws|ws code reason|n|v].
  - unfold step, dispatch, set_readyState, onopen, print, send. run.
    destruct (sockets w !! ws) as [sock|] eqn:Es; cbn; rewrite ?lookup_insert_eq, ?Es;
      cbn; [|split; reflexivity].
    rewrite insert_insert_eq. split; [|reflexivity].
    apply dom_insert_lookup_L. rewrite Es. eauto.
  - unfold step, dispatch.
    destruct (JSON_parse data) as [message|] eqn:Hp.
    + destruct (onmessage_cases ws data message w Hp)
        as [(d & _ & ->)|(entries & ->)]; [|split; reflexivity].
      unfold updateHeatmapData, setLatLngs, print. run.
      destruct (heatmapLayer w); [destruct d|]; split; reflexivity.
    + unfold onmessage, print. run. rewrite Hp. split; reflexivity.
  - rewrite step_failed. destruct (heatmapLayer w); split; reflexivity.
  - unfold step, dispatch, set_readyState, onclose, print, useFallbackData,
      setLatLngs, setTimeout. run.
    destruct (sockets w !! ws) as [sock|] eqn:Es; cbn;
      destruct (heatmapLayer w); cbn; (split; [|reflexivity]);
      try reflexivity; apply dom_insert_lookup_L; rewrite Es; eauto.
  - unfold step, dispatch. run.
    destruct (timers w !! n) as [[d []]|] eqn:Et.
    + rewrite bool_decide_eq_true_2 by eauto. cbn [andb].
      unfold run_callback, action. run. cbn [wsReconnectDisabled set_timers].
      destruct (negb _); cbn [andb]; [|split; reflexivity].
      unfold connectWebSocket, new_WebSocket, print, useFallbackData, setLatLngs. run.
      cbn. unfold wsUrl. cbn. destruct (WebSocket_accepts _); cbn;
        [split; reflexivity|]. destruct (heatmapLayer w); split; reflexivity.
    + rewrite bool_decide_eq_false_2 by (intros [? ?]; discriminate).
      split; reflexivity.
  - split; reflexivity.
Qed.

Lemma quiet_step (e : event) (w : window) :
  (forall ws code reason, e <> Closed ws code reason) -> timers w = [] ->
  timers (step e w) = [] /\ dom (sockets (step e w)) = dom (sockets w) /\
  heatmapWebSocket (step e w) = heatmapWebSocket w.
Proof.
  intros Hne Ht.
  destruct e as [ws|ws data|ws|ws code reason|n|v].
  - unfold step, dispatch, set_readyState, onopen, print, send. run.
    destruct (sockets w !! ws) as [sock|] eqn:Es; cbn; rewrite ?lookup_insert_eq, ?Es;
      cbn; [|auto].
    rewrite insert_insert_eq. split; [exact Ht|]. split; [|reflexivity].
    apply dom_insert_lookup_L. rewrite Es. eauto.
  - unfold step, dispatch.
    destruct (JSON_parse data) as [message|] eqn:Hp.
    + destruct (onmessage_cases ws data message w Hp)
        as [(d & _ & ->)|(entries & ->)]; [|auto].
      unfold updateHeatmapData, setLatLngs, print. run.
      destruct (heatmapLayer w); [destruct d|]; auto.
    + unfold onmessage, print. run. rewrite Hp. auto.
  - rewrite step_failed. destruct (heatmapLayer w); auto.
  - exfalso. eapply Hne. reflexivity.
  - unfold step, dispatch. run. rewrite Ht, lookup_nil. auto.
  - auto.
Qed.

(** X22: only a close starts a reconnection: with no timeout
    pending, whatever opens, messages, errors, timeouts and assignments
    of the flag follow, no timeout is scheduled and no socket is
    created. *)
Theorem only_close_starts_reconnection (events : list event) (w : window) :
  timers w = [] ->
  Forall (fun e => forall ws code reason, e <> Closed ws code reason) events ->
  timers (steps events w) = [] /\
  dom (sockets (steps events w)) = dom (sockets w) /\
  heatmapWebSocket (steps events w) = heatmapWebSocket w.
Proof.
  intros Ht Hall. revert w Ht.
  induction Hall as [|e events He _ IH]; intros w Ht; [auto|].
  cbn [steps fold_left]. destruct (quiet_step e w He Ht) as (Ht' & Hd & Hw).
  destruct (IH _ Ht') as (E1 & E2 & E3). unfold steps in *.
  rewrite E2, E3. auto.
Qed.

(** X23: when the retry runs and the browser refuses the URL, the
    overlay shows the fallback set, the timeout is gone, no socket is
    created and nothing is scheduled: the retries end there. *)
Theorem refused_retry_shows_fallback (n : nat) (t : timer) (old : list value)
    (w : window) :
  timers w !! n = Some t ->
  ToBoolean (wsReconnectDisabled w) = false ->
  WebSocket_accepts (wsUrl w) = false ->
  heatmapLayer w = Some old ->
  exists w',
    dispatch (Timeout n) w = Return tt w' /\
    heatmapLayer w' = Some fallbackStaticData /\
    timers w' = take n (timers w) ++ drop (S n) (timers w) /\
    sockets w' = sockets w /\ heatmapWebSocket w' = heatmapWebSocket w.
Proof.
  intros Ht Hd Ha Hl. unfold dispatch. run. rewrite Ht. destruct t as [d []].
  unfold run_callback, action. run. cbn [wsReconnectDisabled set_timers]. rewrite Hd.
  cbn [negb].
  unfold connectWebSocket, new_WebSocket, print, useFallbackData, setLatLngs. run.
  unfold wsUrl in *. cbn in Ha |- *. rewrite Ha. cbn. rewrite Hl. cbn.
  eexists. split; [reflexivity|]. cbn. repeat split.
Qed.

(** X24: the layer, once created, is never removed, whatever events
    follow. *)
Theorem layer_never_removed (events : list event) (w : window) :
  has_layer w -> has_layer (steps events w).
Proof.
  revert w. induction events as [|e events IH]; intros w Hw; [exact Hw|].
  cbn [steps fold_left]. apply IH, step_keeps_layer, Hw.
Qed.

End Page.
End PageTheorems.

(** ** The consumer at concrete inputs *)

Module ConsumerExamples.
Import MapJs Startup StartupFacts HeatmapStart PageTheorems.

#[local] Existing Instance Demo.host.

Lemma leaflet_found_witness :
  waiting (ret tt) VUndefined (repeat false 3 ++ [true]) Echo.loader_idle =
  ret tt (mkLoader (of_Z (Z.of_nat 3 + 1)) (VNum (of_Z 50)) []
            (lines Echo.loader_idle ++ [mkEntry Log "Leaflet loaded!" []])).
Proof.
  apply (leaflet_found (H := Demo.host) (ret tt) 50 ltac:(lia) VUndefined 3
           Echo.loader_idle).
  - reflexivity.
  - lia.
  - reflexivity.
Defined.

Lemma leaflet_never_found_witness :
  waiting (ret tt) VUndefined (repeat false (Z.to_nat 50) ++ [true])
    Echo.loader_idle =
  Return tt
    (mkLoader (of_Z 50) (VNum (of_Z 50)) []
       (lines Echo.loader_idle ++
          [mkEntry Error
             (String.append "Leaflet failed to load after "
                (String.append (NumberToString (of_Z 50)) " attempts")) []])).
Proof.
  apply (leaflet_never_found (H := Demo.host) (ret tt) 50 ltac:(lia) VUndefined
           [true] Echo.loader_idle).
  - reflexivity.
  - reflexivity.
Defined.

Lemma heatmap_added_on_retry_witness :
  exists w',
    addGujaratHeatmap true (win Echo.startup_idle) = Return true w' /\
    heatmapLayer w' = Some fallbackStaticData /\
    starting (repeat false (S 2) ++ true :: []) Echo.startup_idle =
    Return tt
      (mkStartup
         (if Nat.eqb 2 19
          then logged w' [mkEntry Error "Failed to load heatmap library after"
                            [VNum (of_Z 20); VStr "attempts"]]
          else w')
         (of_Z (Z.of_nat 2 + 1)) false).
Proof.
  apply (heatmap_added_on_retry (H := Demo.host) 2 [] Echo.startup_idle). lia.
Defined.

Lemma only_close_starts_reconnection_witness :
  timers (steps [Opened 0; Message 0 "{"; Failed 0; Timeout 0;
                 Assign_wsReconnectDisabled (VBool true)] Demo.window_open) = [] /\
  dom (sockets (steps [Opened 0; Message 0 "{"; Failed 0; Timeout 0;
                       Assign_wsReconnectDisabled (VBool true)] Demo.window_open)) =
    dom (sockets Demo.window_open) /\
  heatmapWebSocket (steps [Opened 0; Message 0 "{"; Failed 0; Timeout 0;
                           Assign_wsReconnectDisabled (VBool true)] Demo.window_open) =
    heatmapWebSocket Demo.window_open.
Proof.
  apply (only_close_starts_reconnection (H := Demo.host)
           [Opened 0; Message 0 "{"; Failed 0; Timeout 0;
            Assign_wsReconnectDisabled (VBool true)] Demo.window_open).
  - reflexivity.
  - repeat constructor; intros ws code reason; discriminate.
Defined.

Lemma layer_never_removed_witness :
  has_layer (steps [Closed 0 VUndefined VUndefined; Timeout 0; Opened 1;
                    Message 1 "{"; Failed 1] Demo.window_open).
Proof.
  apply (layer_never_removed (H := Demo.host)
           [Closed 0 VUndefined VUndefined; Timeout 0; Opened 1;
            Message 1 "{"; Failed 1] Demo.window_open).
  eexists. reflexivity.
Defined.

Lemma refused_retry_shows_fallback_witness :
  exists w',
    dispatch (Timeout 0) Echo.window_refused = Return tt w' /\
    heatmapLayer w' = Some fallbackStaticData /\
    timers w' = take 0 (timers Echo.window_refused)
                ++ drop 1 (timers Echo.window_refused) /\
    sockets w' = sockets Echo.window_refused /\
    heatmapWebSocket w' = heatmapWebSocket Echo.window_refused.
Proof.
  apply (refused_retry_shows_fallback (H := Demo.host) 0
           (mkTimer 5000 retry_connection) [] Echo.window_refused).
  - reflexivity.
  - reflexivity.
  - reflexivity.
  - reflexivity.
Defined.

End ConsumerExamples.


Module RelayTheorems.
Import EffFacts ConsumerFacts ServerFacts Startup.

Section Relay.
Context `{Host}.

(** X25: the consumer accepts the two messages of the producer: if
    [JSON.parse] gives back the object of a [heatmap_update] or of a
    [full_update] from its text, the overlay becomes exactly the points
    of the message, as triples in the same order; sockets and timers
    are untouched. *)
Theorem producer_update_is_displayed (points : list Server.point) (update : value)
    (ws : nat) (old : list value) (w : MapJs.window) :
  (exists now x, update = Server.heatmap_update points now x) \/
  (exists label x, update = Server.full_update points label x) ->
  JSON_parse (JSON_stringify update) = Some update ->
  MapJs.heatmapLayer w = Some old ->
  exists w',
    MapJs.dispatch (MapJs.Message ws (JSON_stringify update)) w = Return tt w' /\
    MapJs.heatmapLayer w' = Some (List.map Server.point_value points) /\
    MapJs.sockets w' = MapJs.sockets w /\ MapJs.timers w' = MapJs.timers w.
Proof.
  intros Hu Hp Hl. cbn [MapJs.dispatch].
  rewrite (onmessage_parsed ws _ update w Hp).
  assert (exists tag,
            Get update "type" = Some (VStr tag) /\
            (strict_eq_string (VStr tag) "heatmap_update"
             || strict_eq_string (VStr tag) "full_update") = true /\
            field update "data" = VArr (List.map Server.point_value points))
    as (tag & -> & -> & ->).
  { destruct Hu as [(now & x & ->)|(label & x & ->)]; eexists; repeat split. }
  cbn [ToBoolean andb].
  rewrite (updateHeatmapData_array _ old w Hl).
  eexists. split; [reflexivity|]. cbn. repeat split.
Qed.

(** X26: the request the page sends when its connection opens is one
    the producer answers: if [JSON.parse] reads its text back, the
    producer sends on that connection one [full_update] with the nine
    base points and the current cluster, and changes nothing else. *)
Theorem request_is_answered (fuel c k : nat) (sock : MapJs.web_socket)
    (peer : Server.socket) (w : MapJs.window) (s : Server.server) :
  MapJs.sockets w !! c = Some sock ->
  JSON_parse (JSON_stringify request_data) = Some request_data ->
  Server.intensity_ok (Server.somnathCrowdIntensity s) = true ->
  (67 <= fuel)%nat ->
  Server.sockets s !! k = Some peer -> Server.readyState peer = OPEN ->
  exists (n : nat) (s' : Server.server),
    MapJs.sockets (MapJs.step (MapJs.Opened c) w) !! c =
      Some (MapJs.mkWebSocket (MapJs.url sock) OPEN
              (MapJs.outbox sock ++ [JSON_stringify request_data])) /\
    Server.dispatch fuel (Server.Incoming k (JSON_stringify request_data)) s =
      Return tt s' /\
    Server.sockets s' !! k =
      Some (Server.mkSocket OPEN
              (Server.sent peer ++
                 [JSON_stringify
                    (Server.full_update
                       (Server.baseHeatmapData ++
                          (Server.SOMNATH_TEMPLE_lat, Server.SOMNATH_TEMPLE_lng,
                           Server.somnathCrowdIntensity s)
                          :: Server.satellites (Server.somnathCrowdIntensity s)
                               (Server.draws s) n)
                       "Somnath Temple crowd intensity: "
                       (Server.somnathCrowdIntensity s))])) /\
    (forall k', k' <> k -> Server.sockets s' !! k' = Server.sockets s !! k') /\
    Server.same_variables s s'.
Proof.
  intros Hc Hp Hok Hf Hk Hopen. set (request := request_data) in *.
  set (s1 := Server.logged s [mkEntry Log "Received:" [request]]).
  destruct (getCurrentHeatmapData_runs s1 Hok) as (n & Hn & Hg).
  specialize (Hg fuel ltac:(lia)).
  exists n. eexists. split; [|split].
  - unfold MapJs.step, MapJs.dispatch, MapJs.set_readyState, MapJs.onopen,
      MapJs.print, MapJs.send. run. rewrite Hc. cbn. rewrite lookup_insert_eq. cbn.
    rewrite insert_insert_eq. apply lookup_insert_eq.
  - cbn [Server.dispatch]. unfold Server.incoming, try_catch.
    unfold bind at 1. unfold lift_option. rewrite Hp. unfold ret.
    unfold bind at 1. rewrite print_runs. fold s1.
    unfold bind at 1. unfold Server.handle_request.
    unfold bind at 1.
    rewrite (is_request_runs request (VStr "request_data") s1 eq_refl).
    change (Server.requests_gujarat request) with true.
    unfold when. unfold bind at 1. rewrite Hg.
    unfold bind at 1. unfold get_state at 1. unfold Server.send.
    unfold bind at 1. unfold get_state at 1.
    cbn [Server.sockets Server.set_draws]. change (Server.sockets s1) with (Server.sockets s).
    rewrite Hk, Hopen. unfold modify.
    unfold bind at 1.
    rewrite (handle_set_crowd_intensity_runs request (VStr "request_data") _ eq_refl).
    rewrite (handle_toggle_gathering_runs request (VStr "request_data") _ eq_refl).
    reflexivity.
  - cbn. split; [apply lookup_insert_eq|].
    split; [intros k' Hne; apply lookup_insert_ne; congruence|].
    repeat split.
Qed.

End Relay.
End RelayTheorems.

(** ** The two programs together at concrete inputs *)

Module RelayExamples.
Import RelayTheorems Startup.

Lemma producer_update_is_displayed_witness :
  exists w',
    MapJs.dispatch (H := Echo.host [Echo.an_update])
      (MapJs.Message 0 (Demo.stringify Echo.an_update)) Demo.window_open =
      Return tt w' /\
    MapJs.heatmapLayer w' = Some (List.map Server.point_value Echo.two_points) /\
    MapJs.sockets w' = MapJs.sockets Demo.window_open /\
    MapJs.timers w' = MapJs.timers Demo.window_open.
Proof.
  apply (producer_update_is_displayed (H := Echo.host [Echo.an_update])
           Echo.two_points Echo.an_update 0 MapJs.fallbackStaticData
           Demo.window_open).
  - left. exists Demo.an_instant, (decimal 5 1). reflexivity.
  - vm_compute. reflexivity.
  - reflexivity.
Defined.

Lemma request_is_answered_witness :
  exists (n : nat) (s' : Server.server),
    MapJs.sockets (MapJs.step (H := Demo.host) (MapJs.Opened 0) Demo.window_open)
      !! 0%nat =
      Some (MapJs.mkWebSocket (VStr "ws://localhost:8080/heatmap-updates") OPEN
              ([Demo.stringify Demo.request_gujarat]
                 ++ [Demo.stringify request_data])) /\
    Server.dispatch (H := Demo.host) 67
      (Server.Incoming 0 (Demo.stringify request_data)) Demo.two_viewers =
      Return tt s' /\
    Server.sockets s' !! 0%nat =
      Some (Server.mkSocket OPEN
              ([] ++
                 [Demo.stringify
                    (Server.full_update (H := Demo.host)
                       (Server.baseHeatmapData ++
                          (Server.SOMNATH_TEMPLE_lat, Server.SOMNATH_TEMPLE_lng,
                           Server.somnathCrowdIntensity Demo.two_viewers)
                          :: Server.satellites (H := Demo.host)
                               (Server.somnathCrowdIntensity Demo.two_viewers)
                               (Server.draws Demo.two_viewers) n)
                       "Somnath Temple crowd intensity: "
                       (Server.somnathCrowdIntensity Demo.two_viewers))])) /\
    (forall k', k' <> 0%nat ->
       Server.sockets s' !! k' = Server.sockets Demo.two_viewers !! k') /\
    Server.same_variables Demo.two_viewers s'.
Proof.
  apply (request_is_answered (H := Demo.host) 67 0 0
           (MapJs.mkWebSocket (VStr "ws://localhost:8080/heatmap-updates") OPEN
              [Demo.stringify Demo.request_gujarat])
           (Server.mkSocket OPEN []) Demo.window_open Demo.two_viewers).
  - reflexivity.
  - vm_compute. reflexivity.
  - reflexivity.
  - lia.
  - reflexivity.
  - reflexivity.
Defined.

End RelayExamples.
